(** * The console session protocol of the control centre front end

    A shallow embedding of the two Vue components that speak the
    [/ws/exec] protocol:

    - the live console ([Console], the component with [handleMessage],
      [startScript], [sendStdin] and [killProcess]), and
    - the maintenance panel ([Panel], the component with [handleWsMessage],
      [checkStatus], [onStart], [onStop], [onUpdate] and the xterm
      keyboard hook).

    The reactive [ref]s of a component become the fields of a [State]
    record, every handler becomes a function on that record, and the
    browser (socket events, HTTP responses, the user) is the environment
    that chooses which handler runs next. *)

From Stdlib Require Import String Ascii List ZArith Bool Lia.
From Stdlib Require Import DecimalString.
Import ListNotations.
Open Scope string_scope.
Set Warnings "-register-all".

(* ================================================================== *)
(** * JavaScript values and the JSON built-ins                          *)
(* ================================================================== *)

Module Js.

(** A value as [JSON.parse] can produce it, plus [undefined] (the result
    of reading a property that is not there).  A number written as an
    integer literal is kept as that integer (exact, where JavaScript
    rounds beyond 2^53); a number written with a fraction or an exponent
    is kept as its literal, since its value is a binary64 float. *)
Inductive JsValue : Type :=
| JUndefined
| JNull
| JBool (b : bool)
| JNum (n : Z)
| JDec (lit : string)
| JStr (s : string)
| JArr (items : list JsValue)
| JObj (fields : list (string * JsValue)).

Definition string_of_Z (n : Z) : string :=
  NilZero.string_of_int (Z.to_int n).

Fixpoint join (sep : string) (l : list string) : string :=
  match l with
  | [] => ""
  | [x] => x
  | x :: rest => x ++ sep ++ join sep rest
  end.

(** [ToString], the conversion a template literal applies to [${...}],
    where that conversion returns (see [converts] below).  A number is
    printed as it was written; that is the text JavaScript prints for an
    integer literal of up to fifteen digits, while for other numbers
    JavaScript prints the shortest decimal that reads back as the same
    binary64 value ([1e3] prints as 1000).  No property stated below
    depends on the text of such a number. *)
Fixpoint ToString (v : JsValue) : string :=
  match v with
  | JUndefined => "undefined"
  | JNull => "null"
  | JBool true => "true"
  | JBool false => "false"
  | JNum n => string_of_Z n
  | JDec lit => lit
  | JStr s => s
  | JArr items =>
      join "," (map (fun x => match x with
                              | JUndefined | JNull => ""
                              | _ => ToString x
                              end) items)
  | JObj _ => "[object Object]"
  end.

(** Does that conversion return?  An object made by [JSON.parse] that
    has a member named [toString] hides the inherited method behind a
    value that cannot be called, and converting it is a TypeError; an
    array converts through its items.  [ToString] above is the text
    where this says there is one. *)
Fixpoint converts (v : JsValue) : bool :=
  match v with
  | JObj fields => negb (existsb (fun kv => fst kv =? "toString") fields)
  | JArr items =>
      forallb (fun x => match x with
                        | JUndefined | JNull => true
                        | _ => converts x
                        end) items
  | _ => true
  end.

Definition is_digit (c : ascii) : bool :=
  let n := nat_of_ascii c in (48 <=? n)%nat && (n <=? 57)%nat.

(** The longest run of decimal digits at the head of [s]. *)
Fixpoint span_digits (s : string) : string * string :=
  match s with
  | String c r =>
      if is_digit c then
        let '(ds, rest) := span_digits r in (String c ds, rest)
      else ("", s)
  | EmptyString => ("", s)
  end.

Fixpoint digits_value (acc : Z) (ds : string) : Z :=
  match ds with
  | String c r => digits_value (acc * 10 + Z.of_nat (nat_of_ascii c - 48)) r
  | EmptyString => acc
  end.

(** A number literal with a fraction or an exponent, as the exact
    decimal it writes: mantissa [m] (sign dropped) and exponent [e]
    stand for [m * 10^e]. *)
Definition decimal_of (lit : string) : Z * Z :=
  let unsigned := match lit with
                  | String "-" r => r
                  | _ => lit
                  end in
  let '(ip, r1) := span_digits unsigned in
  let '(fp, r2) := match r1 with
                   | String "." r => span_digits r
                   | _ => ("", r1)
                   end in
  let ex := match r2 with
            | String _ (String "-" r) => (- digits_value 0 (fst (span_digits r)))%Z
            | String _ (String "+" r) => digits_value 0 (fst (span_digits r))
            | String _ r => digits_value 0 (fst (span_digits r))
            | EmptyString => 0%Z
            end in
  (digits_value 0 (ip ++ fp), (ex - Z.of_nat (String.length fp))%Z).

(** Is the binary64 value nearest to [m * 10^e] zero?  It is when [m]
    is 0, and when the decimal is at most 2^-1075, half the smallest
    subnormal (a tie there goes to the even neighbour, 0). *)
Definition rounds_to_zero (m e : Z) : bool :=
  (m =? 0)%Z || ((e <? 0)%Z && (m * 2 ^ 1075 <=? 10 ^ (- e))%Z).

(** [ToBoolean]: what [if (v)] and [v || w] test. *)
Definition truthy (v : JsValue) : bool :=
  match v with
  | JUndefined | JNull => false
  | JBool b => b
  | JNum n => negb (n =? 0)%Z
  | JDec lit => let '(m, e) := decimal_of lit in negb (rounds_to_zero m e)
  | JStr s => negb (s =? "")
  | JArr _ | JObj _ => true
  end.

(** [a || b] *)
Definition js_or (a b : JsValue) : JsValue := if truthy a then a else b.

(** The own property [k] of an object built by [JSON.parse] or by an
    object literal; a key written twice keeps its last value. *)
Definition obj_get (k : string) (fields : list (string * JsValue)) : JsValue :=
  fold_left (fun acc kv => if (fst kv =? k) then snd kv else acc)
            fields JUndefined.

(** [v.k] for the keys this program reads ([type], [script], [data],
    [code], [signal], [message], [detail], [ok], [status]), none of
    which a prototype provides: reading one from [null] or [undefined]
    throws a TypeError ([None]), from any other non-object gives
    [undefined]. *)
Definition getProp (v : JsValue) (k : string) : option JsValue :=
  match v with
  | JUndefined | JNull => None
  | JObj fields => Some (obj_get k fields)
  | _ => Some JUndefined
  end.

(** ** JSON.parse *)

(** The double quote, code 34. *)
Definition dquote : ascii := "034"%char.

Definition is_ws (c : ascii) : bool :=
  let n := nat_of_ascii c in
  (n =? 32)%nat || (n =? 9)%nat || (n =? 10)%nat || (n =? 13)%nat.

Fixpoint skip_ws (s : string) : string :=
  match s with
  | String c r => if is_ws c then skip_ws r else s
  | EmptyString => s
  end.

Definition hex_val (c : ascii) : option nat :=
  let n := nat_of_ascii c in
  if (48 <=? n)%nat && (n <=? 57)%nat then Some (n - 48)%nat
  else if (65 <=? n)%nat && (n <=? 70)%nat then Some (n - 55)%nat
  else if (97 <=? n)%nat && (n <=? 102)%nat then Some (n - 87)%nat
  else None.

Definition hex4 (a b c d : ascii) : option nat :=
  match hex_val a, hex_val b, hex_val c, hex_val d with
  | Some x, Some y, Some z, Some w =>
      Some (((x * 16 + y) * 16 + z) * 16 + w)%nat
  | _, _, _, _ => None
  end.

(** Strings are byte strings holding UTF-8; a [\uXXXX] escape is stored
    as the UTF-8 bytes of that code unit. *)
Definition utf8 (n : nat) : string :=
  if (n <? 128)%nat then String (ascii_of_nat n) ""
  else if (n <? 2048)%nat then
    String (ascii_of_nat (192 + n / 64))
      (String (ascii_of_nat (128 + n mod 64)) "")
  else
    String (ascii_of_nat (224 + n / 4096))
      (String (ascii_of_nat (128 + (n / 64) mod 64))
         (String (ascii_of_nat (128 + n mod 64)) "")).

Definition unescape (e : ascii) : option ascii :=
  if (e =? dquote)%char then Some dquote
  else if (e =? "\")%char then Some "\"%char
  else if (e =? "/")%char then Some "/"%char
  else if (e =? "b")%char then Some (ascii_of_nat 8)
  else if (e =? "f")%char then Some (ascii_of_nat 12)
  else if (e =? "n")%char then Some (ascii_of_nat 10)
  else if (e =? "r")%char then Some (ascii_of_nat 13)
  else if (e =? "t")%char then Some (ascii_of_nat 9)
  else None.

Definition prepend (p : string) (r : option (string * string))
  : option (string * string) :=
  match r with
  | Some (body, rest) => Some (p ++ body, rest)
  | None => None
  end.

(** The characters of a string literal after its opening quote: the
    decoded contents and what follows the closing quote. *)
Fixpoint parse_chars (s : string) : option (string * string) :=
  match s with
  | EmptyString => None
  | String c r =>
      if (c =? dquote)%char then Some ("", r)
      else if (c =? "\")%char then
        match r with
        | EmptyString => None
        | String e r1 =>
            if (e =? "u")%char then
              match r1 with
              | String h1 (String h2 (String h3 (String h4 r2))) =>
                  match hex4 h1 h2 h3 h4 with
                  | Some n => prepend (utf8 n) (parse_chars r2)
                  | None => None
                  end
              | _ => None
              end
            else
              match unescape e with
              | Some x => prepend (String x "") (parse_chars r1)
              | None => None
              end
        end
      else if (nat_of_ascii c <? 32)%nat then None
      else prepend (String c "") (parse_chars r)
  end.

(** The integer part: a lone [0], or a run of digits that does not start
    with [0]. *)
Definition parse_int (s : string) : option (string * string) :=
  match s with
  | String c r =>
      if (c =? "0")%char then Some ("0", r)
      else if is_digit c then Some (span_digits s)
      else None
  | EmptyString => None
  end.

Definition parse_frac (s : string) : option (string * string) :=
  match s with
  | String "." r =>
      match span_digits r with
      | (EmptyString, _) => None
      | (ds, rest) => Some (String "." ds, rest)
      end
  | _ => Some ("", s)
  end.

Definition parse_exp (s : string) : option (string * string) :=
  match s with
  | String c r =>
      if (c =? "e")%char || (c =? "E")%char then
        let '(sign, r1) :=
          match r with
          | String "+" r1 => ("+", r1)
          | String "-" r1 => ("-", r1)
          | _ => ("", r)
          end in
        match span_digits r1 with
        | (EmptyString, _) => None
        | (ds, rest) => Some (String c (sign ++ ds), rest)
        end
      else Some ("", s)
  | EmptyString => Some ("", s)
  end.

Definition parse_number (s : string) : option (JsValue * string) :=
  let '(neg, s1) :=
    match s with
    | String "-" r => (true, r)
    | _ => (false, s)
    end in
  match parse_int s1 with
  | None => None
  | Some (ip, s2) =>
      match parse_frac s2 with
      | None => None
      | Some (fp, s3) =>
          match parse_exp s3 with
          | None => None
          | Some (ep, s4) =>
              match fp, ep with
              | EmptyString, EmptyString =>
                  let n := digits_value 0 ip in
                  Some (JNum (if neg then (- n)%Z else n), s4)
              | _, _ =>
                  Some (JDec ((if neg then "-" else "") ++ ip ++ fp ++ ep), s4)
              end
          end
      end
  end.

(** [strip p s]: [s] without its prefix [p], when it has it. *)
Fixpoint strip (p s : string) : option string :=
  match p, s with
  | EmptyString, _ => Some s
  | String a p', String b s' => if (a =? b)%char then strip p' s' else None
  | _, _ => None
  end.

(** A JSON value at the head of [s] (after white space), and the rest. *)
Fixpoint parse_value (fuel : nat) (s : string) {struct fuel}
  : option (JsValue * string) :=
  match fuel with
  | O => None
  | S fuel' =>
      match skip_ws s with
      | EmptyString => None
      | String c r =>
          if (c =? "{")%char then
            match skip_ws r with
            | String "}" r' => Some (JObj [], r')
            | _ => parse_members fuel' r []
            end
          else if (c =? "[")%char then
            match skip_ws r with
            | String "]" r' => Some (JArr [], r')
            | _ => parse_elements fuel' r []
            end
          else if (c =? dquote)%char then
            match parse_chars r with
            | Some (str, r') => Some (JStr str, r')
            | None => None
            end
          else if (c =? "-")%char || is_digit c then parse_number (String c r)
          else
            match strip "true" (String c r) with
            | Some r' => Some (JBool true, r')
            | None =>
                match strip "false" (String c r) with
                | Some r' => Some (JBool false, r')
                | None =>
                    match strip "null" (String c r) with
                    | Some r' => Some (JNull, r')
                    | None => None
                    end
                end
            end
      end
  end

with parse_elements (fuel : nat) (s : string) (acc : list JsValue)
  {struct fuel} : option (JsValue * string) :=
  match fuel with
  | O => None
  | S fuel' =>
      match parse_value fuel' s with
      | None => None
      | Some (v, r) =>
          match skip_ws r with
          | String "," r' => parse_elements fuel' r' (v :: acc)
          | String "]" r' => Some (JArr (rev (v :: acc)), r')
          | _ => None
          end
      end
  end

with parse_members (fuel : nat) (s : string) (acc : list (string * JsValue))
  {struct fuel} : option (JsValue * string) :=
  match fuel with
  | O => None
  | S fuel' =>
      match skip_ws s with
      | String "034" r =>
          match parse_chars r with
          | None => None
          | Some (k, r1) =>
              match skip_ws r1 with
              | String ":" r2 =>
                  match parse_value fuel' r2 with
                  | None => None
                  | Some (v, r3) =>
                      match skip_ws r3 with
                      | String "," r4 => parse_members fuel' r4 ((k, v) :: acc)
                      | String "}" r4 => Some (JObj (rev ((k, v) :: acc)), r4)
                      | _ => None
                      end
                  end
              | _ => None
              end
          end
      | _ => None
      end
  end.

(** [JSON.parse(text)]: [None] stands for the SyntaxError it throws.
    Every call of the parser consumes a character, so twice the length
    of the text is fuel enough. *)
Definition JSON_parse (text : string) : option JsValue :=
  match parse_value (2 * String.length text + 2) text with
  | Some (v, rest) =>
      match skip_ws rest with
      | EmptyString => Some v
      | _ => None
      end
  | None => None
  end.

(** ** JSON.stringify *)

Definition hex_digit (n : nat) : ascii :=
  if (n <? 10)%nat then ascii_of_nat (48 + n) else ascii_of_nat (87 + n).

(** One character of a string, as [JSON.stringify] writes it. *)
Definition escape_char (c : ascii) : string :=
  let n := nat_of_ascii c in
  if (c =? dquote)%char then String "\" (String dquote "")
  else if (c =? "\")%char then "\\"
  else if (n =? 8)%nat then "\b"
  else if (n =? 9)%nat then "\t"
  else if (n =? 10)%nat then "\n"
  else if (n =? 12)%nat then "\f"
  else if (n =? 13)%nat then "\r"
  else if (n <? 32)%nat then
    "\u00" ++ String (hex_digit (n / 16)) (String (hex_digit (n mod 16)) "")
  else String c "".

Fixpoint escape (s : string) : string :=
  match s with
  | String c r => escape_char c ++ escape r
  | EmptyString => ""
  end.

Definition quote (s : string) : string :=
  String dquote (escape s ++ String dquote "").

(** [JSON.stringify(v)], as [ws.send] transmits it: an [undefined]
    member of an object is left out, an [undefined] item of an array is
    written [null]. *)
Fixpoint JSON_stringify (v : JsValue) : string :=
  match v with
  | JUndefined => "undefined"
  | JNull => "null"
  | JBool true => "true"
  | JBool false => "false"
  | JNum n => string_of_Z n
  | JDec lit => lit
  | JStr s => quote s
  | JArr items =>
      "[" ++ join "," (map (fun x => match x with
                                     | JUndefined => "null"
                                     | _ => JSON_stringify x
                                     end) items) ++ "]"
  | JObj fields =>
      "{" ++ join "," (flat_map (fun kv =>
                         let '(k, x) := kv in
                         match x with
                         | JUndefined => []
                         | _ => [quote k ++ ":" ++ JSON_stringify x]
                         end) fields) ++ "}"
  end.

(** Frames are written below with ' for the double quote. *)
Definition dq_char (c : ascii) : ascii := if (c =? "'")%char then dquote else c.

Fixpoint dq (s : string) : string :=
  match s with
  | String c r => String (dq_char c) (dq r)
  | EmptyString => EmptyString
  end.

End Js.

Import Js.

(* ================================================================== *)
(** * What the two components share                                     *)
(* ================================================================== *)

(** The three strings [sessionState] is ever assigned. *)
Inductive SessionState : Type := idle | running | exited.

Definition SessionState_eqb (a b : SessionState) : bool :=
  match a, b with
  | idle, idle | running, running | exited, exited => true
  | _, _ => false
  end.

(** [WebSocket.readyState] *)
Inductive ReadyState : Type := CONNECTING | OPEN | CLOSING | CLOSED.

(** The socket object held in [ws.value]: where it points, its ready
    state, and the text frames handed to [send] so far. *)
Record WebSocket : Type := mkWebSocket {
  url : string;
  readyState : ReadyState;
  sent : list string
}.

Definition is_open (w : WebSocket) : bool :=
  match readyState w with OPEN => true | _ => false end.

(** [w.send(text)] on an open socket. *)
Definition ws_send (text : string) (w : WebSocket) : WebSocket :=
  mkWebSocket (url w) (readyState w) (sent w ++ [text]).

Definition ws_set_readyState (r : ReadyState) (w : WebSocket) : WebSocket :=
  mkWebSocket (url w) r (sent w).

(** [w.close()]: starts the closing handshake unless it has started. *)
Definition ws_close (w : WebSocket) : WebSocket :=
  match readyState w with
  | CLOSING | CLOSED => w
  | _ => ws_set_readyState CLOSING w
  end.

Definition ReadyState_eqb (a b : ReadyState) : bool :=
  match a, b with
  | CONNECTING, CONNECTING | OPEN, OPEN
  | CLOSING, CLOSING | CLOSED, CLOSED => true
  | _, _ => false
  end.

(** Is there a socket, in one of the ready states [rs]?  The browser
    fires [open] on a connecting socket, delivers messages on an open
    one, and fires [close] once on a socket that is not closed yet. *)
Definition socket_in (rs : list ReadyState) (w : option WebSocket) : bool :=
  match w with
  | Some w => existsb (ReadyState_eqb (readyState w)) rs
  | None => false
  end.

(** What a handler can throw. *)
Inductive Exception : Type :=
| TypeError
| Thrown (what : string).

(** How a handler ends: normally, or by an exception that leaves the
    state as it was when thrown. *)
Inductive Completion (S : Type) : Type :=
| Normal (st : S)
| Throw (e : Exception) (st : S).
Arguments Normal {S} st.
Arguments Throw {S} e st.

(** The state a handler leaves behind, however it ended. *)
Definition state_after {S : Type} (c : Completion S) : S :=
  match c with Normal st => st | Throw _ st => st end.

(** [msg.k] once [msg.type] has been read without a TypeError: [msg] is
    then neither [null] nor [undefined], and no later read can throw. *)
Definition field (msg : JsValue) (k : string) : JsValue :=
  match msg with
  | JObj fields => obj_get k fields
  | _ => JUndefined
  end.

(** [switch (v) { case 'tag': ... }] compares with [===]. *)
Definition is_case (v : JsValue) (tag : string) : bool :=
  match v with
  | JStr s => (s =? tag)
  | _ => false
  end.

Definition LF : string := String (ascii_of_nat 10) "".
Definition CR : string := String (ascii_of_nat 13) "".
Definition ESC : string := String (ascii_of_nat 27) "".

(** [apiUrl.replace(/^http/, 'ws') + `/ws/exec`] *)
Definition wsUrl_of (apiUrl : string) : string :=
  match strip "http" apiUrl with
  | Some rest => "ws" ++ rest ++ "/ws/exec"
  | None => apiUrl ++ "/ws/exec"
  end.

(** The command objects handed to [sendWsMessage]. *)
Definition cmd_start (script : string) : JsValue :=
  JObj [("action", JStr "start"); ("script", JStr script)].
Definition cmd_stdin (data : string) : JsValue :=
  JObj [("action", JStr "stdin"); ("data", JStr data)].
Definition cmd_kill : JsValue :=
  JObj [("action", JStr "kill")].

(* ================================================================== *)
(** * The live console component                                        *)
(* ================================================================== *)

Module Console.

Inductive LogType : Type := stdout | stderr | info | error.

(** An element of [lines]. *)
Record LogEntry : Type := mkLogEntry {
  type : LogType;
  data : JsValue
}.

(** The component's refs, and how many sockets [connect] has replaced
    in [ws.value] before their close event: the browser still reports
    on those, and their handlers are closures over the same refs. *)
Record State : Type := mkState {
  ws : option WebSocket;
  stdinData : string;
  selectedScript : string;
  isConnected : bool;
  sessionState : SessionState;
  scriptName : JsValue;
  exitCode : JsValue;
  lines : list LogEntry;
  replaced : nat
}.

(** The refs as the component creates them. *)
Definition initial : State :=
  mkState None "" "start" false idle JNull JNull [] 0.

Definition set_ws (v : option WebSocket) (st : State) : State :=
  mkState v (stdinData st) (selectedScript st) (isConnected st)
          (sessionState st) (scriptName st) (exitCode st) (lines st)
          (replaced st).
Definition set_stdinData (v : string) (st : State) : State :=
  mkState (ws st) v (selectedScript st) (isConnected st)
          (sessionState st) (scriptName st) (exitCode st) (lines st)
          (replaced st).
Definition set_selectedScript (v : string) (st : State) : State :=
  mkState (ws st) (stdinData st) v (isConnected st)
          (sessionState st) (scriptName st) (exitCode st) (lines st)
          (replaced st).
Definition set_isConnected (v : bool) (st : State) : State :=
  mkState (ws st) (stdinData st) (selectedScript st) v
          (sessionState st) (scriptName st) (exitCode st) (lines st)
          (replaced st).
Definition set_sessionState (v : SessionState) (st : State) : State :=
  mkState (ws st) (stdinData st) (selectedScript st) (isConnected st)
          v (scriptName st) (exitCode st) (lines st) (replaced st).
Definition set_scriptName (v : JsValue) (st : State) : State :=
  mkState (ws st) (stdinData st) (selectedScript st) (isConnected st)
          (sessionState st) v (exitCode st) (lines st) (replaced st).
Definition set_exitCode (v : JsValue) (st : State) : State :=
  mkState (ws st) (stdinData st) (selectedScript st) (isConnected st)
          (sessionState st) (scriptName st) v (lines st) (replaced st).
Definition set_lines (v : list LogEntry) (st : State) : State :=
  mkState (ws st) (stdinData st) (selectedScript st) (isConnected st)
          (sessionState st) (scriptName st) (exitCode st) v (replaced st).

Definition set_replaced (v : nat) (st : State) : State :=
  mkState (ws st) (stdinData st) (selectedScript st) (isConnected st)
          (sessionState st) (scriptName st) (exitCode st) (lines st) v.

(** The frames sent on the socket the component holds. *)
Definition outbox (st : State) : list string :=
  match ws st with
  | Some w => sent w
  | None => []
  end.

Definition addLog (ty : LogType) (d : JsValue) (st : State) : State :=
  set_lines (lines st ++ [mkLogEntry ty d]) st.

(** [ws.onopen] *)
Definition onopen (st : State) : State :=
  set_isConnected true st.

(** [ws.onclose] *)
Definition onclose (st : State) : State :=
  let st := set_isConnected false st in
  let st := set_sessionState idle st in
  let st := set_scriptName JNull st in
  addLog info (JStr "WebSocket Disconnected.") st.

(** [ws.onerror] *)
Definition onerror (st : State) : State :=
  addLog error (JStr "WebSocket connection error.") st.

(** [connect()]; [thrown] is what [new WebSocket(wsUrl)] throws, if it
    does.  The socket that [ws.value] held is asked to close and, when
    the new one is assigned, is no longer in [ws.value]; if its close
    event is still to come it is counted in [replaced]. *)
Definition connect (apiUrl : string) (thrown : option string) (st : State)
  : State :=
  let st := match ws st with
            | Some w => set_ws (Some (ws_close w)) st
            | None => st
            end in
  let wsUrl := wsUrl_of apiUrl in
  let st := addLog info (JStr ("Connecting to " ++ wsUrl ++ "...")) st in
  match thrown with
  | None =>
      let st := if socket_in [CONNECTING; OPEN; CLOSING] (ws st)
                then set_replaced (S (replaced st)) st
                else st in
      set_ws (Some (mkWebSocket wsUrl CONNECTING [])) st
  | Some e => addLog error (JStr ("Failed to connect: " ++ e)) st
  end.

Definition disconnect (st : State) : State :=
  match ws st with
  | Some w => set_ws (Some (ws_close w)) st
  | None => st
  end.

(** [addLog(ty, `...${v}...`)] for the values [vs] the template literal
    converts, whose text is [text]: a value that does not convert ends
    the handler with a TypeError before [addLog] is called. *)
Definition addLog_text (ty : LogType) (vs : list JsValue) (text : string)
  (st : State) : Completion State :=
  if forallb converts vs then Normal (addLog ty (JStr text) st)
  else Throw TypeError st.

(** The [switch (msg.type)] of [handleMessage]. *)
Definition dispatch (ty msg : JsValue) (st : State) : Completion State :=
  if is_case ty "ready" then
    let st := set_sessionState idle st in
    Normal (addLog info (JStr "Console ready. Select a script to start.") st)
  else if is_case ty "started" then
    let st := set_sessionState running st in
    let st := set_scriptName (field msg "script") st in
    let st := set_exitCode JNull st in
    addLog_text info [field msg "script"]
      ("--- Started script: " ++ ToString (field msg "script") ++ " ---")
      st
  else if is_case ty "stdout" then
    Normal (addLog stdout (field msg "data") st)
  else if is_case ty "stderr" then
    Normal (addLog stderr (field msg "data") st)
  else if is_case ty "exit" then
    let st := set_sessionState exited st in
    let st := set_exitCode (field msg "code") st in
    addLog_text info
      [field msg "code"; js_or (field msg "signal") (JStr "none")]
      ("--- Process exited with code " ++ ToString (field msg "code")
       ++ " (Signal: "
       ++ ToString (js_or (field msg "signal") (JStr "none"))
       ++ ") ---")
      st
  else if is_case ty "error" then
    addLog_text error
      [field msg "message"; js_or (field msg "detail") (JStr "")]
      ("[BACKEND ERROR] " ++ ToString (field msg "message") ++ LF
       ++ "Detail: " ++ ToString (js_or (field msg "detail") (JStr "")))
      st
  else
    addLog_text error [ty] ("Unknown message type: " ++ ToString ty) st.

Definition handleMessage (rawData : string) (st : State) : Completion State :=
  match JSON_parse rawData with
  | None =>
      Normal (addLog error (JStr ("Failed to parse JSON: " ++ rawData)) st)
  | Some msg =>
      match getProp msg "type" with
      | None => Throw TypeError st
      | Some ty => dispatch ty msg st
      end
  end.

Definition sendWsMessage (message : JsValue) (st : State) : State :=
  match ws st with
  | Some w =>
      if is_open w
      then set_ws (Some (ws_send (JSON_stringify message) w)) st
      else addLog error (JStr "WebSocket is not connected.") st
  | None => addLog error (JStr "WebSocket is not connected.") st
  end.

Definition killProcess (st : State) : State :=
  if negb (SessionState_eqb (sessionState st) running) then st
  else
    let st := addLog info (JStr "Sending KILL signal...") st in
    sendWsMessage cmd_kill st.

(** [startScript()]; [confirmed] is the answer [confirm(...)] gets when
    it is asked. *)
Definition startScript (confirmed : bool) (st : State) : State :=
  let go (st : State) :=
    let st := set_lines [] st in
    sendWsMessage (cmd_start (selectedScript st)) st in
  if SessionState_eqb (sessionState st) running then
    if negb confirmed then st
    else go (killProcess st)
  else go st.

Definition sendStdin (st : State) : State :=
  if negb (SessionState_eqb (sessionState st) running)
     || (stdinData st =? "")
  then st
  else
    let data := stdinData st ++ LF in
    let st1 := sendWsMessage (cmd_stdin data) st in
    let st1 := addLog info (JStr ("> " ++ stdinData st)) st1 in
    set_stdinData "" st1.

Definition allowedScripts : list string :=
  ["start"; "stop"; "restart"; "update"; "revert"; "clean"; "list-files"].

(** ** The component in its environment *)

(** What can happen to the component: the user operates a control of
    the template, or the browser reports on the socket in [ws.value],
    or it reports on a socket that [connect] has replaced.  Such a
    socket was asked to close before it was replaced, so it neither
    opens nor delivers a message any more: what is left to come from it
    is an error event, perhaps, and its close event. *)
Inductive Event : Type :=
| ClickConnect (apiUrl : string) (thrown : option string)
| ClickDisconnect
| Select (script : string)
| ClickStart (confirmed : bool)
| ClickKill
| TypeInput (text : string)
| PressEnter
| WsOpen
| WsClosing
| WsClose
| WsError
| WsMessage (rawData : string)
| ReplacedError
| ReplacedClose.

(** The [:disabled] and [v-if] conditions of the template. *)
Definition enabled (ev : Event) (st : State) : bool :=
  match ev with
  | ClickConnect _ _ => negb (isConnected st)
  | ClickDisconnect => isConnected st
  | Select s =>
      isConnected st && negb (SessionState_eqb (sessionState st) running)
      && existsb (String.eqb s) allowedScripts
  | ClickStart _ =>
      isConnected st && negb (SessionState_eqb (sessionState st) running)
  | ClickKill =>
      isConnected st && SessionState_eqb (sessionState st) running
  | TypeInput _ | PressEnter =>
      SessionState_eqb (sessionState st) running && isConnected st
  | WsOpen => socket_in [CONNECTING] (ws st)
  | WsClosing => socket_in [CONNECTING; OPEN] (ws st)
  | WsClose | WsError => socket_in [CONNECTING; OPEN; CLOSING] (ws st)
  | WsMessage _ => socket_in [OPEN] (ws st)
  | ReplacedError | ReplacedClose => (0 <? replaced st)%nat
  end.

Definition with_socket (f : WebSocket -> WebSocket) (st : State) : State :=
  match ws st with
  | Some w => set_ws (Some (f w)) st
  | None => st
  end.

(** One event: the browser updates the socket's ready state before it
    calls the handler; an exception that escapes a handler is reported
    on the developer console and the page goes on.  The handlers of a
    replaced socket are the same closures, [onerror] and [onclose]. *)
Definition step (st : State) (ev : Event) : State :=
  if negb (enabled ev st) then st
  else
    match ev with
    | ClickConnect apiUrl thrown => connect apiUrl thrown st
    | ClickDisconnect => disconnect st
    | Select s => set_selectedScript s st
    | ClickStart c => startScript c st
    | ClickKill => killProcess st
    | TypeInput text => set_stdinData text st
    | PressEnter => sendStdin st
    | WsOpen => onopen (with_socket (ws_set_readyState OPEN) st)
    | WsClosing => with_socket (ws_set_readyState CLOSING) st
    | WsClose => onclose (with_socket (ws_set_readyState CLOSED) st)
    | WsError => onerror st
    | WsMessage rawData => state_after (handleMessage rawData st)
    | ReplacedError => onerror st
    | ReplacedClose => onclose (set_replaced (pred (replaced st)) st)
    end.

Definition run (evs : list Event) (st : State) : State :=
  fold_left step evs st.

(** Does [ev], in [st], make [connect] replace a socket whose close
    event is still to come? *)
Definition replaces_live (ev : Event) (st : State) : bool :=
  match ev with
  | ClickConnect _ None =>
      enabled ev st && socket_in [CONNECTING; OPEN; CLOSING] (ws st)
  | _ => false
  end.

(** A run from [st] in which that never happens: Connect is pressed
    again only after the close event of the socket before. *)
Fixpoint single_socket (evs : list Event) (st : State) : bool :=
  match evs with
  | [] => true
  | ev :: evs => negb (replaces_live ev st) && single_socket evs (step st ev)
  end.

(** The values the template literal of a case converts to text. *)
Definition printed (ty msg : JsValue) : list JsValue :=
  if is_case ty "ready" then []
  else if is_case ty "started" then [field msg "script"]
  else if is_case ty "stdout" then []
  else if is_case ty "stderr" then []
  else if is_case ty "exit" then
    [field msg "code"; js_or (field msg "signal") (JStr "none")]
  else if is_case ty "error" then
    [field msg "message"; js_or (field msg "detail") (JStr "")]
  else [ty].

(** [st'] has the socket in the ready state it has in [st], and the
    same idea of being connected. *)
Definition same_link (st st' : State) : Prop :=
  (forall rs, socket_in rs (ws st') = socket_in rs (ws st))
  /\ isConnected st' = isConnected st.

(** What the component's flags say about the socket while no socket
    has been replaced: an open socket is known to be connected, and a
    session is under way only while connected. *)
Definition invariant (st : State) : Prop :=
  (socket_in [OPEN] (ws st) = true -> isConnected st = true)
  /\ (sessionState st <> idle -> isConnected st = true).

End Console.

(* ================================================================== *)
(** * The maintenance panel component                                   *)
(* ================================================================== *)

Module Panel.

(** What the component asks of the xterm terminal. *)
Inductive TermOp : Type :=
| write (d : JsValue)
| writeln (s : string)
| reset.

(** The component's refs, the [term] variable ([None] is [null]; a
    terminal is the sequence of calls made on it), and the calls of
    [apiClient.getStatus()] made so far and still unanswered. *)
Record State : Type := mkState {
  ws : option WebSocket;
  status : JsValue;
  loadingAction : option string;
  lastResponse : option JsValue;
  isWsConnected : bool;
  sessionState : SessionState;
  term : option (list TermOp);
  statusQueries : nat;
  statusPending : nat
}.

Definition initial : State :=
  mkState None (JStr "unknown") None None false idle None 0 0.

Definition set_ws (v : option WebSocket) (st : State) : State :=
  mkState v (status st) (loadingAction st) (lastResponse st)
          (isWsConnected st) (sessionState st) (term st)
          (statusQueries st) (statusPending st).
Definition set_status (v : JsValue) (st : State) : State :=
  mkState (ws st) v (loadingAction st) (lastResponse st)
          (isWsConnected st) (sessionState st) (term st)
          (statusQueries st) (statusPending st).
Definition set_loadingAction (v : option string) (st : State) : State :=
  mkState (ws st) (status st) v (lastResponse st)
          (isWsConnected st) (sessionState st) (term st)
          (statusQueries st) (statusPending st).
Definition set_lastResponse (v : option JsValue) (st : State) : State :=
  mkState (ws st) (status st) (loadingAction st) v
          (isWsConnected st) (sessionState st) (term st)
          (statusQueries st) (statusPending st).
Definition set_isWsConnected (v : bool) (st : State) : State :=
  mkState (ws st) (status st) (loadingAction st) (lastResponse st)
          v (sessionState st) (term st)
          (statusQueries st) (statusPending st).
Definition set_sessionState (v : SessionState) (st : State) : State :=
  mkState (ws st) (status st) (loadingAction st) (lastResponse st)
          (isWsConnected st) v (term st)
          (statusQueries st) (statusPending st).
Definition set_term (v : option (list TermOp)) (st : State) : State :=
  mkState (ws st) (status st) (loadingAction st) (lastResponse st)
          (isWsConnected st) (sessionState st) v
          (statusQueries st) (statusPending st).

Definition outbox (st : State) : list string :=
  match ws st with
  | Some w => sent w
  | None => []
  end.

(** [term?.op(...)] and [if(term) term.op(...)] *)
Definition term_do (op : TermOp) (st : State) : State :=
  match term st with
  | Some ops => set_term (Some (ops ++ [op])%list) st
  | None => st
  end.

(** [checkStatus()] up to its [await]: the request leaves. *)
Definition checkStatus (st : State) : State :=
  let st := set_loadingAction (Some "status") st in
  mkState (ws st) (status st) (loadingAction st) (lastResponse st)
          (isWsConnected st) (sessionState st) (term st)
          (S (statusQueries st)) (S (statusPending st)).

(** [checkStatus()] after its [await]: [response] is what
    [apiClient.getStatus()] resolved with, [{ok: true, data}] or the
    error it caught. *)
Definition checkStatus_resume (response : JsValue) (st : State)
  : Completion State :=
  let st := mkState (ws st) (status st) (loadingAction st) (lastResponse st)
                    (isWsConnected st) (sessionState st) (term st)
                    (statusQueries st) (pred (statusPending st)) in
  match getProp response "ok" with
  | None => Throw TypeError st
  | Some ok =>
      if truthy ok then
        match getProp (field response "data") "status" with
        | None => Throw TypeError st
        | Some s => Normal (set_loadingAction None (set_status s st))
        end
      else
        let st := set_status (JStr "error") st in
        let st := set_lastResponse (Some response) st in
        Normal (set_loadingAction None st)
  end.

Definition red (s : string) : string := ESC ++ "[31m" ++ s ++ ESC ++ "[0m".
Definition green (s : string) : string := ESC ++ "[32m" ++ s ++ ESC ++ "[0m".
Definition yellow (s : string) : string := ESC ++ "[33m" ++ s ++ ESC ++ "[0m".

(** [ws.onopen] *)
Definition onopen (st : State) : State :=
  let st := set_isWsConnected true st in
  term_do (writeln (CR ++ LF ++ green "WebSocket Connected.")) st.

(** [ws.onclose] *)
Definition onclose (st : State) : State :=
  let st := set_isWsConnected false st in
  let st := set_sessionState idle st in
  let st := term_do (writeln (CR ++ LF ++ red "WebSocket Disconnected.")) st in
  checkStatus st.

(** [ws.onerror] *)
Definition onerror (st : State) : State :=
  term_do (writeln (CR ++ LF ++ red "WebSocket connection error.")) st.

(** [connectWebSocket()]; nothing catches what [new WebSocket] throws. *)
Definition connectWebSocket (apiUrl : string) (thrown : option string)
  (st : State) : Completion State :=
  let st := match ws st with
            | Some w => set_ws (Some (ws_close w)) st
            | None => st
            end in
  let wsUrl := wsUrl_of apiUrl in
  let st := term_do (writeln ("Connecting to " ++ wsUrl ++ "...")) st in
  match thrown with
  | None => Normal (set_ws (Some (mkWebSocket wsUrl CONNECTING [])) st)
  | Some e => Throw (Thrown e) st
  end.

(** [initializeTerminal()], its imports succeeding; [client] is
    [process.client] and [container] says whether the template ref is
    bound. *)
Definition initializeTerminal (client container : bool) (st : State) : State :=
  match term st with
  | None =>
      if client && container then
        set_term (Some [writeln "Welcome to the Minecraft Server Console!";
                        writeln "Connecting to backend..."]) st
      else st
  | Some _ => st
  end.

(** [term?.op(`...${v}...`)]: without a terminal the argument is not
    evaluated; with one, the template literal converts [v] first, and a
    value that does not convert ends the handler with a TypeError
    before the terminal is called. *)
Definition term_print (v : JsValue) (op : TermOp) (st : State)
  : Completion State :=
  match term st with
  | Some _ => if converts v then Normal (term_do op st) else Throw TypeError st
  | None => Normal st
  end.

(** The statements after one that may throw. *)
Definition and_then (c : Completion State) (k : State -> Completion State)
  : Completion State :=
  match c with
  | Normal st => k st
  | Throw e st => Throw e st
  end.

(** The [switch (msg.type)] of [handleWsMessage]; it has no default. *)
Definition dispatch (ty msg : JsValue) (st : State) : Completion State :=
  if is_case ty "ready" then
    let st := set_sessionState idle st in
    Normal (term_do (writeln (CR ++ LF ++ green "Console is ready.")) st)
  else if is_case ty "started" then
    let st := set_sessionState running st in
    term_print (field msg "script")
      (writeln (CR ++ LF
                ++ yellow ("--- Starting script: "
                           ++ ToString (field msg "script") ++ " ---")
                ++ CR ++ LF)) st
  else if is_case ty "stdout" then
    Normal (term_do (write (field msg "data")) st)
  else if is_case ty "stderr" then
    term_print (field msg "data")
      (write (JStr (red (ToString (field msg "data"))))) st
  else if is_case ty "exit" then
    let st := set_sessionState exited st in
    and_then
      (term_print (field msg "code")
         (writeln (CR ++ LF
                   ++ yellow ("--- Process exited with code "
                              ++ ToString (field msg "code") ++ " ---"))) st)
      (fun st => Normal (checkStatus st))
  else if is_case ty "error" then
    and_then
      (term_print (field msg "message")
         (writeln (CR ++ LF
                   ++ red ("[BACKEND ERROR] "
                           ++ ToString (field msg "message")))) st)
      (fun st =>
         and_then
           (if truthy (field msg "detail")
            then term_print (field msg "detail")
                   (writeln (red ("  Detail: "
                                  ++ ToString (field msg "detail")))) st
            else Normal st)
           (fun st => Normal (set_sessionState exited st)))
  else Normal st.

Definition handleWsMessage (rawData : string) (st : State) : Completion State :=
  match JSON_parse rawData with
  | None =>
      Normal (term_do (writeln (CR ++ LF
                                ++ red ("[ERROR] Failed to parse JSON: "
                                        ++ rawData))) st)
  | Some msg =>
      match getProp msg "type" with
      | None => Throw TypeError st
      | Some ty => dispatch ty msg st
      end
  end.

Definition not_connected_line : TermOp :=
  writeln (CR ++ LF ++ red "[Error] WebSocket is not connected.").

Definition sendWsMessage (message : JsValue) (st : State) : State :=
  match ws st with
  | Some w =>
      if is_open w
      then set_ws (Some (ws_send (JSON_stringify message) w)) st
      else term_do not_connected_line st
  | None => term_do not_connected_line st
  end.

(** The handler given to [term.onData]. *)
Definition onData (data : string) (st : State) : State :=
  if SessionState_eqb (sessionState st) running && isWsConnected st
  then sendWsMessage (cmd_stdin data) st
  else st.

Definition onStart (st : State) : State :=
  if SessionState_eqb (sessionState st) running then st
  else
    let st := term_do reset st in
    let st := sendWsMessage (cmd_start "start-interactive") st in
    checkStatus st.

Definition onStop (st : State) : State :=
  if SessionState_eqb (sessionState st) running then
    sendWsMessage (cmd_stdin ("stop" ++ LF)) st
  else
    let st := term_do reset st in
    sendWsMessage (cmd_start "stop") st.

Definition onRestart (st : State) : State :=
  if SessionState_eqb (sessionState st) running then st
  else
    let st := term_do reset st in
    sendWsMessage (cmd_start "restart") st.

Definition onUpdate (st : State) : State :=
  if SessionState_eqb (sessionState st) running then st
  else
    let st := term_do reset st in
    sendWsMessage (cmd_start "update") st.

(** [onMounted] *)
Definition onMounted (client container : bool) (apiUrl : string)
  (thrown : option string) (st : State) : Completion State :=
  let st := initializeTerminal client container st in
  let st := checkStatus st in
  connectWebSocket apiUrl thrown st.

(** ** The component in its environment *)

(** What can happen to the mounted component. *)
Inductive Event : Type :=
| ClickStart
| ClickStop
| ClickUpdate
| Key (data : string)
| StatusResponse (response : JsValue)
| WsOpen
| WsClosing
| WsClose
| WsError
| WsMessage (rawData : string).

(** The [:disabled] conditions of the template; keys reach [onData]
    once the terminal exists, a status response needs a request. *)
Definition enabled (ev : Event) (st : State) : bool :=
  match ev with
  | ClickStart | ClickUpdate =>
      negb (SessionState_eqb (sessionState st) running) && isWsConnected st
  | ClickStop => isWsConnected st
  | Key _ => match term st with Some _ => true | None => false end
  | StatusResponse _ => (0 <? statusPending st)%nat
  | WsOpen => socket_in [CONNECTING] (ws st)
  | WsClosing => socket_in [CONNECTING; OPEN] (ws st)
  | WsClose | WsError => socket_in [CONNECTING; OPEN; CLOSING] (ws st)
  | WsMessage _ => socket_in [OPEN] (ws st)
  end.

Definition with_socket (f : WebSocket -> WebSocket) (st : State) : State :=
  match ws st with
  | Some w => set_ws (Some (f w)) st
  | None => st
  end.

Definition step (st : State) (ev : Event) : State :=
  if negb (enabled ev st) then st
  else
    match ev with
    | ClickStart => onStart st
    | ClickStop => onStop st
    | ClickUpdate => onUpdate st
    | Key data => onData data st
    | StatusResponse response => state_after (checkStatus_resume response st)
    | WsOpen => onopen (with_socket (ws_set_readyState OPEN) st)
    | WsClosing => with_socket (ws_set_readyState CLOSING) st
    | WsClose => onclose (with_socket (ws_set_readyState CLOSED) st)
    | WsError => onerror st
    | WsMessage rawData => state_after (handleWsMessage rawData st)
    end.

Definition run (evs : list Event) (st : State) : State :=
  fold_left step evs st.

End Panel.

(* ================================================================== *)
(** * Frames and sessions used as examples                              *)
(* ================================================================== *)

Definition apiUrl : string := "http://localhost:3000".

Definition frame_ready : string := dq "{'type':'ready'}".
Definition frame_started (script : string) : string :=
  dq ("{'type':'started','script':'" ++ script ++ "'}").
Definition frame_stdout : string :=
  dq "{'type':'stdout','data':'Server started\n'}".
Definition frame_exit (code : string) : string :=
  dq ("{'type':'exit','code':" ++ code ++ "}").
Definition frame_error : string :=
  dq "{'type':'error','message':'spawn failed'}".
Definition frame_bogus : string := dq "{'type':'bogus'}".
Definition frame_malformed : string := "{not json".

(** A console that has connected and been greeted. *)
Definition console_attached : list Console.Event :=
  [Console.ClickConnect apiUrl None; Console.WsOpen;
   Console.WsMessage frame_ready].

(** ... and has then started [script]. *)
Definition console_running (script : string) : list Console.Event :=
  (console_attached ++
   [Console.Select script; Console.ClickStart false;
    Console.WsMessage (frame_started script)])%list.

(** The panel once mounted in a browser. *)
Definition panel_mounted : Panel.State :=
  state_after (Panel.onMounted true true apiUrl None Panel.initial).

(** ... which then connects and attaches to the server. *)
Definition panel_running : list Panel.Event :=
  [Panel.WsOpen; Panel.WsMessage frame_ready; Panel.ClickStart;
   Panel.WsMessage (frame_started "start-interactive")].

(** The actions the console's handlers can turn down, and when they do:
    the condition under which the handler returns before it has done
    anything (for Start, that is after the confirmation dialog has been
    answered with no). *)
Module ConsoleGate.
Import Console.

Inductive Action : Type :=
| Start (confirmed : bool)
| SendInput
| Kill.

Definition perform (a : Action) (st : State) : State :=
  match a with
  | Start c => startScript c st
  | SendInput => sendStdin st
  | Kill => killProcess st
  end.

Definition rejects (a : Action) (st : State) : bool :=
  match a with
  | Start c => SessionState_eqb (sessionState st) running && negb c
  | SendInput =>
      negb (SessionState_eqb (sessionState st) running) || (stdinData st =? "")
  | Kill => negb (SessionState_eqb (sessionState st) running)
  end.

(** Did going from [st] to [st'] append an entry of kind error? *)
Definition logged_error (st st' : State) : bool :=
  existsb (fun e => match type e with error => true | _ => false end)
          (skipn (length (lines st)) (lines st')).

End ConsoleGate.

(** The same for the panel's buttons ([onStop] turns nothing down). *)
Module PanelGate.
Import Panel.

Inductive Action : Type := Start | Restart | Update.

Definition perform (a : Action) (st : State) : State :=
  match a with
  | Start => onStart st
  | Restart => onRestart st
  | Update => onUpdate st
  end.

Definition rejects (a : Action) (st : State) : bool :=
  SessionState_eqb (sessionState st) running.

End PanelGate.

(* ================================================================== *)
(** * What the console's template shows                                 *)
(* ================================================================== *)

Module ConsoleView.
Import Console.

(** [<div v-if="isConnected" class="session-state">], which encloses
    the two spans below. *)
Definition shows_session (st : State) : bool := isConnected st.

(** [<span v-if="scriptName">] inside it *)
Definition shows_scriptName (st : State) : bool :=
  shows_session st && truthy (scriptName st).


(** [s.replace(/\\n/g, '\n')]: from left to right, every backslash that
    an [n] follows becomes, with its [n], one newline. *)
Fixpoint replace_escaped_newlines (s : string) : string :=
  match s with
  | String c r =>
      match r with
      | String d r' =>
          if (c =? "\")%char && (d =? "n")%char
          then String (ascii_of_nat 10) (replace_escaped_newlines r')
          else String c (replace_escaped_newlines r)
      | EmptyString => s
      end
  | EmptyString => s
  end.

(** Is there a backslash that an [n] follows? *)
Fixpoint has_escaped_newline (s : string) : bool :=
  match s with
  | String c r =>
      match r with
      | String d _ =>
          ((c =? "\")%char && (d =? "n")%char) || has_escaped_newline r
      | EmptyString => false
      end
  | EmptyString => false
  end.

(** [line.data.replace(/\\n/g, '\n')], the text handed to the ANSI
    converter for a log line: only a string has [replace]; on anything
    else the call is a TypeError ([None]). *)
Definition render_input (d : JsValue) : option string :=
  match d with
  | JStr s => Some (replace_escaped_newlines s)
  | _ => None
  end.

(** The commands the console's handlers build. *)
Definition is_command (cmd : JsValue) : Prop :=
  (exists script, In script allowedScripts /\ cmd = cmd_start script)
  \/ (exists input, input <> "" /\ cmd = cmd_stdin (input ++ LF))
  \/ cmd = cmd_kill.

(** A text frame that is JSON for one of them. *)
Definition carries_command (frame : string) : Prop :=
  exists cmd, JSON_parse frame = Some cmd /\ is_command cmd.

(** More of what holds in every state the environment can drive the
    console to: the selected script is one of the offered ones, no
    script name is kept while disconnected, and the entries the
    component words itself (info, error) carry strings. *)
Definition offered (st : State) : Prop :=
  In (selectedScript st) allowedScripts.

Definition no_stale_script (st : State) : Prop :=
  isConnected st = false -> scriptName st = JNull.

Definition own_entry_is_text (e : LogEntry) : Prop :=
  match type e with
  | info | error => exists s, data e = JStr s
  | stdout | stderr => True
  end.

End ConsoleView.

(* ================================================================== *)
(** * The panel's flags, socket and commands                            *)
(* ================================================================== *)

Module PanelLink.
Import Panel.

Definition same_link (st st' : State) : Prop :=
  (forall rs, socket_in rs (ws st') = socket_in rs (ws st))
  /\ isWsConnected st' = isWsConnected st.

Definition invariant (st : State) : Prop :=
  (socket_in [OPEN] (ws st) = true -> isWsConnected st = true)
  /\ (sessionState st <> idle -> isWsConnected st = true).

(** From [st] to [st'] the socket, the flag and the HTTP status fields
    are kept, and the terminal, if there is one, is only written to. *)
Definition only_writes (st st' : State) : Prop :=
  ws st' = ws st
  /\ isWsConnected st' = isWsConnected st
  /\ status st' = status st
  /\ lastResponse st' = lastResponse st
  /\ exists more,
       Forall (fun op => op <> reset) more
       /\ term st' = option_map (fun ops => (ops ++ more)%list) (term st).

(** The values the template literals of a case convert to text, when
    there is a terminal to write to. *)
Definition printed (ty msg : JsValue) : list JsValue :=
  if is_case ty "ready" then []
  else if is_case ty "started" then [field msg "script"]
  else if is_case ty "stdout" then []
  else if is_case ty "stderr" then [field msg "data"]
  else if is_case ty "exit" then [field msg "code"]
  else if is_case ty "error" then
    field msg "message"
    :: (if truthy (field msg "detail") then [field msg "detail"] else [])
  else [].

(** The scripts the panel's buttons start. *)
Definition buttonScripts : list string :=
  ["start-interactive"; "stop"; "update"].

(** The commands the mounted panel builds. *)
Definition is_command (cmd : JsValue) : Prop :=
  (exists script, In script buttonScripts /\ cmd = cmd_start script)
  \/ (exists data, cmd = cmd_stdin data).

Definition carries_command (frame : string) : Prop :=
  exists cmd, JSON_parse frame = Some cmd /\ is_command cmd.

End PanelLink.

(* ================================================================== *)
(** * The HTTP client                                                   *)
(* ================================================================== *)

Module ApiClient.

(** What the error interceptor reads of a response. *)
Record FetchResponse : Type := mkFetchResponse {
  status : Z;
  statusText : string;
  _data : JsValue
}.

Definition no_details : string := "No error details provided by backend.".

(** The [errorData] object [onResponseError] rejects with;
    [response._data?.k] is [undefined] when there is no body. *)
Definition onResponseError (response : FetchResponse) : JsValue :=
  JObj [("ok", JBool false);
        ("status", JNum (status response));
        ("error", js_or (field (_data response) "error")
                        (JStr (statusText response)));
        ("details", js_or (field (_data response) "details")
                          (JStr no_details))].

(** How a call of [apiFetch] ends: with the body, with a response of
    status 400 to 599 (the interceptor runs, and its rejection is what
    the call rejects with), or with some other error thrown. *)
Inductive FetchOutcome : Type :=
| Fulfilled (data : JsValue)
| HttpError (response : FetchResponse)
| Failed (err : JsValue).

(** What [getStatus] and [post] resolve with: [{ok: true, data}], or
    the error they caught. *)
Definition settle (outcome : FetchOutcome) : JsValue :=
  match outcome with
  | Fulfilled data => JObj [("ok", JBool true); ("data", data)]
  | HttpError response => onResponseError response
  | Failed err => err
  end.

Definition getStatus : FetchOutcome -> JsValue := settle.
Definition post : FetchOutcome -> JsValue := settle.

End ApiClient.

(* ================================================================== *)
(** * The token store and its settings form                             *)
(* ================================================================== *)

Module Auth.

(** The shared [auth-token] state ([None] is [null]), the form's
    [localToken] ref, and the alerts shown. *)
Record State : Type := mkState {
  token : option string;
  localToken : string;
  alerts : list string
}.

Definition initial : State := mkState None "hogwarts" [].

(** [setToken] *)
Definition setToken (newToken : string) (st : State) : State :=
  mkState (Some newToken) (localToken st) (alerts st).

(** [isAuthenticated], that is [!!token.value] *)
Definition isAuthenticated (st : State) : bool :=
  match token st with
  | Some t => negb (t =? "")
  | None => false
  end.

(** [saveToken] *)
Definition saveToken (st : State) : State :=
  if negb (localToken st =? "") then
    let st := setToken (localToken st) st in
    mkState (token st) (localToken st)
            (alerts st ++ ["Token set for this session!"])
  else st.

(** The user edits the field, or presses the button. *)
Inductive Event : Type :=
| Input (text : string)
| ClickSave.

Definition step (st : State) (ev : Event) : State :=
  match ev with
  | Input text => mkState (token st) text (alerts st)
  | ClickSave => saveToken st
  end.

Definition run (evs : list Event) (st : State) : State :=
  fold_left step evs st.

End Auth.

(* ================================================================== *)
(** * Properties                                                        *)
(* ================================================================== *)

(** Facts about a concrete session are settled by running it. *)
Ltac conjuncts := repeat match goal with |- _ /\ _ => split end.
Ltac by_running := cbv zeta; conjuncts; vm_compute; reflexivity.

(** ** Values and frames *)

Lemma SessionState_eqb_eq (a b : SessionState) :
  SessionState_eqb a b = true <-> a = b.
Proof. destruct a, b; simpl; split; congruence. Qed.

Lemma SessionState_eqb_neq (a b : SessionState) :
  SessionState_eqb a b = false <-> a <> b.
Proof. destruct a, b; simpl; split; congruence. Qed.

(** A read that did not throw is the read [field] does. *)
Lemma getProp_field (msg : JsValue) (k : string) (v : JsValue) :
  getProp msg k = Some v -> v = field msg k.
Proof. destruct msg; simpl; congruence. Qed.

(** [msg.type] throws exactly on [null] and [undefined]. *)
Lemma getProp_None (msg : JsValue) (k : string) :
  getProp msg k = None <-> msg = JNull \/ msg = JUndefined.
Proof.
  destruct msg; simpl; split; intros H;
    try discriminate; try (destruct H; discriminate); auto.
Qed.

Lemma is_case_true (v : JsValue) (tag : string) :
  is_case v tag = true <-> v = JStr tag.
Proof.
  destruct v; simpl; split; try discriminate.
  - intros H. apply String.eqb_eq in H. now subst.
  - intros H. injection H as ->. apply String.eqb_refl.
Qed.

Example parse_ready :
  JSON_parse frame_ready = Some (JObj [("type", JStr "ready")]).
Proof. reflexivity. Qed.

Example parse_exit :
  JSON_parse (frame_exit "0")
  = Some (JObj [("type", JStr "exit"); ("code", JNum 0)]).
Proof. reflexivity. Qed.

Example parse_malformed : JSON_parse frame_malformed = None.
Proof. reflexivity. Qed.

Example parse_null : JSON_parse "null" = Some JNull.
Proof. reflexivity. Qed.

(** What is sent for a command parses back to the command. *)
Example stringify_parse_start :
  JSON_parse (JSON_stringify (cmd_start "update")) = Some (cmd_start "update").
Proof. reflexivity. Qed.

Example stringify_parse_stdin :
  JSON_parse (JSON_stringify (cmd_stdin ("say hi" ++ LF)))
  = Some (cmd_stdin ("say hi" ++ LF)).
Proof. reflexivity. Qed.

(** [JSON.parse] never yields [undefined]. *)
Lemma parse_number_defined (s r : string) (v : JsValue) :
  parse_number s = Some (v, r) -> v <> JUndefined.
Proof.
  unfold parse_number.
  destruct (match s with String "-" r0 => (true, r0) | _ => (false, s) end)
    as [neg s1].
  destruct (parse_int s1) as [[ip s2]|]; [|discriminate].
  destruct (parse_frac s2) as [[fp s3]|]; [|discriminate].
  destruct (parse_exp s3) as [[ep s4]|]; [|discriminate].
  destruct fp, ep; intros H; injection H as <- _; discriminate.
Qed.

Lemma parse_defined (fuel : nat) :
  (forall s v r, parse_value fuel s = Some (v, r) -> v <> JUndefined)
  /\ (forall s acc v r,
        parse_elements fuel s acc = Some (v, r) -> v <> JUndefined)
  /\ (forall s acc v r,
        parse_members fuel s acc = Some (v, r) -> v <> JUndefined).
Proof.
  induction fuel as [|fuel (IHv & IHe & IHm)]; [repeat split; discriminate|].
  repeat split.
  - intros s v r. simpl.
    destruct (skip_ws s) as [|c t]; [discriminate|].
    destruct (c =? "{")%char.
    { destruct (skip_ws t) as [|c' t']; [apply IHm|].
      destruct (Ascii.eqb_spec c' "}") as [->|Hc].
      - intros H; injection H as <- _; discriminate.
      - intros H. eapply IHm.
        destruct c' as [[] [] [] [] [] [] [] []]; try exact H.
        now contradiction Hc. }
    destruct (c =? "[")%char.
    { destruct (skip_ws t) as [|c' t']; [apply IHe|].
      destruct (Ascii.eqb_spec c' "]") as [->|Hc].
      - intros H; injection H as <- _; discriminate.
      - intros H. eapply IHe.
        destruct c' as [[] [] [] [] [] [] [] []]; try exact H.
        now contradiction Hc. }
    destruct (c =? dquote)%char.
    { destruct (parse_chars t) as [[str r']|]; [|discriminate].
      intros H; injection H as <- _; discriminate. }
    destruct ((c =? "-")%char || is_digit c); [apply parse_number_defined|].
    repeat match goal with
           | |- (match ?x with _ => _ end) = Some _ -> _ => destruct x
           end;
      try discriminate; intros H; injection H as <- _; discriminate.
  - intros s acc v r. simpl.
    destruct (parse_value fuel s) as [[v0 r0]|]; [|discriminate].
    destruct (skip_ws r0) as [|c t]; [discriminate|].
    destruct c as [[] [] [] [] [] [] [] []]; try discriminate.
    + intros H; injection H as <- _; discriminate.
    + apply IHe.
  - intros s acc v r. simpl.
    destruct (skip_ws s) as [|c t]; [discriminate|].
    destruct c as [[] [] [] [] [] [] [] []]; try discriminate.
    destruct (parse_chars t) as [[k r1]|]; [|discriminate].
    destruct (skip_ws r1) as [|c1 t1]; [discriminate|].
    destruct c1 as [[] [] [] [] [] [] [] []]; try discriminate.
    destruct (parse_value fuel t1) as [[v0 r3]|]; [|discriminate].
    destruct (skip_ws r3) as [|c3 t3]; [discriminate|].
    destruct c3 as [[] [] [] [] [] [] [] []]; try discriminate.
    + intros H; injection H as <- _; discriminate.
    + apply IHm.
Qed.

Lemma JSON_parse_defined (text : string) :
  JSON_parse text <> Some JUndefined.
Proof.
  unfold JSON_parse.
  destruct (parse_value _ text) as [[v rest]|] eqn:E; [|discriminate].
  destruct (skip_ws rest); [|discriminate].
  intros H. injection H as ->. now apply (proj1 (parse_defined _)) in E.
Qed.

(** ** What is sent reads back *)

Lemma append_assoc (a b c : string) : (a ++ b) ++ c = a ++ (b ++ c).
Proof. induction a as [|x a IH]; simpl; [reflexivity | now rewrite IH]. Qed.

(** Each character reads back from the way it is written. *)
Lemma parse_escape_char (c : ascii) (tail : string) :
  parse_chars (escape_char c ++ tail)
  = prepend (String c "") (parse_chars tail).
Proof. destruct c as [[] [] [] [] [] [] [] []]; reflexivity. Qed.

Lemma parse_chars_escape (s rest : string) :
  parse_chars (escape s ++ String dquote rest) = Some (s, rest).
Proof.
  induction s as [|c s IH]; [reflexivity|].
  cbn [escape]. rewrite append_assoc, parse_escape_char, IH. reflexivity.
Qed.

Lemma quote_append (s rest : string) :
  quote s ++ rest = String dquote (escape s ++ String dquote rest).
Proof. unfold quote. cbn [append]. now rewrite append_assoc. Qed.

Lemma parse_value_quote (fuel : nat) (s rest : string) :
  parse_value (S fuel) (quote s ++ rest) = Some (JStr s, rest).
Proof.
  rewrite quote_append.
  change (parse_value (S fuel) (String dquote (escape s ++ String dquote rest)))
    with (match parse_chars (escape s ++ String dquote rest) with
          | Some (str, r') => Some (JStr str, r')
          | None => None
          end).
  now rewrite parse_chars_escape.
Qed.

(** A member whose value is a string, read by [parse_members]. *)
Lemma parse_members_string (fuel : nat) (k v rest : string)
  (acc : list (string * JsValue)) :
  parse_members (S (S fuel)) (quote k ++ ":" ++ quote v ++ rest) acc
  = match skip_ws rest with
    | String "," r => parse_members (S fuel) r ((k, JStr v) :: acc)
    | String "}" r => Some (JObj (rev ((k, JStr v) :: acc)), r)
    | _ => None
    end.
Proof.
  rewrite quote_append.
  change (parse_members (S (S fuel))
            (String dquote (escape k ++ String dquote (":" ++ quote v ++ rest)))
            acc)
    with (match parse_chars
                  (escape k ++ String dquote (":" ++ quote v ++ rest)) with
          | None => None
          | Some (k0, r1) =>
              match skip_ws r1 with
              | String ":" r2 =>
                  match parse_value (S fuel) r2 with
                  | None => None
                  | Some (v0, r3) =>
                      match skip_ws r3 with
                      | String "," r4 =>
                          parse_members (S fuel) r4 ((k0, v0) :: acc)
                      | String "}" r4 =>
                          Some (JObj (rev ((k0, v0) :: acc)), r4)
                      | _ => None
                      end
                  end
              | _ => None
              end
          end).
  rewrite parse_chars_escape.
  change (skip_ws (":" ++ quote v ++ rest)) with (String ":" (quote v ++ rest)).
  cbv iota beta. now rewrite parse_value_quote.
Qed.

Lemma stringify_string_pair (k1 v1 k2 v2 : string) :
  JSON_stringify (JObj [(k1, JStr v1); (k2, JStr v2)])
  = "{" ++ quote k1 ++ ":" ++ quote v1 ++ ","
        ++ quote k2 ++ ":" ++ quote v2 ++ "}".
Proof.
  change (JSON_stringify (JObj [(k1, JStr v1); (k2, JStr v2)]))
    with ("{" ++ join "," [quote k1 ++ ":" ++ quote v1;
                           quote k2 ++ ":" ++ quote v2] ++ "}").
  cbn [join]. now rewrite !append_assoc.
Qed.

(** An object of two string members reads back from what
    [JSON.stringify] writes for it, whatever the strings. *)
Lemma string_pair_reads_back (k1 v1 k2 v2 : string) :
  JSON_parse (JSON_stringify (JObj [(k1, JStr v1); (k2, JStr v2)]))
  = Some (JObj [(k1, JStr v1); (k2, JStr v2)]).
Proof.
  rewrite stringify_string_pair. unfold JSON_parse.
  set (body := quote k1 ++ ":" ++ quote v1 ++ ","
               ++ quote k2 ++ ":" ++ quote v2 ++ "}").
  assert (Hfuel : exists n, 2 * String.length ("{" ++ body) + 2
                            = S (S (S (S n)))).
  { exists (2 * String.length body). cbn [append String.length]. lia. }
  destruct Hfuel as [n ->].
  change (parse_value (S (S (S (S n)))) ("{" ++ body))
    with (parse_members (S (S (S n))) body []).
  unfold body. rewrite parse_members_string.
  change (skip_ws ("," ++ quote k2 ++ ":" ++ quote v2 ++ "}"))
    with (String "," (quote k2 ++ ":" ++ quote v2 ++ "}")).
  cbv iota beta. rewrite parse_members_string. reflexivity.
Qed.

(** So do the three commands the components send. *)
Lemma stdin_frame_reads_back (data : string) :
  JSON_parse (JSON_stringify (cmd_stdin data)) = Some (cmd_stdin data).
Proof. apply string_pair_reads_back. Qed.

Lemma start_frame_reads_back (script : string) :
  JSON_parse (JSON_stringify (cmd_start script)) = Some (cmd_start script).
Proof. apply string_pair_reads_back. Qed.

Example kill_frame_reads_back :
  JSON_stringify cmd_kill = dq "{'action':'kill'}"
  /\ JSON_parse (JSON_stringify cmd_kill) = Some cmd_kill.
Proof. split; reflexivity. Qed.

(** ** The console's protocol handler *)

Section ConsoleHandler.
Import Console.

Variables (rawData : string) (msg : JsValue).
Hypothesis parsed : JSON_parse rawData = Some msg.

(** A parsed frame whose discriminator can be read goes to [dispatch]. *)
Lemma console_handle_tagged (ty : JsValue) (st : State) :
  getProp msg "type" = Some ty ->
  handleMessage rawData st = dispatch ty msg st.
Proof. intros Hty. unfold handleMessage. now rewrite parsed, Hty. Qed.

Lemma console_on_ready (st : State) :
  getProp msg "type" = Some (JStr "ready") ->
  handleMessage rawData st
  = Normal (addLog info (JStr "Console ready. Select a script to start.")
                   (set_sessionState idle st)).
Proof. intros Hty. now rewrite (console_handle_tagged (JStr "ready")). Qed.

(** The assignments of the started case come before its template
    literal, so they are made however the handler ends. *)
Lemma console_after_started (st : State) :
  getProp msg "type" = Some (JStr "started") ->
  let st' := state_after (handleMessage rawData st) in
  sessionState st' = running
  /\ scriptName st' = field msg "script"
  /\ exitCode st' = JNull.
Proof.
  intros Hty. rewrite (console_handle_tagged (JStr "started")) by assumption.
  unfold dispatch, addLog_text. cbn [is_case String.eqb Ascii.eqb Bool.eqb].
  now destruct (forallb converts _).
Qed.

(** With a script name that converts to text, the handler returns. *)
Lemma console_on_started (st : State) :
  getProp msg "type" = Some (JStr "started") ->
  converts (field msg "script") = true ->
  exists st',
    handleMessage rawData st = Normal st'
    /\ sessionState st' = running
    /\ scriptName st' = field msg "script"
    /\ exitCode st' = JNull.
Proof.
  intros Hty Hconv.
  rewrite (console_handle_tagged (JStr "started")) by assumption.
  unfold dispatch, addLog_text. cbn [is_case String.eqb Ascii.eqb Bool.eqb].
  cbn [forallb]. rewrite Hconv.
  eexists; split; [reflexivity | now simpl].
Qed.

(** The same for the exit case. *)
Lemma console_on_exit (st : State) :
  getProp msg "type" = Some (JStr "exit") ->
  let st' := state_after (handleMessage rawData st) in
  sessionState st' = exited
  /\ exitCode st' = field msg "code"
  /\ scriptName st' = scriptName st.
Proof.
  intros Hty. rewrite (console_handle_tagged (JStr "exit")) by assumption.
  unfold dispatch, addLog_text. cbn [is_case String.eqb Ascii.eqb Bool.eqb].
  now destruct (forallb converts _).
Qed.

(** The console only logs a backend error, if it gets that far. *)
Lemma console_on_error (st : State) :
  getProp msg "type" = Some (JStr "error") ->
  (exists d, handleMessage rawData st = Normal (addLog error (JStr d) st))
  \/ handleMessage rawData st = Throw TypeError st.
Proof.
  intros Hty. rewrite (console_handle_tagged (JStr "error")) by assumption.
  unfold dispatch, addLog_text. cbn [is_case String.eqb Ascii.eqb Bool.eqb].
  destruct (forallb converts _); [left; eexists; reflexivity | now right].
Qed.

(** A discriminator outside the six known ones is logged as an error,
    with the discriminator in the text, when it converts to text. *)
Lemma console_on_unknown (ty : JsValue) (st : State) :
  getProp msg "type" = Some ty ->
  (forall tag,
      In tag ["ready"; "started"; "stdout"; "stderr"; "exit"; "error"] ->
      ty <> JStr tag) ->
  handleMessage rawData st
  = if converts ty
    then Normal (addLog error
                   (JStr ("Unknown message type: " ++ ToString ty)) st)
    else Throw TypeError st.
Proof.
  intros Hty Hother. unfold handleMessage. rewrite parsed, Hty.
  unfold dispatch.
  assert (Hno : forall tag,
             In tag ["ready"; "started"; "stdout"; "stderr"; "exit"; "error"] ->
             is_case ty tag = false).
  { intros tag Hin. destruct (is_case ty tag) eqn:E; [|reflexivity].
    apply is_case_true in E. now apply Hother in Hin. }
  rewrite !Hno by (simpl; tauto). unfold addLog_text. cbn [forallb].
  now rewrite andb_true_r.
Qed.

End ConsoleHandler.

(** Text that is not JSON costs one error entry and nothing else. *)
Lemma console_on_syntax_error (rawData : string) (st : Console.State) :
  JSON_parse rawData = None ->
  Console.handleMessage rawData st
  = Normal (Console.addLog Console.error
              (JStr ("Failed to parse JSON: " ++ rawData)) st).
Proof. intros H. unfold Console.handleMessage. now rewrite H. Qed.

(** Whatever the handler throws is a TypeError, and it throws only on
    text that is JSON. *)
Lemma console_handler_throws (rawData : string) (st : Console.State) :
  forall e st',
    Console.handleMessage rawData st = Throw e st' ->
    e = TypeError /\ exists msg, JSON_parse rawData = Some msg.
Proof.
  intros e st'. unfold Console.handleMessage.
  destruct (JSON_parse rawData) as [m|] eqn:P; [|discriminate].
  destruct (getProp m "type") as [ty|] eqn:E.
  - unfold Console.dispatch, Console.addLog_text.
    repeat match goal with
           | |- context [if ?b then _ else _] => destruct b
           end;
      intros H; try discriminate H; injection H as <- _; eauto.
  - intros H. injection H as <- _. eauto.
Qed.

(** ** The panel's protocol handler *)

(** Writing to the terminal touches nothing but the terminal. *)
Lemma term_do_sessionState (op : Panel.TermOp) (st : Panel.State) :
  Panel.sessionState (Panel.term_do op st) = Panel.sessionState st.
Proof. unfold Panel.term_do. now destruct (Panel.term st). Qed.

Lemma term_do_statusQueries (op : Panel.TermOp) (st : Panel.State) :
  Panel.statusQueries (Panel.term_do op st) = Panel.statusQueries st.
Proof. unfold Panel.term_do. now destruct (Panel.term st). Qed.

Lemma term_do_outbox (op : Panel.TermOp) (st : Panel.State) :
  Panel.outbox (Panel.term_do op st) = Panel.outbox st.
Proof. unfold Panel.term_do. now destruct (Panel.term st). Qed.

Lemma term_do_isWsConnected (op : Panel.TermOp) (st : Panel.State) :
  Panel.isWsConnected (Panel.term_do op st) = Panel.isWsConnected st.
Proof. unfold Panel.term_do. now destruct (Panel.term st). Qed.

Create Rewrite HintDb panel.
#[local] Hint Rewrite term_do_sessionState term_do_statusQueries
  term_do_outbox term_do_isWsConnected : panel.

Section PanelPrint.
Import Panel.

Variables (v : JsValue) (op : TermOp) (st : State).

(** Without a terminal, or with a value that converts, the call
    returns, and it is the plain [term?.op(...)]. *)
Lemma term_print_returns :
  term st = None \/ converts v = true ->
  term_print v op st = Normal (term_do op st).
Proof.
  unfold term_print, term_do.
  destruct (term st) as [ops|]; [|reflexivity].
  intros [H | ->]; [discriminate H | reflexivity].
Qed.

(** With a terminal and a value that does not convert, it throws. *)
Lemma term_print_throws :
  term st <> None -> converts v = false ->
  term_print v op st = Throw TypeError st.
Proof.
  unfold term_print. destruct (term st) as [ops|]; [|now intros H].
  now intros _ ->.
Qed.

Lemma term_print_cases :
  term_print v op st = Normal (term_do op st)
  \/ (term_print v op st = Throw TypeError st
      /\ term st <> None /\ converts v = false).
Proof.
  destruct (term st) as [ops|] eqn:T.
  - destruct (converts v) eqn:C.
    + left. apply term_print_returns. now right.
    + right. split; [|split; [congruence | reflexivity]].
      apply term_print_throws; congruence.
  - left. apply term_print_returns. now left.
Qed.

End PanelPrint.

Lemma term_do_term_none (op : Panel.TermOp) (st : Panel.State) :
  Panel.term st = None -> Panel.term_do op st = st.
Proof. unfold Panel.term_do. now intros ->. Qed.

Section PanelHandler.
Import Panel.

Variables (rawData : string) (msg : JsValue).
Hypothesis parsed : JSON_parse rawData = Some msg.

Lemma panel_handle_tagged (ty : JsValue) (st : State) :
  getProp msg "type" = Some ty ->
  handleWsMessage rawData st = dispatch ty msg st.
Proof. intros Hty. unfold handleWsMessage. now rewrite parsed, Hty. Qed.

Lemma panel_on_ready (st : State) :
  getProp msg "type" = Some (JStr "ready") ->
  exists st',
    handleWsMessage rawData st = Normal st'
    /\ sessionState st' = idle
    /\ statusQueries st' = statusQueries st.
Proof.
  intros Hty. rewrite (panel_handle_tagged (JStr "ready")) by assumption.
  eexists; split; [reflexivity|].
  now autorewrite with panel.
Qed.

(** An exit frame moves the panel to [exited] and, when its line can
    be written, asks for the status. *)
Lemma panel_on_exit (st : State) :
  getProp msg "type" = Some (JStr "exit") ->
  term st = None \/ converts (field msg "code") = true ->
  exists st',
    handleWsMessage rawData st = Normal st'
    /\ sessionState st' = exited
    /\ statusQueries st' = S (statusQueries st)
    /\ loadingAction st' = Some "status".
Proof.
  intros Hty Hconv. rewrite (panel_handle_tagged (JStr "exit")) by assumption.
  unfold dispatch. cbn [is_case String.eqb Ascii.eqb Bool.eqb].
  rewrite term_print_returns by exact Hconv. cbn [and_then].
  eexists; split; [reflexivity|].
  cbn [sessionState statusQueries loadingAction checkStatus set_loadingAction].
  now autorewrite with panel.
Qed.

(** Otherwise the handler throws between the assignment and the
    status query. *)
Lemma panel_exit_throws (st : State) :
  getProp msg "type" = Some (JStr "exit") ->
  term st <> None -> converts (field msg "code") = false ->
  handleWsMessage rawData st = Throw TypeError (set_sessionState exited st).
Proof.
  intros Hty Hterm Hconv.
  rewrite (panel_handle_tagged (JStr "exit")) by assumption.
  unfold dispatch. cbn [is_case String.eqb Ascii.eqb Bool.eqb].
  now rewrite term_print_throws.
Qed.

(** An error frame whose lines can be written moves the panel to
    [exited] too, and asks nothing. *)
Lemma panel_on_error (st : State) :
  getProp msg "type" = Some (JStr "error") ->
  term st = None
  \/ forallb converts (PanelLink.printed (JStr "error") msg) = true ->
  exists st',
    handleWsMessage rawData st = Normal st'
    /\ sessionState st' = exited
    /\ statusQueries st' = statusQueries st.
Proof.
  intros Hty Hconv. rewrite (panel_handle_tagged (JStr "error")) by assumption.
  unfold dispatch. cbn [is_case String.eqb Ascii.eqb Bool.eqb].
  unfold PanelLink.printed in Hconv.
  cbn [is_case String.eqb Ascii.eqb Bool.eqb forallb] in Hconv.
  rewrite term_print_returns
    by (destruct Hconv as [H | H]; [now left | right];
        now apply andb_true_iff in H).
  cbn [and_then].
  destruct (truthy (field msg "detail")).
  - rewrite term_print_returns.
    + cbn [and_then]. eexists; split; [reflexivity|].
      cbn [sessionState statusQueries set_sessionState].
      now autorewrite with panel.
    + destruct Hconv as [H | H].
      * left. now rewrite term_do_term_none.
      * right. cbn [forallb] in H.
        apply andb_true_iff in H as [_ H]. now apply andb_true_iff in H.
  - cbn [and_then]. eexists; split; [reflexivity|].
    cbn [sessionState statusQueries set_sessionState].
    now autorewrite with panel.
Qed.

(** Otherwise the handler throws before the assignment, the phase as
    it was. *)
Lemma panel_error_throws (st : State) :
  getProp msg "type" = Some (JStr "error") ->
  term st <> None ->
  forallb converts (PanelLink.printed (JStr "error") msg) = false ->
  exists st',
    handleWsMessage rawData st = Throw TypeError st'
    /\ sessionState st' = sessionState st
    /\ statusQueries st' = statusQueries st.
Proof.
  intros Hty Hterm Hconv.
  rewrite (panel_handle_tagged (JStr "error")) by assumption.
  unfold dispatch. cbn [is_case String.eqb Ascii.eqb Bool.eqb].
  unfold PanelLink.printed in Hconv.
  cbn [is_case String.eqb Ascii.eqb Bool.eqb forallb] in Hconv.
  destruct (converts (field msg "message")) eqn:Cm.
  - rewrite term_print_returns by now right. cbn [and_then].
    destruct (truthy (field msg "detail")); [|discriminate Hconv].
    cbn [forallb andb] in Hconv. rewrite andb_true_r in Hconv.
    rewrite term_print_throws.
    + cbn [and_then]. eexists; split; [reflexivity|].
      now autorewrite with panel.
    + unfold term_do. destruct (term st); [discriminate | now contradiction Hterm].
    + exact Hconv.
  - rewrite term_print_throws by assumption.
    cbn [and_then]. eexists; split; [reflexivity | now split].
Qed.

(** The panel's switch has no default: any other discriminator leaves
    the component as it was, terminal included. *)
Lemma panel_on_unknown (ty : JsValue) (st : State) :
  getProp msg "type" = Some ty ->
  (forall tag,
      In tag ["ready"; "started"; "stdout"; "stderr"; "exit"; "error"] ->
      ty <> JStr tag) ->
  handleWsMessage rawData st = Normal st.
Proof.
  intros Hty Hother. unfold handleWsMessage. rewrite parsed, Hty.
  unfold dispatch.
  assert (Hno : forall tag,
             In tag ["ready"; "started"; "stdout"; "stderr"; "exit"; "error"] ->
             is_case ty tag = false).
  { intros tag Hin. destruct (is_case ty tag) eqn:E; [|reflexivity].
    apply is_case_true in E. now apply Hother in Hin. }
  rewrite !Hno by (simpl; tauto). reflexivity.
Qed.

End PanelHandler.

(** ** Disconnection *)

(** What [onclose] resets in the console, and what it leaves. *)
Lemma console_onclose_resets (st : Console.State) :
  let st' := Console.onclose st in
  Console.isConnected st' = false
  /\ Console.sessionState st' = idle
  /\ Console.scriptName st' = JNull
  /\ Console.exitCode st' = Console.exitCode st.
Proof. now simpl. Qed.

(** The panel's [onclose] resets the phase and asks for the status. *)
Lemma panel_onclose_resets (st : Panel.State) :
  let st' := Panel.onclose st in
  Panel.isWsConnected st' = false
  /\ Panel.sessionState st' = idle
  /\ Panel.statusQueries st' = S (Panel.statusQueries st).
Proof.
  unfold Panel.onclose; simpl. now autorewrite with panel.
Qed.

(** ** Claims about the protocol events *)

(** C1. A BackendError event must leave the session in Exited from every
    phase.  The console does not do that: in a session that runs the
    script "start", the frame [{"type":"error","message":"spawn failed"}]
    adds an error entry to the log and leaves [sessionState] at
    [running].  The panel, handed the same frame in a running session,
    moves to [exited]. *)
Theorem console_backend_error_stays_running :
  let st := Console.run (console_running "start") Console.initial in
  let pst := Panel.run panel_running panel_mounted in
  Console.sessionState st = running
  /\ Panel.sessionState pst = running
  /\ (exists st',
        Console.handleMessage frame_error st = Normal st'
        /\ Console.sessionState st' = running
        /\ Console.lines st'
           = (Console.lines st
              ++ [Console.mkLogEntry Console.error
                    (JStr ("[BACKEND ERROR] spawn failed" ++ LF ++ "Detail: "))])%list)
  /\ (exists pst',
        Panel.handleWsMessage frame_error pst = Normal pst'
        /\ Panel.sessionState pst' = exited).
Proof.
  cbv zeta. conjuncts.
  - by_running.
  - by_running.
  - eexists. conjuncts; vm_compute; reflexivity.
  - eexists. conjuncts; vm_compute; reflexivity.
Qed.

(** C2. When the transport closes, the phase must become Idle and the
    script name, exit code and exit signal must be cleared.  The console
    clears the first two and keeps the exit code (it stores no signal):
    after a script has exited with code 1, the close event leaves
    [exitCode] at 1. *)
Theorem console_close_keeps_exit_code :
  let st := Console.run (console_running "start"
                         ++ [Console.WsMessage (frame_exit "1")])
                        Console.initial in
  let st' := Console.step st Console.WsClose in
  Console.sessionState st = exited
  /\ Console.exitCode st = JNum 1
  /\ Console.sessionState st' = idle
  /\ Console.scriptName st' = JNull
  /\ Console.exitCode st' = JNum 1.
Proof. by_running. Qed.

(** C3, as the spec states it, fails: after the script "start" has
    exited with code 0, a Ready event leaves both the script name and
    the exit code in place. *)
Lemma ready_does_not_clear :
  let st := Console.run (console_running "start"
                         ++ [Console.WsMessage (frame_exit "0");
                             Console.WsMessage frame_ready])
                        Console.initial in
  Console.sessionState st = idle
  /\ ~ (Console.scriptName st = JNull /\ Console.exitCode st = JNull).
Proof.
  cbv zeta. split; [vm_compute; reflexivity|].
  intros [H _]. vm_compute in H. discriminate.
Qed.

(** C3, amended.  For every current phase, a Ready event sets the phase
    to Idle; the console leaves the script name and the exit code as
    they were and appends one info entry. *)
Theorem ready_sets_idle_only (rawData : string) (msg : JsValue)
  (parsed : JSON_parse rawData = Some msg)
  (tagged : getProp msg "type" = Some (JStr "ready")) :
  (forall st, exists st',
      Console.handleMessage rawData st = Normal st'
      /\ Console.sessionState st' = idle
      /\ Console.scriptName st' = Console.scriptName st
      /\ Console.exitCode st' = Console.exitCode st
      /\ Console.lines st'
         = (Console.lines st
            ++ [Console.mkLogEntry Console.info
                  (JStr "Console ready. Select a script to start.")])%list)
  /\ (forall pst, exists pst',
        Panel.handleWsMessage rawData pst = Normal pst'
        /\ Panel.sessionState pst' = idle).
Proof.
  split.
  - intros st. rewrite (console_on_ready _ _ parsed) by assumption.
    eexists. split; [reflexivity|]. now simpl.
  - intros pst.
    destruct (panel_on_ready _ _ parsed pst tagged) as (pst' & E & Hs & _).
    eauto.
Qed.

Lemma ready_sets_idle_only_witness :
  (forall st, exists st',
      Console.handleMessage frame_ready st = Normal st'
      /\ Console.sessionState st' = idle
      /\ Console.scriptName st' = Console.scriptName st
      /\ Console.exitCode st' = Console.exitCode st
      /\ Console.lines st'
         = (Console.lines st
            ++ [Console.mkLogEntry Console.info
                  (JStr "Console ready. Select a script to start.")])%list)
  /\ (forall pst, exists pst',
        Panel.handleWsMessage frame_ready pst = Normal pst'
        /\ Panel.sessionState pst' = idle).
Proof.
  apply (ready_sets_idle_only frame_ready (JObj [("type", JStr "ready")]));
    reflexivity.
Defined.

(** ** Sending on the console's socket *)

Lemma socket_in_open (w : WebSocket) :
  socket_in [OPEN] (Some w) = is_open w.
Proof. unfold socket_in, is_open. now destruct (readyState w). Qed.

Section ConsoleSend.
Import Console.

Variables (message : JsValue) (st : State).

(** On an open socket the frame leaves and the log stays. *)
Lemma console_send_open :
  socket_in [OPEN] (ws st) = true ->
  outbox (sendWsMessage message st) = (outbox st ++ [JSON_stringify message])%list
  /\ lines (sendWsMessage message st) = lines st.
Proof.
  unfold sendWsMessage, outbox. destruct (ws st) as [w|] eqn:E; [|discriminate].
  rewrite socket_in_open. intros ->. now simpl.
Qed.

(** Otherwise nothing leaves and the log says so. *)
Lemma console_send_not_open :
  socket_in [OPEN] (ws st) = false ->
  outbox (sendWsMessage message st) = outbox st
  /\ lines (sendWsMessage message st)
     = (lines st ++ [mkLogEntry error (JStr "WebSocket is not connected.")])%list.
Proof.
  unfold sendWsMessage, outbox. destruct (ws st) as [w|] eqn:E.
  - rewrite socket_in_open. intros ->. simpl. now rewrite E.
  - intros _. simpl. now rewrite E.
Qed.

Lemma console_send_sessionState :
  sessionState (sendWsMessage message st) = sessionState st.
Proof.
  unfold sendWsMessage. destruct (ws st) as [w|]; [|reflexivity].
  now destruct (is_open w).
Qed.

(** A frame leaves only through an open socket. *)
Lemma console_send_outbox_changed :
  outbox (sendWsMessage message st) <> outbox st ->
  socket_in [OPEN] (ws st) = true.
Proof.
  destruct (socket_in [OPEN] (ws st)) eqn:E; [reflexivity|].
  intros H. now destruct (console_send_not_open E) as [Ho _].
Qed.

End ConsoleSend.

(** ** The console's flags and its socket *)

Section ConsoleInvariant.
Import Console.

Lemma same_link_refl (st : State) : same_link st st.
Proof. now split. Qed.

Lemma same_link_trans (a b c : State) :
  same_link a b -> same_link b c -> same_link a c.
Proof.
  intros [H1 H2] [H3 H4]. split; [|congruence].
  intros rs. now rewrite H3, H1.
Qed.

Lemma addLog_same_link (ty : LogType) (d : JsValue) (st : State) :
  same_link st (addLog ty d st).
Proof. now split. Qed.

Lemma sendWsMessage_same_link (m : JsValue) (st : State) :
  same_link st (sendWsMessage m st).
Proof.
  unfold sendWsMessage. destruct (ws st) as [w|] eqn:E.
  - destruct (is_open w); [|apply addLog_same_link].
    split; [|reflexivity]. intros rs. simpl. now rewrite E.
  - apply addLog_same_link.
Qed.

Lemma dispatch_same_link (ty msg : JsValue) (st : State) :
  same_link st (state_after (dispatch ty msg st)).
Proof.
  unfold dispatch, addLog_text.
  repeat match goal with
         | |- context [if ?b then _ else _] => destruct b
         end; now split.
Qed.

Lemma killProcess_same_link (st : State) : same_link st (killProcess st).
Proof.
  unfold killProcess. destruct (negb _); [apply same_link_refl|].
  eapply same_link_trans; [apply addLog_same_link | apply sendWsMessage_same_link].
Qed.

Lemma startScript_same_link (c : bool) (st : State) :
  same_link st (startScript c st).
Proof.
  unfold startScript.
  assert (Hgo : forall x,
             same_link x (sendWsMessage (cmd_start (selectedScript (set_lines [] x)))
                            (set_lines [] x))).
  { intros x. eapply same_link_trans; [|apply sendWsMessage_same_link]. now split. }
  destruct (SessionState_eqb _ _); [|apply Hgo].
  destruct (negb c); [apply same_link_refl|].
  eapply same_link_trans; [apply killProcess_same_link | apply Hgo].
Qed.

Lemma sendStdin_same_link (st : State) : same_link st (sendStdin st).
Proof.
  unfold sendStdin. destruct (_ || _); [apply same_link_refl|].
  eapply same_link_trans; [apply sendWsMessage_same_link|]. now split.
Qed.

Lemma killProcess_sessionState (st : State) :
  sessionState (killProcess st) = sessionState st.
Proof.
  unfold killProcess. destruct (negb _); [reflexivity|].
  now rewrite console_send_sessionState.
Qed.

Lemma startScript_sessionState (c : bool) (st : State) :
  sessionState (startScript c st) = sessionState st.
Proof.
  unfold startScript.
  destruct (SessionState_eqb _ _); [destruct (negb c); [reflexivity|]|];
    rewrite console_send_sessionState; [apply killProcess_sessionState|reflexivity].
Qed.

Lemma sendStdin_sessionState (st : State) :
  sessionState (sendStdin st) = sessionState st.
Proof.
  unfold sendStdin. destruct (_ || _); [reflexivity|].
  cbn [sessionState set_stdinData addLog set_lines].
  apply console_send_sessionState.
Qed.

(** A handler that keeps the link and the phase keeps the invariant. *)
Lemma invariant_same_link (st st' : State) :
  same_link st st' -> sessionState st' = sessionState st ->
  invariant st -> invariant st'.
Proof.
  intros [Hs Hc] Hp [I1 I2]. split.
  - rewrite Hs, Hc. exact I1.
  - rewrite Hp, Hc. exact I2.
Qed.

Lemma ws_close_not_open (w : WebSocket) :
  socket_in [OPEN] (Some (ws_close w)) = false.
Proof. unfold ws_close. now destruct w as [u [] l]. Qed.

(** Asking a socket to close does not bring its close event. *)
Lemma ws_close_live (w : WebSocket) :
  socket_in [CONNECTING; OPEN; CLOSING] (Some (ws_close w))
  = socket_in [CONNECTING; OPEN; CLOSING] (Some w).
Proof. unfold ws_close. now destruct w as [u [] l]. Qed.

(** [connect] leaves a socket that is not open yet, or none. *)
Lemma connect_not_open (api : string) (thrown : option string) (st : State) :
  socket_in [OPEN] (ws (connect api thrown st)) = false.
Proof.
  unfold connect. destruct thrown; [|reflexivity].
  destruct (ws st) as [w|] eqn:E; cbn [ws addLog set_lines set_ws].
  - apply ws_close_not_open.
  - now rewrite E.
Qed.

Lemma connect_sessionState (api : string) (thrown : option string) (st : State) :
  sessionState (connect api thrown st) = sessionState st.
Proof.
  unfold connect.
  destruct thrown, (ws st); try reflexivity;
    now destruct (socket_in _ _).
Qed.

(** [connect] counts a socket exactly when it replaces one whose close
    event is still to come. *)
Lemma connect_replaced (api : string) (thrown : option string) (st : State) :
  replaced (connect api thrown st)
  = match thrown with
    | None =>
        if socket_in [CONNECTING; OPEN; CLOSING] (ws st)
        then S (replaced st) else replaced st
    | Some _ => replaced st
    end.
Proof.
  unfold connect. destruct thrown.
  - now destruct (ws st).
  - destruct (ws st) as [w|] eqn:E;
      cbn [ws addLog set_lines set_ws replaced]; rewrite ?E, ?ws_close_live;
      now destruct (socket_in _ _).
Qed.

Lemma sendWsMessage_replaced (m : JsValue) (st : State) :
  replaced (sendWsMessage m st) = replaced st.
Proof.
  unfold sendWsMessage. destruct (ws st) as [w|]; [|reflexivity].
  now destruct (is_open w).
Qed.

Lemma killProcess_replaced (st : State) :
  replaced (killProcess st) = replaced st.
Proof.
  unfold killProcess. destruct (negb _); [reflexivity|].
  now rewrite sendWsMessage_replaced.
Qed.

Lemma startScript_replaced (c : bool) (st : State) :
  replaced (startScript c st) = replaced st.
Proof.
  unfold startScript.
  destruct (SessionState_eqb _ _); [destruct (negb c); [reflexivity|]|];
    rewrite sendWsMessage_replaced; cbn [replaced set_lines];
    [apply killProcess_replaced | reflexivity].
Qed.

Lemma message_replaced (rawData : string) (st : State) :
  replaced (state_after (handleMessage rawData st)) = replaced st.
Proof.
  unfold handleMessage.
  destruct (JSON_parse rawData) as [msg|]; [|reflexivity].
  destruct (getProp msg "type") as [ty|]; [|reflexivity].
  unfold dispatch, addLog_text.
  repeat match goal with
         | |- context [if ?b then _ else _] => destruct b
         end; reflexivity.
Qed.

(** While nothing has been replaced, only a Connect that replaces a
    live socket changes that. *)
Lemma step_replaced (st : State) (ev : Event) :
  replaced st = 0%nat -> replaces_live ev st = false ->
  replaced (step st ev) = 0%nat.
Proof.
  intros Hz Hlive. unfold step. destruct (enabled ev st) eqn:En; [|exact Hz].
  cbn [negb]. destruct ev; try exact Hz.
  - (* connect *)
    rewrite connect_replaced. destruct thrown; [exact Hz|].
    cbn [replaces_live] in Hlive. rewrite En in Hlive. cbn [andb] in Hlive.
    now rewrite Hlive.
  - unfold disconnect. now destruct (ws st).
  - now rewrite startScript_replaced.
  - now rewrite killProcess_replaced.
  - unfold sendStdin. destruct (_ || _); [exact Hz|].
    cbn [replaced set_stdinData addLog set_lines].
    now rewrite sendWsMessage_replaced.
  - unfold onopen, with_socket. now destruct (ws st).
  - unfold with_socket. now destruct (ws st).
  - unfold onclose, with_socket. now destruct (ws st).
  - now rewrite message_replaced.
  - cbn [enabled] in En. now rewrite Hz in En.
Qed.

Lemma step_invariant (st : State) (ev : Event) :
  replaced st = 0%nat -> invariant st -> invariant (step st ev).
Proof.
  intros Hz Inv. unfold step. destruct (enabled ev st) eqn:En; [|exact Inv].
  cbn [negb]. destruct ev; cbn [enabled] in En.
  - (* connect *)
    apply negb_true_iff in En. destruct Inv as [I1 I2]. split.
    + rewrite connect_not_open. discriminate.
    + rewrite connect_sessionState. intros Hp.
      rewrite I2 in En by assumption. discriminate.
  - (* disconnect *)
    destruct Inv as [I1 I2]. unfold disconnect.
    destruct (ws st) as [w|] eqn:E; [|now split].
    split; [|exact I2].
    intros Hopen. cbn [ws set_ws] in Hopen.
    now rewrite ws_close_not_open in Hopen.
  - exact Inv.
  - eapply invariant_same_link; eauto using startScript_same_link, startScript_sessionState.
  - eapply invariant_same_link; eauto using killProcess_same_link, killProcess_sessionState.
  - exact Inv.
  - eapply invariant_same_link; eauto using sendStdin_same_link, sendStdin_sessionState.
  - (* open *) now split.
  - (* closing *)
    destruct Inv as [I1 I2]. unfold with_socket.
    destruct (ws st) as [w|] eqn:E; [|discriminate].
    split; [discriminate | exact I2].
  - (* close *)
    unfold with_socket. destruct (ws st) as [w|] eqn:E; [|discriminate].
    split; [discriminate | intros H; now contradiction H].
  - (* error *) exact Inv.
  - (* message *)
    destruct Inv as [I1 I2]. specialize (I1 En).
    unfold handleMessage.
    destruct (JSON_parse rawData) as [msg|]; [|now split].
    destruct (getProp msg "type") as [ty|]; [|now split].
    destruct (dispatch_same_link ty msg st) as [Hs Hc].
    split; intros _; now rewrite Hc.
  - (* a replaced socket: there is none *) now rewrite Hz in En.
  - now rewrite Hz in En.
Qed.

(** The invariant holds along every run in which no live socket is
    replaced. *)
Lemma run_invariant (evs : list Event) (st : State) :
  single_socket evs st = true -> replaced st = 0%nat -> invariant st ->
  invariant (run evs st) /\ replaced (run evs st) = 0%nat.
Proof.
  revert st. induction evs as [|ev evs IH]; intros st Hs Hz Inv;
    [now split|].
  cbn [single_socket] in Hs. apply andb_true_iff in Hs as [Hl Hs].
  apply negb_true_iff in Hl.
  apply IH; [exact Hs | now apply step_replaced | now apply step_invariant].
Qed.

Lemma initial_invariant : invariant initial.
Proof. split; [discriminate | intros H; now contradiction H]. Qed.

End ConsoleInvariant.

(** Scenario A of the spec: greeted, started, output, exit. *)
Example scenario_A :
  let s1 := Console.run console_attached Console.initial in
  let s2 := Console.run [Console.ClickStart false;
                         Console.WsMessage (frame_started "start")] s1 in
  let s3 := Console.step s2 (Console.WsMessage frame_stdout) in
  let s4 := Console.step s3 (Console.WsMessage (frame_exit "0")) in
  Console.sessionState s1 = idle
  /\ Console.outbox s2 = [dq "{'action':'start','script':'start'}"]
  /\ Console.sessionState s2 = running
  /\ Console.scriptName s2 = JStr "start"
  /\ Console.sessionState s3 = running
  /\ Console.lines s3
     = (Console.lines s2
        ++ [Console.mkLogEntry Console.stdout
              (JStr ("Server started" ++ LF))])%list
  /\ Console.sessionState s4 = exited
  /\ Console.exitCode s4 = JNum 0.
Proof. by_running. Qed.

(** Scenario D of the spec: the transport closes under a running
    script, and no exit event is needed for the reset. *)
Example scenario_D :
  let st := Console.run (console_running "start") Console.initial in
  let st' := Console.step st Console.WsClose in
  Console.sessionState st = running
  /\ Console.sessionState st' = idle
  /\ Console.scriptName st' = JNull
  /\ Console.isConnected st' = false.
Proof. by_running. Qed.

(** ** Claims about the command gate *)

(** C4, as the spec states it, fails.  Each of these four is turned
    down because of the phase, and nothing tells the user so: the
    component, log and terminal included, is exactly what it was, and
    the handlers return nothing.  On the console: Kill in an idle
    session, and Enter with "say hi" in the buffer after the script has
    exited.  On the panel: Start in a running session, and a key typed
    in an idle one. *)
Lemma phase_rejections_leave_no_trace :
  let st0 := Console.run console_attached Console.initial in
  let st1 := Console.run (console_running "start"
                          ++ [Console.TypeInput "say hi";
                              Console.WsMessage (frame_exit "0")])
                         Console.initial in
  let pst0 := Panel.run [Panel.WsOpen; Panel.WsMessage frame_ready]
                        panel_mounted in
  let pst1 := Panel.run panel_running panel_mounted in
  (Console.sessionState st0 = idle
   /\ Console.killProcess st0 = st0
   /\ ConsoleGate.logged_error st0 (Console.killProcess st0) = false)
  /\ (Console.sessionState st1 = exited
      /\ Console.stdinData st1 = "say hi"
      /\ Console.sendStdin st1 = st1
      /\ ConsoleGate.logged_error st1 (Console.sendStdin st1) = false)
  /\ (Panel.sessionState pst1 = running
      /\ Panel.onStart pst1 = pst1)
  /\ (Panel.sessionState pst0 = idle
      /\ Panel.step pst0 (Panel.Key "a") = pst0).
Proof. by_running. Qed.

(** C4, amended.  An action that a handler rejects as invalid for the
    current phase is dropped without a trace: the component is left
    exactly as it was, so no frame is sent and no log entry or terminal
    line is added.  That is so for input and kill on the console while
    the session is not running, for the panel's start buttons while it
    is running, and for the panel's keyboard input while it is not
    running.  Input with an empty buffer is dropped in the same way.
    Start on the console in a running session is not rejected by the
    handler: it asks the user to confirm, and when the user declines
    the component is left as it was. *)
Theorem rejected_actions_are_silent :
  (forall st,
      Console.sessionState st <> running ->
      Console.sendStdin st = st /\ Console.killProcess st = st)
  /\ (forall a st,
        PanelGate.rejects a st = true -> PanelGate.perform a st = st)
  /\ (forall data st,
        Panel.sessionState st <> running -> Panel.onData data st = st)
  /\ (forall st,
        Console.stdinData st = "" -> Console.sendStdin st = st)
  /\ (forall st,
        Console.sessionState st = running ->
        Console.startScript false st = st).
Proof.
  conjuncts.
  - intros st Hrun. apply SessionState_eqb_neq in Hrun.
    unfold Console.sendStdin, Console.killProcess. now rewrite Hrun.
  - intros a st. unfold PanelGate.rejects.
    destruct a; simpl;
      unfold Panel.onStart, Panel.onRestart, Panel.onUpdate;
      intros ->; reflexivity.
  - intros data st Hrun. apply SessionState_eqb_neq in Hrun.
    unfold Panel.onData. now rewrite Hrun.
  - intros st Hempty. unfold Console.sendStdin.
    rewrite Hempty. now rewrite orb_true_r.
  - intros st Hrun. apply SessionState_eqb_eq in Hrun.
    unfold Console.startScript. now rewrite Hrun.
Qed.

Lemma rejected_actions_are_silent_witness :
  let st := Console.run console_attached Console.initial in
  let pst := Panel.run panel_running panel_mounted in
  (Console.sendStdin st = st /\ Console.killProcess st = st)
  /\ PanelGate.perform PanelGate.Start pst = pst.
Proof.
  cbv zeta. destruct rejected_actions_are_silent as (Hc & Hp & _). split.
  - apply Hc. vm_compute. discriminate.
  - apply Hp. reflexivity.
Defined.

(** C5, as the spec states it, fails.  The handler does not test the
    connection.  Once the browser has begun the closing handshake the
    socket is no longer open, while [isConnected] stays set, and the
    input field stays enabled, until the close event.  Enter pressed
    then, in a running session with "say hi" typed, is not turned down:
    nothing is transmitted, the log gains the "not connected" error and
    then the echo of the input as if it had been sent, and the buffer
    is cleared, so the input is lost. *)
Lemma input_meets_closing_socket :
  let st := Console.run (console_running "start"
                         ++ [Console.TypeInput "say hi"; Console.WsClosing])
                        Console.initial in
  let st' := Console.step st Console.PressEnter in
  Console.sessionState st = running
  /\ Console.stdinData st = "say hi"
  /\ Console.isConnected st = true
  /\ socket_in [OPEN] (Console.ws st) = false
  /\ Console.enabled Console.PressEnter st = true
  /\ Console.outbox st' = Console.outbox st
  /\ Console.stdinData st' = ""
  /\ Console.lines st'
     = (Console.lines st
        ++ [Console.mkLogEntry Console.error
              (JStr "WebSocket is not connected.");
            Console.mkLogEntry Console.info (JStr "> say hi")])%list.
Proof. by_running. Qed.

(** C5, amended.  [sendStdin] is turned down, and then does nothing at
    all, when the session is not running or the input buffer is empty;
    the connection is not part of that test, and the handler never
    reads [isConnected].  Otherwise it goes ahead: the input as typed is
    logged after a "> " prompt as an info entry and the buffer is
    cleared, whether or not anything could be transmitted.  Over an
    open socket one frame goes out, the stdin command whose data is the
    input followed by one newline character, and nothing else is
    logged.  Over a socket that is not open nothing goes out and the
    "not connected" error is logged before the echo.  So a frame goes
    out only when the session is running, the socket is open and the
    buffer is not empty. *)
Theorem sendStdin_gate (st : Console.State) :
  let st' := Console.sendStdin st in
  let input := Console.stdinData st in
  let command := JObj [("action", JStr "stdin");
                       ("data", JStr (input ++ String "010"%char ""))] in
  (Console.sessionState st <> running \/ input = "" -> st' = st)
  /\ (forall flag,
        Console.sendStdin (Console.set_isConnected flag st)
        = Console.set_isConnected flag st')
  /\ (Console.sessionState st = running -> input <> "" ->
      Console.stdinData st' = ""
      /\ Console.sessionState st' = running
      /\ (socket_in [OPEN] (Console.ws st) = true ->
          Console.outbox st'
          = (Console.outbox st ++ [JSON_stringify command])%list
          /\ JSON_parse (JSON_stringify command) = Some command
          /\ Console.lines st'
             = (Console.lines st
                ++ [Console.mkLogEntry Console.info
                      (JStr ("> " ++ input))])%list)
      /\ (socket_in [OPEN] (Console.ws st) = false ->
          Console.outbox st' = Console.outbox st
          /\ Console.lines st'
             = (Console.lines st
                ++ [Console.mkLogEntry Console.error
                      (JStr "WebSocket is not connected.");
                    Console.mkLogEntry Console.info
                      (JStr ("> " ++ input))])%list))
  /\ (Console.outbox st' <> Console.outbox st ->
      Console.sessionState st = running
      /\ socket_in [OPEN] (Console.ws st) = true
      /\ input <> "").
Proof.
  cbv zeta.
  change (JObj [("action", JStr "stdin");
                ("data", JStr (Console.stdinData st ++ String "010"%char ""))])
    with (cmd_stdin (Console.stdinData st ++ LF)).
  split; [|split].
  - unfold Console.sendStdin. intros [Hrun | Hempty].
    + apply SessionState_eqb_neq in Hrun. now rewrite Hrun.
    + rewrite Hempty. now rewrite orb_true_r.
  - intros flag. unfold Console.sendStdin, Console.sendWsMessage.
    cbn [Console.sessionState Console.stdinData Console.ws
         Console.set_isConnected].
    destruct (negb _ || _); [reflexivity|].
    destruct (Console.ws st) as [w|]; [destruct (is_open w)|]; reflexivity.
  - unfold Console.sendStdin.
    destruct (SessionState_eqb (Console.sessionState st) running) eqn:Hrun;
      [apply SessionState_eqb_eq in Hrun | apply SessionState_eqb_neq in Hrun];
      destruct (String.eqb_spec (Console.stdinData st) "") as [Hempty|Hfull];
      cbn [negb orb].
    + split; [congruence|]. intros H. now contradiction H.
    + split.
      * intros _ _.
        split; [reflexivity|]. split.
        { cbn [Console.sessionState Console.set_stdinData Console.addLog
               Console.set_lines].
          now rewrite console_send_sessionState. }
        split.
        { intros Hopen.
          destruct (console_send_open
                      (cmd_stdin (Console.stdinData st ++ LF)) st Hopen)
            as [Ho Hl].
          split; [exact Ho|]. split; [apply stdin_frame_reads_back|].
          cbn [Console.lines Console.set_stdinData Console.addLog
               Console.set_lines].
          now rewrite Hl. }
        { intros Hclosed.
          destruct (console_send_not_open
                      (cmd_stdin (Console.stdinData st ++ LF)) st Hclosed)
            as [Ho Hl].
          split; [exact Ho|].
          cbn [Console.lines Console.set_stdinData Console.addLog
               Console.set_lines].
          rewrite Hl. now rewrite <- app_assoc. }
      * intros Hsent. conjuncts; try assumption.
        now apply (console_send_outbox_changed
                     (cmd_stdin (Console.stdinData st ++ LF)) st).
    + split; [congruence|]. intros H. now contradiction H.
    + split; [congruence|]. intros H. now contradiction H.
Qed.

Lemma sendStdin_gate_witness :
  let st := Console.run (console_running "start"
                         ++ [Console.TypeInput "say hi"]) Console.initial in
  Console.stdinData (Console.sendStdin st) = ""
  /\ Console.outbox (Console.sendStdin st)
     = (Console.outbox st ++ [dq "{'action':'stdin','data':'say hi\n'}"])%list
  /\ Console.lines (Console.sendStdin st)
     = (Console.lines st
        ++ [Console.mkLogEntry Console.info (JStr "> say hi")])%list.
Proof.
  cbv zeta.
  destruct (sendStdin_gate
              (Console.run (console_running "start"
                            ++ [Console.TypeInput "say hi"]) Console.initial))
    as (_ & _ & Hgo & _).
  destruct Hgo as (Hbuf & _ & Hopen & _).
  - reflexivity.
  - vm_compute. discriminate.
  - destruct Hopen as (Hout & _ & Hlog); [reflexivity|].
    split; [exact Hbuf|]. split; [exact Hout | exact Hlog].
Defined.

(** Along every run of the console in which no live socket is
    replaced, input that goes out finds the component connected, by
    its own flag too. *)
Lemma sendStdin_only_when_connected (evs : list Console.Event) :
  Console.single_socket evs Console.initial = true ->
  let st := Console.run evs Console.initial in
  Console.outbox (Console.sendStdin st) <> Console.outbox st ->
  Console.isConnected st = true.
Proof.
  cbv zeta. intros Hsingle Hsent.
  apply (proj1 (proj1 (run_invariant evs Console.initial Hsingle eq_refl
                         initial_invariant))).
  unfold Console.sendStdin in Hsent.
  destruct (negb _ || _); [now contradiction Hsent|].
  exact (console_send_outbox_changed _ _ Hsent).
Qed.

(** The frame of that session, as it goes on the wire. *)
Example sendStdin_wire :
  Console.outbox
    (Console.run (console_running "start"
                  ++ [Console.TypeInput "say hi"; Console.PressEnter])
                 Console.initial)
  = [dq "{'action':'start','script':'start'}";
     dq "{'action':'stdin','data':'say hi\n'}"].
Proof. vm_compute. reflexivity. Qed.

(** C7.  [killProcess] puts a frame on the wire only when the session
    is running, and does nothing at all when it is not; in a running
    session with an open socket it sends the kill command; and it never
    changes the phase: a running session stays running, and it is the
    Exit event that moves it to exited. *)
Theorem killProcess_gate (st : Console.State) :
  (Console.outbox (Console.killProcess st) <> Console.outbox st ->
   Console.sessionState st = running)
  /\ (Console.sessionState st <> running -> Console.killProcess st = st)
  /\ (Console.sessionState st = running ->
      socket_in [OPEN] (Console.ws st) = true ->
      Console.outbox (Console.killProcess st)
      = (Console.outbox st ++ [JSON_stringify cmd_kill])%list)
  /\ Console.sessionState (Console.killProcess st) = Console.sessionState st
  /\ (forall rawData msg,
         JSON_parse rawData = Some msg ->
         getProp msg "type" = Some (JStr "exit") ->
         Console.sessionState
           (state_after (Console.handleMessage rawData (Console.killProcess st)))
         = exited).
Proof.
  split; [|split; [|split; [|split]]].
  - unfold Console.killProcess.
    destruct (SessionState_eqb (Console.sessionState st) running) eqn:Hrun;
      simpl; [now apply SessionState_eqb_eq in Hrun | congruence].
  - intros Hrun. apply SessionState_eqb_neq in Hrun.
    unfold Console.killProcess. now rewrite Hrun.
  - intros Hrun Hopen. apply SessionState_eqb_eq in Hrun.
    unfold Console.killProcess. rewrite Hrun. cbn [negb].
    exact (proj1 (console_send_open cmd_kill
                    (Console.addLog Console.info
                       (JStr "Sending KILL signal...") st) Hopen)).
  - unfold Console.killProcess.
    destruct (SessionState_eqb (Console.sessionState st) running);
      simpl; [|reflexivity].
    now rewrite console_send_sessionState.
  - intros rawData msg Hp Hty.
    exact (proj1 (console_on_exit rawData msg Hp (Console.killProcess st) Hty)).
Qed.

Lemma killProcess_gate_witness :
  let st := Console.run (console_running "start") Console.initial in
  Console.outbox (Console.killProcess st)
  = (Console.outbox st ++ [dq "{'action':'kill'}"])%list
  /\ Console.sessionState (Console.killProcess st) = running
  /\ Console.sessionState
       (state_after (Console.handleMessage (frame_exit "143")
                       (Console.killProcess st))) = exited.
Proof.
  cbv zeta.
  pose proof (killProcess_gate
                (Console.run (console_running "start") Console.initial))
    as (_ & _ & Hsend & Hphase & Hexit).
  split; [|split].
  - apply Hsend; reflexivity.
  - rewrite Hphase. reflexivity.
  - apply (Hexit (frame_exit "143")
                 (JObj [("type", JStr "exit"); ("code", JNum 143)]));
      reflexivity.
Defined.

(** Whatever script is selected, the name that goes out with the start
    command is the name recorded when the backend echoes it. *)
Lemma start_echo_roundtrip (script : string) (confirmed : bool)
  (st : Console.State) :
  Console.selectedScript st = script ->
  Console.sessionState st <> running ->
  socket_in [OPEN] (Console.ws st) = true ->
  let st1 := Console.startScript confirmed st in
  let echo := JSON_stringify
                (JObj [("type", JStr "started"); ("script", JStr script)]) in
  Console.outbox st1
  = (Console.outbox st ++ [JSON_stringify (cmd_start script)])%list
  /\ exists st2,
       Console.handleMessage echo st1 = Normal st2
       /\ Console.scriptName st2 = JStr script.
Proof.
  intros Hsel Hidle Hopen. cbv zeta. split.
  - unfold Console.startScript.
    apply SessionState_eqb_neq in Hidle. rewrite Hidle.
    change (Console.selectedScript (Console.set_lines [] st))
      with (Console.selectedScript st).
    rewrite Hsel.
    exact (proj1 (console_send_open (cmd_start script)
                    (Console.set_lines [] st) Hopen)).
  - destruct (console_on_started _ _
                (string_pair_reads_back "type" "started" "script" script)
                (Console.startScript confirmed st) eq_refl eq_refl)
      as (st2 & E & _ & Hname & _).
    exists st2. split; [exact E | exact Hname].
Qed.

(** C9.  Starting the script "update" from a session that is not
    running, over an open socket, sends the one frame
    [{"action":"start","script":"update"}], which reads back as a
    command whose script is "update"; and once the backend answers
    [{"type":"started","script":"update"}] the console is running with
    [scriptName] "update". *)
Theorem start_update_roundtrip (st : Console.State) (confirmed : bool)
  (selected : Console.selectedScript st = "update")
  (not_running : Console.sessionState st <> running)
  (socket_open : socket_in [OPEN] (Console.ws st) = true) :
  let st1 := Console.startScript confirmed st in
  Console.outbox st1
  = (Console.outbox st ++ [dq "{'action':'start','script':'update'}"])%list
  /\ (exists cmd,
         JSON_parse (dq "{'action':'start','script':'update'}") = Some cmd
         /\ field cmd "action" = JStr "start"
         /\ field cmd "script" = JStr "update")
  /\ (exists st2,
         Console.handleMessage (frame_started "update") st1 = Normal st2
         /\ Console.scriptName st2 = JStr "update"
         /\ Console.sessionState st2 = running).
Proof.
  cbv zeta. conjuncts.
  - unfold Console.startScript.
    apply SessionState_eqb_neq in not_running. rewrite not_running.
    change (Console.selectedScript (Console.set_lines [] st))
      with (Console.selectedScript st).
    rewrite selected.
    exact (proj1 (console_send_open (cmd_start "update")
                    (Console.set_lines [] st) socket_open)).
  - exists (cmd_start "update"). conjuncts; reflexivity.
  - destruct (console_on_started (frame_started "update")
                (JObj [("type", JStr "started"); ("script", JStr "update")])
                eq_refl (Console.startScript confirmed st) eq_refl eq_refl)
      as (st2 & E & Hrun & Hname & _).
    exists st2. conjuncts; assumption.
Qed.

Lemma start_update_roundtrip_witness :
  let st := Console.run (console_attached ++ [Console.Select "update"])
                        Console.initial in
  let st1 := Console.startScript false st in
  Console.outbox st1 = [dq "{'action':'start','script':'update'}"]
  /\ Console.scriptName
       (state_after (Console.handleMessage (frame_started "update") st1))
     = JStr "update".
Proof.
  cbv zeta.
  destruct (start_update_roundtrip
              (Console.run (console_attached ++ [Console.Select "update"])
                           Console.initial) false)
    as (Hout & _ & st2 & E & Hname & _).
  - reflexivity.
  - vm_compute. discriminate.
  - reflexivity.
  - split; [exact Hout | rewrite E; exact Hname].
Defined.

(** ** Decoding failures *)

(** Scenario C of the spec, on the console: the malformed text costs
    one error entry and changes nothing else. *)
Example console_malformed_frame (st : Console.State) :
  Console.handleMessage frame_malformed st
  = Normal (Console.addLog Console.error
              (JStr "Failed to parse JSON: {not json") st).
Proof. reflexivity. Qed.

(** On the panel a malformed text is written to the terminal, when
    there is one, and the phase is untouched. *)
Lemma panel_on_syntax_error (rawData : string) (st : Panel.State) :
  JSON_parse rawData = None ->
  exists st',
    Panel.handleWsMessage rawData st = Normal st'
    /\ Panel.sessionState st' = Panel.sessionState st
    /\ Panel.outbox st' = Panel.outbox st.
Proof.
  intros H. unfold Panel.handleWsMessage. rewrite H.
  eexists. split; [reflexivity|]. now autorewrite with panel.
Qed.

(** C6.  Decoding must never let an exception out of the message
    handler, and a frame with an unknown discriminator must be shown as
    a decode error.  Both handlers read [msg.type] unguarded, so the
    text [null], which is JSON, makes them throw a TypeError; and the
    panel's switch has no default, so the frame [{"type":"bogus"}]
    passes without a trace there, where the console logs
    "Unknown message type: bogus". *)
Theorem decode_error_escapes_or_vanishes :
  (forall st, Console.handleMessage "null" st = Throw TypeError st)
  /\ (forall pst, Panel.handleWsMessage "null" pst = Throw TypeError pst)
  /\ (forall pst, Panel.handleWsMessage frame_bogus pst = Normal pst)
  /\ (forall st,
         Console.handleMessage frame_bogus st
         = Normal (Console.addLog Console.error
                     (JStr "Unknown message type: bogus") st)).
Proof. conjuncts; intros; reflexivity. Qed.

(** ** The status poller *)

Section StatusPoller.
Import Panel.

(** Mounting asks for the status once, whatever becomes of the socket. *)
Lemma panel_mount_polls (client container : bool) (api : string)
  (thrown : option string) (st : State) :
  statusQueries (state_after (onMounted client container api thrown st))
  = S (statusQueries st).
Proof.
  unfold onMounted, connectWebSocket.
  set (st1 := checkStatus (initializeTerminal client container st)).
  assert (H1 : statusQueries st1 = S (statusQueries st)).
  { unfold st1, initializeTerminal.
    destruct (term st), (client && container); reflexivity. }
  set (st2 := match ws st1 with
              | Some w => set_ws (Some (ws_close w)) st1
              | None => st1
              end).
  assert (H2 : statusQueries st2 = statusQueries st1)
    by (unfold st2; destruct (ws st1); reflexivity).
  destruct thrown; unfold state_after.
  - now rewrite term_do_statusQueries, H2.
  - change (statusQueries (set_ws ?v ?x)) with (statusQueries x).
    now rewrite term_do_statusQueries, H2.
Qed.

(** A failed status query shows as status "error", with the error kept
    for display. *)
Lemma checkStatus_failure (response ok : JsValue) (st : State) :
  getProp response "ok" = Some ok ->
  truthy ok = false ->
  exists st',
    checkStatus_resume response st = Normal st'
    /\ status st' = JStr "error"
    /\ lastResponse st' = Some response
    /\ loadingAction st' = None
    /\ sessionState st' = sessionState st.
Proof.
  intros Hok Hfalsy. unfold checkStatus_resume. rewrite Hok, Hfalsy.
  eexists. split; [reflexivity|]. now simpl.
Qed.

(** However a status query ends, the phase is not its business. *)
Lemma checkStatus_keeps_phase (response : JsValue) (st : State) :
  sessionState (checkStatus st) = sessionState st
  /\ sessionState (state_after (checkStatus_resume response st))
     = sessionState st.
Proof.
  split; [reflexivity|]. unfold checkStatus_resume.
  destruct (getProp response "ok") as [ok|]; [|reflexivity].
  destruct (truthy ok); [|reflexivity].
  destruct (getProp (field response "data") "status"); reflexivity.
Qed.

End StatusPoller.

(** C8.  The status must be polled after every transition to Exited.
    The panel polls after an Exit event, and not after a BackendError
    event, which moves it to [exited] all the same: the count of status
    queries is what it was. *)
Theorem panel_error_exit_skips_status_poll (pst : Panel.State) :
  (exists pst',
      Panel.handleWsMessage frame_error pst = Normal pst'
      /\ Panel.sessionState pst' = exited
      /\ Panel.statusQueries pst' = Panel.statusQueries pst)
  /\ (exists pst',
         Panel.handleWsMessage (frame_exit "0") pst = Normal pst'
         /\ Panel.sessionState pst' = exited
         /\ Panel.statusQueries pst' = S (Panel.statusQueries pst)).
Proof.
  split.
  - apply (panel_on_error frame_error
             (JObj [("type", JStr "error"); ("message", JStr "spawn failed")]));
      [reflexivity | reflexivity | now right].
  - destruct (panel_on_exit (frame_exit "0")
                (JObj [("type", JStr "exit"); ("code", JNum 0)])
                eq_refl pst eq_refl (or_intror eq_refl))
      as (pst' & E & Hs & Hq & _).
    exists pst'. now conjuncts.
Qed.

(** ** Keyboard input on the panel *)

Section PanelSend.
Import Panel.

Variables (message : JsValue) (st : State).

Lemma panel_send_open :
  socket_in [OPEN] (ws st) = true ->
  outbox (sendWsMessage message st) = (outbox st ++ [JSON_stringify message])%list
  /\ term (sendWsMessage message st) = term st.
Proof.
  unfold sendWsMessage, outbox. destruct (ws st) as [w|] eqn:E; [|discriminate].
  rewrite socket_in_open. intros ->. now simpl.
Qed.

Lemma panel_send_not_open :
  socket_in [OPEN] (ws st) = false ->
  sendWsMessage message st = term_do not_connected_line st.
Proof.
  unfold sendWsMessage. destruct (ws st) as [w|] eqn:E; [|reflexivity].
  rewrite socket_in_open. now intros ->.
Qed.

End PanelSend.

(** C10, as stated, fails.  Once the browser has begun the closing
    handshake the socket is no longer open, while [isWsConnected] stays
    set until the close event: a key typed then, in a running session,
    passes the hook's test, sends no frame, and is not dropped silently
    either, for [sendWsMessage] writes its error line to the terminal. *)
Lemma keys_meet_closing_socket :
  let st := Panel.run (panel_running ++ [Panel.WsClosing]) panel_mounted in
  Panel.sessionState st = running
  /\ Panel.isWsConnected st = true
  /\ socket_in [OPEN] (Panel.ws st) = false
  /\ Panel.outbox (Panel.step st (Panel.Key "a")) = Panel.outbox st
  /\ Panel.term (Panel.step st (Panel.Key "a"))
     = option_map (fun ops => (ops ++ [Panel.not_connected_line])%list)
                  (Panel.term st)
  /\ Panel.step st (Panel.Key "a") <> st.
Proof.
  cbv zeta. conjuncts; try (vm_compute; reflexivity).
  intros H. apply (f_equal Panel.term) in H. vm_compute in H.
  injection H as H. discriminate.
Qed.

(** C10, amended.  The keyboard hook sends a chunk of input as one stdin
    frame, unchanged (no newline added) and without any line on the
    terminal, exactly when the session is running, [isWsConnected] is
    set and the socket is open.  When the session is not running or
    [isWsConnected] is not set, the chunk is dropped and nothing
    changes.  When both hold and the socket is not open, no frame is
    sent and the "not connected" error line is written. *)
Theorem onData_forwarding (data : string) (st : Panel.State) :
  (Panel.outbox (Panel.onData data st) <> Panel.outbox st ->
   Panel.sessionState st = running
   /\ Panel.isWsConnected st = true
   /\ socket_in [OPEN] (Panel.ws st) = true)
  /\ (Panel.sessionState st = running ->
      Panel.isWsConnected st = true ->
      socket_in [OPEN] (Panel.ws st) = true ->
      (exists frame,
          Panel.outbox (Panel.onData data st)
          = (Panel.outbox st ++ [frame])%list
          /\ JSON_parse frame
             = Some (JObj [("action", JStr "stdin"); ("data", JStr data)]))
      /\ Panel.term (Panel.onData data st) = Panel.term st)
  /\ (Panel.sessionState st <> running \/ Panel.isWsConnected st = false ->
      Panel.onData data st = st)
  /\ (Panel.sessionState st = running ->
      Panel.isWsConnected st = true ->
      socket_in [OPEN] (Panel.ws st) = false ->
      Panel.onData data st = Panel.term_do Panel.not_connected_line st).
Proof.
  unfold Panel.onData.
  destruct (SessionState_eqb (Panel.sessionState st) running) eqn:Hrun;
    [apply SessionState_eqb_eq in Hrun | apply SessionState_eqb_neq in Hrun];
    destruct (Panel.isWsConnected st) eqn:Hflag; cbn [andb].
  - destruct (socket_in [OPEN] (Panel.ws st)) eqn:Hopen; conjuncts.
    + intros _. conjuncts; [assumption | reflexivity | reflexivity].
    + intros _ _ _.
      destruct (panel_send_open (cmd_stdin data) st Hopen) as [Ho Ht].
      split; [|exact Ht].
      eexists. split; [exact Ho | apply stdin_frame_reads_back].
    + intros [H|H]; [contradiction | discriminate].
    + discriminate.
    + intros Hsent. exfalso. apply Hsent.
      rewrite panel_send_not_open by assumption. apply term_do_outbox.
    + discriminate.
    + intros [H|H]; [contradiction | discriminate].
    + intros _ _ _. now apply panel_send_not_open.
  - conjuncts; [congruence | discriminate | reflexivity | discriminate].
  - conjuncts; [congruence | contradiction | reflexivity | contradiction].
  - conjuncts; [congruence | contradiction | reflexivity | contradiction].
Qed.

Lemma onData_forwarding_witness :
  let st := Panel.run panel_running panel_mounted in
  (exists frame,
      Panel.outbox (Panel.onData "a" st) = (Panel.outbox st ++ [frame])%list
      /\ JSON_parse frame
         = Some (JObj [("action", JStr "stdin"); ("data", JStr "a")]))
  /\ Panel.term (Panel.onData "a" st) = Panel.term st.
Proof.
  cbv zeta.
  apply (proj1 (proj2 (onData_forwarding "a"
                         (Panel.run panel_running panel_mounted))));
    reflexivity.
Defined.
(* ================================================================== *)
(** * More of the console                                               *)
(* ================================================================== *)

(** Case analysis on everything a handler tests. *)
Ltac split_tests :=
  repeat match goal with
         | |- context [match ?x with _ => _ end] => destruct x eqn:?
         end.

Ltac console_handlers :=
  unfold Console.startScript, Console.killProcess, Console.sendStdin,
    Console.sendWsMessage, Console.connect, Console.disconnect,
    Console.onopen, Console.onclose, Console.onerror, Console.with_socket.

Section ConsoleReach.
Import Console ConsoleView.

Lemma message_keeps_flag (rawData : string) (st : State) :
  isConnected (state_after (handleMessage rawData st)) = isConnected st.
Proof.
  unfold handleMessage.
  destruct (JSON_parse rawData) as [msg|]; [|reflexivity].
  destruct (getProp msg "type") as [ty|]; [|reflexivity].
  apply (proj2 (dispatch_same_link ty msg st)).
Qed.

Lemma step_no_stale_script (st : State) (ev : Event) :
  replaced st = 0%nat ->
  invariant st -> no_stale_script st -> no_stale_script (step st ev).
Proof.
  intros Hz Inv Q. unfold step.
  destruct (enabled ev st) eqn:En; cbn [negb]; [|exact Q].
  destruct ev; try exact Q;
    try (unfold no_stale_script; console_handlers; split_tests; exact Q).
  - (* open *) unfold no_stale_script, onopen. discriminate.
  - (* close *) unfold no_stale_script, onclose. reflexivity.
  - (* message: the socket is open, so the flag is set *)
    cbn [enabled] in En. intros H. exfalso.
    rewrite message_keeps_flag, (proj1 Inv En) in H. discriminate.
  - (* a replaced socket: there is none *)
    cbn [enabled] in En. now rewrite Hz in En.
Qed.

Lemma step_offered (st : State) (ev : Event) :
  offered st -> offered (step st ev).
Proof.
  intros O. unfold offered, step.
  destruct (enabled ev st) eqn:En; cbn [negb]; [|exact O].
  destruct ev; try exact O.
  - unfold connect. now split_tests.
  - unfold disconnect. now split_tests.
  - cbn [enabled] in En. apply andb_true_iff in En as [_ En].
    cbn [selectedScript set_selectedScript].
    apply existsb_exists in En as (x & Hin & Hx).
    apply String.eqb_eq in Hx. now subst.
  - console_handlers. now split_tests.
  - console_handlers. now split_tests.
  - console_handlers. now split_tests.
  - unfold with_socket. now split_tests.
  - unfold with_socket. now split_tests.
  - unfold with_socket, onclose. now split_tests.
  - unfold handleMessage, dispatch, addLog_text. now split_tests.
Qed.

Lemma run_offered (evs : list Event) (st : State) :
  offered st -> offered (run evs st).
Proof.
  revert st. induction evs as [|ev evs IH]; intros st O; [exact O|].
  apply IH, step_offered, O.
Qed.

Lemma run_no_stale_script (evs : list Event) (st : State) :
  single_socket evs st = true -> replaced st = 0%nat ->
  invariant st -> no_stale_script st -> no_stale_script (run evs st).
Proof.
  revert st. induction evs as [|ev evs IH]; intros st Hs Hz Inv Q;
    [exact Q|].
  cbn [single_socket] in Hs. apply andb_true_iff in Hs as [Hl Hs].
  apply negb_true_iff in Hl.
  apply IH; [exact Hs | now apply step_replaced | now apply step_invariant
            | now apply step_no_stale_script].
Qed.

End ConsoleReach.

(** X1.  Along every run of the console the selected script is one of
    the offered seven.  Along every run in which Connect never replaces
    a socket whose close event is still to come, moreover: an open
    socket is flagged as connected; a session that is not idle is
    connected; and while disconnected the phase is idle and no script
    name is kept.  (A replaced socket breaks all three, see
    [replaced_socket_resets_live_session] below.) *)
Theorem console_reachable_states (evs : list Console.Event) :
  let st := Console.run evs Console.initial in
  In (Console.selectedScript st) Console.allowedScripts
  /\ (Console.single_socket evs Console.initial = true ->
      (socket_in [OPEN] (Console.ws st) = true ->
       Console.isConnected st = true)
      /\ (Console.sessionState st <> idle -> Console.isConnected st = true)
      /\ (Console.isConnected st = false ->
          Console.sessionState st = idle /\ Console.scriptName st = JNull)).
Proof.
  cbv zeta. split.
  - apply run_offered. unfold ConsoleView.offered. simpl. tauto.
  - intros Hsingle.
    destruct (run_invariant evs Console.initial Hsingle eq_refl
                initial_invariant) as [[I1 I2] _].
    pose proof (run_no_stale_script evs Console.initial Hsingle eq_refl
                  initial_invariant (fun _ => eq_refl)) as Q.
    conjuncts; try assumption. intros Hoff. split; [|now apply Q].
    destruct (Console.sessionState (Console.run evs Console.initial)) eqn:E;
      [reflexivity| |]; rewrite I2 in Hoff by discriminate; discriminate.
Qed.

Lemma console_reachable_states_witness :
  let st := Console.run (console_running "start"
                         ++ [Console.WsClose;
                             Console.ClickConnect apiUrl None;
                             Console.WsOpen])
                        Console.initial in
  socket_in [OPEN] (Console.ws st) = true
  /\ Console.isConnected st = true.
Proof.
  cbv zeta.
  pose proof (proj2 (console_reachable_states
                       (console_running "start"
                        ++ [Console.WsClose;
                            Console.ClickConnect apiUrl None;
                            Console.WsOpen])) eq_refl) as (Hopen & _).
  split; [reflexivity | apply Hopen; reflexivity].
Defined.

(** Connect pressed twice before the first socket has opened replaces
    a live socket.  The second socket opens, a script is started on
    it, and then the close event of the first arrives: its handler
    resets the flags of the component, which is left disconnected and
    idle on an open socket with the script still running behind it;
    the started frame of a later start then makes it running while
    still flagged as disconnected. *)
Example replaced_socket_resets_live_session :
  let evs := [Console.ClickConnect apiUrl None;
              Console.ClickConnect apiUrl None;
              Console.WsOpen;
              Console.WsMessage frame_ready;
              Console.ClickStart false;
              Console.WsMessage (frame_started "start")] in
  let st := Console.run evs Console.initial in
  let st' := Console.step st Console.ReplacedClose in
  let st'' := Console.step st' (Console.WsMessage (frame_started "start")) in
  Console.single_socket evs Console.initial = false
  /\ Console.replaced st = 1%nat
  /\ Console.sessionState st = running
  /\ socket_in [OPEN] (Console.ws st') = true
  /\ Console.isConnected st' = false
  /\ Console.sessionState st' = idle
  /\ Console.replaced st' = 0%nat
  /\ Console.sessionState st'' = running
  /\ Console.isConnected st'' = false
  /\ Console.scriptName st'' = JStr "start".
Proof. by_running. Qed.

(** X2.  Handling an inbound text never touches the socket (so it never
    sends anything), the connection flag, the input buffer or the
    selected script, whatever the text and however the handler ends. *)
Theorem console_message_keeps_link (rawData : string) (st : Console.State) :
  let st' := state_after (Console.handleMessage rawData st) in
  Console.ws st' = Console.ws st
  /\ Console.isConnected st' = Console.isConnected st
  /\ Console.stdinData st' = Console.stdinData st
  /\ Console.selectedScript st' = Console.selectedScript st.
Proof.
  cbv zeta. unfold Console.handleMessage.
  destruct (JSON_parse rawData) as [msg|]; [|now conjuncts].
  destruct (getProp msg "type") as [ty|]; [|now conjuncts].
  unfold Console.dispatch, Console.addLog_text. split_tests; now conjuncts.
Qed.

(** The switch returns exactly when the values its template literal
    converts do convert, with one entry added; otherwise it throws a
    TypeError with none added. *)
Lemma console_dispatch_ends (ty msg : JsValue) (st : Console.State) :
  if forallb converts (Console.printed ty msg)
  then exists e st',
         Console.dispatch ty msg st = Normal st'
         /\ Console.lines st' = (Console.lines st ++ [e])%list
  else exists st',
         Console.dispatch ty msg st = Throw TypeError st'
         /\ Console.lines st' = Console.lines st.
Proof.
  unfold Console.dispatch, Console.printed, Console.addLog_text.
  destruct (is_case ty "ready"), (is_case ty "started"),
    (is_case ty "stdout"), (is_case ty "stderr"),
    (is_case ty "exit"), (is_case ty "error");
    cbv iota;
    try match goal with
        | |- context [forallb converts (?x :: ?l)] =>
            destruct (forallb converts (x :: l))
        end;
    cbn [forallb]; repeat eexists.
Qed.

(** X3.  An inbound text is handled in one of two ways.  Either the
    handler returns, having added exactly one entry to the log.  Or it
    throws a TypeError, having added none: on JSON for [null], with the
    state untouched, and on a frame one of whose values the template
    literal of its case cannot convert to text (an object with a
    member named [toString], say), with the assignments of the case
    already made.  The handler returns on every text that is not JSON,
    and on a parsed frame exactly when the discriminator can be read
    and the values the case prints convert. *)
Theorem console_message_logs_once (rawData : string) (st : Console.State) :
  ((exists e st',
       Console.handleMessage rawData st = Normal st'
       /\ Console.lines st' = (Console.lines st ++ [e])%list)
   \/ (exists st',
         Console.handleMessage rawData st = Throw TypeError st'
         /\ Console.lines st' = Console.lines st
         /\ (JSON_parse rawData = Some JNull -> st' = st)))
  /\ (JSON_parse rawData = None ->
      exists st', Console.handleMessage rawData st = Normal st')
  /\ (forall msg,
        JSON_parse rawData = Some msg ->
        (exists st', Console.handleMessage rawData st = Normal st')
        <-> (exists ty,
                getProp msg "type" = Some ty
                /\ forallb converts (Console.printed ty msg) = true)).
Proof.
  unfold Console.handleMessage.
  destruct (JSON_parse rawData) as [msg|] eqn:P.
  - destruct (getProp msg "type") as [ty|] eqn:T.
    + pose proof (console_dispatch_ends ty msg st) as H.
      destruct (forallb converts (Console.printed ty msg)) eqn:C.
      * destruct H as (e & st' & E & Hl). conjuncts.
        { left. now exists e, st'. }
        { discriminate. }
        { intros m Hm. injection Hm as <-. split; [|eauto].
          intros _. exists ty. now split. }
      * destruct H as (st' & E & Hl). conjuncts.
        { right. exists st'. conjuncts; try assumption.
          intros Hn. injection Hn as ->. discriminate T. }
        { discriminate. }
        { intros m Hm. injection Hm as <-. rewrite E. split.
          - intros (x & Hx). discriminate Hx.
          - intros (ty' & Hty & Hc). congruence. }
    + conjuncts.
      * right. exists st. now conjuncts.
      * discriminate.
      * intros m Hm. injection Hm as <-. split.
        { intros (x & Hx). discriminate Hx. }
        { intros (ty' & Hty & _). congruence. }
  - conjuncts.
    + left. eexists; eexists. split; reflexivity.
    + eauto.
    + discriminate.
Qed.

(** The started frame whose script is such an object: the console is
    running under that script, and the log has not heard of it. *)
Example started_with_unprintable_script :
  let st := Console.run console_attached Console.initial in
  let frame := dq "{'type':'started','script':{'toString':1}}" in
  exists st',
    Console.handleMessage frame st = Throw TypeError st'
    /\ Console.sessionState st' = running
    /\ Console.scriptName st' = JObj [("toString", JNum 1)]
    /\ Console.lines st' = Console.lines st.
Proof. cbv zeta. eexists. conjuncts; vm_compute; reflexivity. Qed.

(** X4.  Where a parsed frame leaves the console depends on its
    discriminator alone, in every phase: ready gives idle; started gives
    running, records the frame's script and clears the exit code; exit
    gives exited and records the frame's code; any other discriminator,
    string or not, changes none of the three. *)
Theorem console_transition (rawData : string) (msg ty : JsValue)
  (st : Console.State)
  (parsed : JSON_parse rawData = Some msg)
  (tagged : getProp msg "type" = Some ty) :
  let st' := state_after (Console.handleMessage rawData st) in
  (ty = JStr "ready" ->
   Console.sessionState st' = idle
   /\ Console.scriptName st' = Console.scriptName st
   /\ Console.exitCode st' = Console.exitCode st)
  /\ (ty = JStr "started" ->
      Console.sessionState st' = running
      /\ Console.scriptName st' = field msg "script"
      /\ Console.exitCode st' = JNull)
  /\ (ty = JStr "exit" ->
      Console.sessionState st' = exited
      /\ Console.scriptName st' = Console.scriptName st
      /\ Console.exitCode st' = field msg "code")
  /\ (ty <> JStr "ready" -> ty <> JStr "started" -> ty <> JStr "exit" ->
      Console.sessionState st' = Console.sessionState st
      /\ Console.scriptName st' = Console.scriptName st
      /\ Console.exitCode st' = Console.exitCode st).
Proof.
  cbv zeta. conjuncts.
  - intros ->. rewrite (console_on_ready rawData msg parsed st tagged).
    now conjuncts.
  - intros ->. apply (console_after_started rawData msg parsed st tagged).
  - intros ->.
    destruct (console_on_exit rawData msg parsed st tagged) as (H1 & H2 & H3).
    now conjuncts.
  - intros H1 H2 H3. unfold Console.handleMessage. rewrite parsed, tagged.
    unfold Console.dispatch, Console.addLog_text.
    destruct (is_case ty "ready") eqn:E1;
      [apply is_case_true in E1; contradiction|].
    destruct (is_case ty "started") eqn:E2;
      [apply is_case_true in E2; contradiction|].
    destruct (is_case ty "stdout"); [now conjuncts|].
    destruct (is_case ty "stderr"); [now conjuncts|].
    destruct (is_case ty "exit") eqn:E3;
      [apply is_case_true in E3; contradiction|].
    destruct (is_case ty "error");
      match goal with
      | |- context [forallb converts ?l] => destruct (forallb converts l)
      end; now conjuncts.
Qed.

Lemma console_transition_witness :
  let st := Console.run (console_running "start") Console.initial in
  let st' := state_after (Console.handleMessage frame_stdout st) in
  Console.sessionState st' = Console.sessionState st
  /\ Console.scriptName st' = Console.scriptName st
  /\ Console.exitCode st' = Console.exitCode st.
Proof.
  cbv zeta.
  apply (console_transition frame_stdout
           (JObj [("type", JStr "stdout");
                  ("data", JStr ("Server started" ++ LF))])
           (JStr "stdout")
           (Console.run (console_running "start") Console.initial)
           eq_refl eq_refl);
    discriminate.
Defined.



(** X6.  A start that is not turned down leaves the phase as it is and
    a log of at most one entry; over an open socket the log is empty
    and what goes out is the start command for the selected script,
    after a kill command when a script was running. *)
Theorem startScript_accepted (confirmed : bool) (st : Console.State)
  (accepted : ConsoleGate.rejects (ConsoleGate.Start confirmed) st = false) :
  let st' := Console.startScript confirmed st in
  Console.sessionState st' = Console.sessionState st
  /\ (length (Console.lines st') <= 1)%nat
  /\ (socket_in [OPEN] (Console.ws st) = true ->
      Console.lines st' = []
      /\ Console.outbox st'
         = (Console.outbox st
            ++ (if SessionState_eqb (Console.sessionState st) running
                then [JSON_stringify cmd_kill] else [])
            ++ [JSON_stringify (cmd_start (Console.selectedScript st))])%list).
Proof.
  cbv zeta. split; [apply startScript_sessionState|].
  assert (Hgo : forall x : Console.State,
             let x' := Console.sendWsMessage
                         (cmd_start (Console.selectedScript
                                       (Console.set_lines [] x)))
                         (Console.set_lines [] x) in
             (length (Console.lines x') <= 1)%nat
             /\ (socket_in [OPEN] (Console.ws x) = true ->
                 Console.lines x' = []
                 /\ Console.outbox x'
                    = (Console.outbox x
                       ++ [JSON_stringify
                             (cmd_start (Console.selectedScript x))])%list)).
  { intros x. cbv zeta.
    destruct (socket_in [OPEN] (Console.ws x)) eqn:Hopen.
    - destruct (console_send_open
                  (cmd_start (Console.selectedScript (Console.set_lines [] x)))
                  (Console.set_lines [] x) Hopen) as [Ho Hl].
      rewrite Hl. split; [cbn; lia|]. intros _. split; [reflexivity | exact Ho].
    - destruct (console_send_not_open
                  (cmd_start (Console.selectedScript (Console.set_lines [] x)))
                  (Console.set_lines [] x) Hopen) as [_ Hl].
      rewrite Hl. split; [cbn; lia | discriminate]. }
  cbn [ConsoleGate.rejects] in accepted. unfold Console.startScript.
  destruct (SessionState_eqb (Console.sessionState st) running) eqn:Hrun;
    cbn [andb] in accepted.
  - rewrite accepted.
    destruct (Hgo (Console.killProcess st)) as [Hlen Hsend].
    split; [exact Hlen|]. intros Hopen.
    destruct (killProcess_same_link st) as [Hsock _].
    rewrite Hsock in Hsend. destruct (Hsend Hopen) as [-> ->].
    split; [reflexivity|].
    unfold Console.killProcess at 1 2. rewrite Hrun. cbn [negb].
    rewrite (proj1 (console_send_open cmd_kill
                      (Console.addLog Console.info
                         (JStr "Sending KILL signal...") st) Hopen)).
    cbn [Console.outbox Console.addLog Console.set_lines Console.ws].
    change (Console.selectedScript (Console.sendWsMessage _ _))
      with (Console.selectedScript
              (Console.sendWsMessage cmd_kill
                 (Console.addLog Console.info
                    (JStr "Sending KILL signal...") st))).
    assert (Hsel : forall m x, Console.selectedScript (Console.sendWsMessage m x)
                               = Console.selectedScript x).
    { intros m x. unfold Console.sendWsMessage. now split_tests. }
    rewrite Hsel. cbn [Console.selectedScript Console.addLog Console.set_lines].
    now rewrite <- app_assoc.
  - destruct (Hgo st) as [Hlen Hsend]. split; [exact Hlen|].
    intros Hopen. destruct (Hsend Hopen) as [-> ->]. now split.
Qed.

Lemma startScript_accepted_witness :
  let st := Console.run (console_running "start") Console.initial in
  let st' := Console.startScript true st in
  Console.lines st' = []
  /\ Console.outbox st'
     = (Console.outbox st
        ++ [dq "{'action':'kill'}"; dq "{'action':'start','script':'start'}"])%list.
Proof.
  cbv zeta.
  apply (startScript_accepted true
           (Console.run (console_running "start") Console.initial));
    reflexivity.
Defined.

(** X7.  Input entered in a running session whose socket is not open is
    lost: nothing goes out, the log gains the "not connected" error and
    then the echo of the input, and the buffer is cleared all the same. *)
Theorem sendStdin_on_dead_socket (st : Console.State)
  (is_running : Console.sessionState st = running)
  (has_input : Console.stdinData st <> "")
  (not_open : socket_in [OPEN] (Console.ws st) = false) :
  let st' := Console.sendStdin st in
  Console.outbox st' = Console.outbox st
  /\ Console.stdinData st' = ""
  /\ Console.lines st'
     = (Console.lines st
        ++ [Console.mkLogEntry Console.error
              (JStr "WebSocket is not connected.");
            Console.mkLogEntry Console.info
              (JStr ("> " ++ Console.stdinData st))])%list.
Proof.
  cbv zeta. unfold Console.sendStdin.
  apply SessionState_eqb_eq in is_running. rewrite is_running.
  apply String.eqb_neq in has_input. rewrite has_input. cbn [negb orb].
  destruct (console_send_not_open
              (cmd_stdin (Console.stdinData st ++ LF)) st not_open) as [Ho Hl].
  conjuncts; [exact Ho | reflexivity|].
  cbn [Console.lines Console.set_stdinData Console.addLog Console.set_lines].
  rewrite Hl. now rewrite <- app_assoc.
Qed.

Lemma sendStdin_on_dead_socket_witness :
  let st := Console.run (console_running "start"
                         ++ [Console.TypeInput "say hi"; Console.WsClosing])
                        Console.initial in
  Console.outbox (Console.sendStdin st) = Console.outbox st
  /\ Console.stdinData (Console.sendStdin st) = ""
  /\ Console.lines (Console.sendStdin st)
     = (Console.lines st
        ++ [Console.mkLogEntry Console.error
              (JStr "WebSocket is not connected.");
            Console.mkLogEntry Console.info (JStr "> say hi")])%list.
Proof.
  cbv zeta.
  apply (sendStdin_on_dead_socket
           (Console.run (console_running "start"
                         ++ [Console.TypeInput "say hi"; Console.WsClosing])
                        Console.initial)).
  - reflexivity.
  - vm_compute. discriminate.
  - reflexivity.
Defined.

(** X8.  [connect] never changes the phase, the connection flag, the
    script name or the exit code, always logs "Connecting to ..." first,
    and leaves no open socket: until the open event, whatever is handed
    to [sendWsMessage] stays unsent and is answered by the "not
    connected" error entry. *)
Theorem connect_leaves_nothing_open (api : string) (thrown : option string)
  (message : JsValue) (st : Console.State) :
  let st' := Console.connect api thrown st in
  Console.sessionState st' = Console.sessionState st
  /\ Console.isConnected st' = Console.isConnected st
  /\ Console.scriptName st' = Console.scriptName st
  /\ Console.exitCode st' = Console.exitCode st
  /\ (exists more,
         Console.lines st'
         = (Console.lines st
            ++ Console.mkLogEntry Console.info
                 (JStr ("Connecting to " ++ wsUrl_of api ++ "..."))
               :: more)%list)
  /\ socket_in [OPEN] (Console.ws st') = false
  /\ Console.outbox (Console.sendWsMessage message st') = Console.outbox st'
  /\ Console.lines (Console.sendWsMessage message st')
     = (Console.lines st'
        ++ [Console.mkLogEntry Console.error
              (JStr "WebSocket is not connected.")])%list.
Proof.
  cbv zeta.
  assert (Hkeeps :
            Console.sessionState (Console.connect api thrown st)
            = Console.sessionState st
            /\ Console.isConnected (Console.connect api thrown st)
               = Console.isConnected st
            /\ Console.scriptName (Console.connect api thrown st)
               = Console.scriptName st
            /\ Console.exitCode (Console.connect api thrown st)
               = Console.exitCode st
            /\ exists more,
                 Console.lines (Console.connect api thrown st)
                 = (Console.lines st
                    ++ Console.mkLogEntry Console.info
                         (JStr ("Connecting to " ++ wsUrl_of api ++ "..."))
                       :: more)%list).
  { unfold Console.connect.
    destruct thrown, (Console.ws st); try destruct (socket_in _ _);
      conjuncts; try reflexivity; eexists;
      cbn [Console.lines Console.addLog Console.set_lines Console.set_ws
           Console.set_replaced];
      rewrite <- ?app_assoc; reflexivity. }
  destruct Hkeeps as (K1 & K2 & K3 & K4 & K5).
  pose proof (connect_not_open api thrown st) as Hclosed.
  destruct (console_send_not_open message _ Hclosed) as [Ho Hl].
  conjuncts; assumption.
Qed.

(** ** The socket's address *)

Lemma strip_prefix (p s rest : string) :
  strip p s = Some rest <-> s = p ++ rest.
Proof.
  revert s. induction p as [|a p IH]; intros s; simpl.
  - split; congruence.
  - destruct s as [|b s]; [split; discriminate|].
    destruct (Ascii.eqb_spec a b) as [->|Hab].
    + rewrite IH. split; congruence.
    + split; [discriminate | congruence].
Qed.

(** X9.  The socket's address is the API address with a leading "http"
    turned into "ws" (so "https" becomes "wss") and "/ws/exec" added;
    nothing after the prefix is rewritten, and an address that does not
    start with lower-case "http" is used as it is. *)
Theorem wsUrl_of_scheme (apiUrl : string) :
  (forall rest, apiUrl = "http" ++ rest ->
                wsUrl_of apiUrl = "ws" ++ rest ++ "/ws/exec")
  /\ (forall rest, apiUrl = "https" ++ rest ->
                   wsUrl_of apiUrl = "wss" ++ rest ++ "/ws/exec")
  /\ ((forall rest, apiUrl <> "http" ++ rest) ->
      wsUrl_of apiUrl = apiUrl ++ "/ws/exec").
Proof.
  unfold wsUrl_of. conjuncts.
  - intros rest ->.
    now rewrite (proj2 (strip_prefix "http" ("http" ++ rest) rest) eq_refl).
  - intros rest ->.
    now rewrite (proj2 (strip_prefix "http" ("https" ++ rest) (String "s" rest))
                   eq_refl).
  - intros Hno. destruct (strip "http" apiUrl) as [rest|] eqn:E; [|reflexivity].
    apply strip_prefix in E. now apply Hno in E.
Qed.

Lemma wsUrl_of_scheme_witness :
  wsUrl_of "https://mc.example.org:8443" = "wss://mc.example.org:8443/ws/exec"
  /\ wsUrl_of "HTTP://mc.example.org" = "HTTP://mc.example.org/ws/exec".
Proof.
  split.
  - apply (proj1 (proj2 (wsUrl_of_scheme "https://mc.example.org:8443"))
             "://mc.example.org:8443"). reflexivity.
  - apply (proj2 (proj2 (wsUrl_of_scheme "HTTP://mc.example.org"))).
    intros rest H. discriminate H.
Defined.

(** X10.  [disconnect] only asks the socket to close: it is idempotent,
    it leaves the phase, the flag, the script name and the log as they
    are (they change when the close event arrives), no frame is
    dropped from the record of what was sent, and afterwards the
    socket is not open. *)
Theorem disconnect_is_soft (st : Console.State) :
  let st' := Console.disconnect st in
  Console.disconnect st' = st'
  /\ Console.sessionState st' = Console.sessionState st
  /\ Console.isConnected st' = Console.isConnected st
  /\ Console.scriptName st' = Console.scriptName st
  /\ Console.lines st' = Console.lines st
  /\ Console.outbox st' = Console.outbox st
  /\ socket_in [OPEN] (Console.ws st') = false.
Proof.
  cbv zeta. unfold Console.disconnect, Console.outbox.
  destruct (Console.ws st) as [[u r l]|] eqn:E.
  - cbn [Console.ws Console.set_ws]. destruct r; now conjuncts.
  - rewrite E. now conjuncts.
Qed.

(** ** What the console sends and what it logs, along every run *)

Section ConsoleTraces.
Import Console ConsoleView.

Lemma message_keeps_socket (rawData : string) (st : State) :
  ws (state_after (handleMessage rawData st)) = ws st
  /\ isConnected (state_after (handleMessage rawData st)) = isConnected st.
Proof.
  unfold handleMessage.
  destruct (JSON_parse rawData) as [msg|]; [|now split].
  destruct (getProp msg "type") as [ty|]; [|now split].
  unfold dispatch, addLog_text. split_tests; now split.
Qed.

Lemma command_carried (cmd : JsValue) :
  is_command cmd -> carries_command (JSON_stringify cmd).
Proof.
  intros H. exists cmd. split; [|exact H].
  destruct H as [(s & _ & ->) | [(d & _ & ->) | ->]].
  - apply start_frame_reads_back.
  - apply stdin_frame_reads_back.
  - reflexivity.
Qed.

(** [sendWsMessage] adds the one frame, or none. *)
Lemma send_keeps_carried (m : JsValue) (st : State) :
  is_command m ->
  Forall carries_command (outbox st) ->
  Forall carries_command (outbox (sendWsMessage m st)).
Proof.
  intros Hm Hall. destruct (socket_in [OPEN] (ws st)) eqn:Hopen.
  - rewrite (proj1 (console_send_open m st Hopen)).
    apply Forall_app. split; [exact Hall|].
    constructor; [now apply command_carried | constructor].
  - now rewrite (proj1 (console_send_not_open m st Hopen)).
Qed.

Lemma send_keeps_text (m : JsValue) (st : State) :
  Forall own_entry_is_text (lines st) ->
  Forall own_entry_is_text (lines (sendWsMessage m st)).
Proof.
  intros Hall. destruct (socket_in [OPEN] (ws st)) eqn:Hopen.
  - now rewrite (proj2 (console_send_open m st Hopen)).
  - rewrite (proj2 (console_send_not_open m st Hopen)).
    apply Forall_app. split; [exact Hall|].
    constructor; [now eexists | constructor].
Qed.

Lemma addLog_keeps_text (ty : LogType) (d : JsValue) (st : State) :
  own_entry_is_text (mkLogEntry ty d) ->
  Forall own_entry_is_text (lines st) ->
  Forall own_entry_is_text (lines (addLog ty d st)).
Proof.
  intros He Hall. unfold addLog. cbn [lines set_lines].
  apply Forall_app. split; [exact Hall | now constructor].
Qed.

Lemma ws_close_sent (w : WebSocket) : sent (ws_close w) = sent w.
Proof. unfold ws_close. now destruct w as [u [] l]. Qed.

Lemma kill_is_command : is_command cmd_kill.
Proof. right. now right. Qed.

Lemma step_carried (st : State) (ev : Event) :
  offered st ->
  Forall carries_command (outbox st) ->
  Forall carries_command (outbox (step st ev)).
Proof.
  intros O Hall. unfold step.
  destruct (enabled ev st) eqn:En; cbn [negb]; [|exact Hall].
  destruct ev; try exact Hall.
  - (* connect: the old socket's record, or a fresh one *)
    unfold connect, outbox in *.
    destruct thrown, (ws st) as [w|] eqn:E;
      cbn [ws set_ws addLog set_lines sent]; rewrite ?E, ?ws_close_sent;
      first [exact Hall | constructor].
  - unfold disconnect, outbox in *.
    destruct (ws st) as [w|] eqn:E; cbn [ws set_ws];
      rewrite ?E, ?ws_close_sent; exact Hall.
  - (* start *)
    unfold startScript.
    assert (Hgo : forall x, offered x -> Forall carries_command (outbox x) ->
                Forall carries_command
                  (outbox (sendWsMessage
                             (cmd_start (selectedScript (set_lines [] x)))
                             (set_lines [] x)))).
    { intros x Ox Hx. apply send_keeps_carried; [|exact Hx].
      left. exists (selectedScript x). now split. }
    destruct (SessionState_eqb (sessionState st) running);
      [destruct (negb confirmed); [exact Hall|]|]; [|now apply Hgo].
    apply Hgo.
    + unfold offered, killProcess, sendWsMessage. now split_tests.
    + unfold killProcess. destruct (negb _); [exact Hall|].
      apply send_keeps_carried; [apply kill_is_command | exact Hall].
  - (* kill *)
    unfold killProcess. destruct (negb _); [exact Hall|].
    apply send_keeps_carried; [apply kill_is_command | exact Hall].
  - (* enter *)
    unfold sendStdin.
    destruct (String.eqb_spec (stdinData st) "") as [Hempty|Hfull];
      [now rewrite orb_true_r|].
    destruct (negb _); cbn [orb]; [exact Hall|].
    change (Forall carries_command
              (outbox (sendWsMessage (cmd_stdin (stdinData st ++ LF)) st))).
    apply send_keeps_carried; [|exact Hall].
    right. left. exists (stdinData st). now split.
  - unfold onopen, with_socket, outbox in *.
    destruct (ws st) as [[u r l]|] eqn:E; cbn [ws set_isConnected];
      rewrite ?E; exact Hall.
  - unfold with_socket, outbox in *.
    destruct (ws st) as [[u r l]|] eqn:E; rewrite ?E; exact Hall.
  - unfold onclose, with_socket, outbox in *.
    destruct (ws st) as [[u r l]|] eqn:E;
      cbn [ws set_isConnected set_sessionState set_scriptName addLog set_lines];
      rewrite ?E; exact Hall.
  - unfold outbox.
    now rewrite (proj1 (message_keeps_socket rawData st)).
Qed.

Lemma step_text (st : State) (ev : Event) :
  Forall own_entry_is_text (lines st) ->
  Forall own_entry_is_text (lines (step st ev)).
Proof.
  intros Hall. unfold step.
  destruct (enabled ev st) eqn:En; cbn [negb]; [|exact Hall].
  destruct ev; try exact Hall.
  - unfold connect.
    destruct thrown, (ws st); try destruct (socket_in _ _);
      repeat (apply addLog_keeps_text; [now eexists|]); exact Hall.
  - unfold disconnect. now destruct (ws st).
  - unfold startScript.
    assert (Hgo : forall x,
                Forall own_entry_is_text
                  (lines (sendWsMessage
                            (cmd_start (selectedScript (set_lines [] x)))
                            (set_lines [] x)))).
    { intros x. apply send_keeps_text. constructor. }
    destruct (SessionState_eqb (sessionState st) running);
      [destruct (negb confirmed); [exact Hall|]|]; apply Hgo.
  - unfold killProcess. destruct (negb _); [exact Hall|].
    apply send_keeps_text. apply addLog_keeps_text; [now eexists | exact Hall].
  - unfold sendStdin. destruct (_ || _); [exact Hall|].
    change (Forall own_entry_is_text
              (lines (addLog info (JStr ("> " ++ stdinData st))
                        (sendWsMessage (cmd_stdin (stdinData st ++ LF)) st)))).
    apply addLog_keeps_text; [now eexists|]. now apply send_keeps_text.
  - unfold onopen, with_socket. now destruct (ws st).
  - unfold with_socket. now destruct (ws st).
  - unfold onclose, with_socket.
    destruct (ws st); (apply addLog_keeps_text; [now eexists | exact Hall]).
  - unfold onerror. apply addLog_keeps_text; [now eexists | exact Hall].
  - unfold handleMessage.
    destruct (JSON_parse rawData) as [msg|];
      [|apply addLog_keeps_text; [now eexists | exact Hall]].
    destruct (getProp msg "type") as [ty|]; [|exact Hall].
    unfold dispatch, addLog_text.
    split_tests; cbn [state_after];
      first [exact Hall
            | apply addLog_keeps_text;
              try exact Hall; try (now eexists); exact I].
  - unfold onerror. apply addLog_keeps_text; [now eexists | exact Hall].
  - unfold onclose. apply addLog_keeps_text; [now eexists | exact Hall].
Qed.

End ConsoleTraces.

(** X11.  Along every run of the console, every frame handed to the
    socket is JSON for one of three commands: start with one of the
    seven offered scripts, stdin with non-empty input followed by a
    newline, or kill. *)
Theorem console_sends_only_commands (evs : list Console.Event) :
  Forall ConsoleView.carries_command
         (Console.outbox (Console.run evs Console.initial)).
Proof.
  assert (H : forall st,
             ConsoleView.offered st ->
             Forall ConsoleView.carries_command (Console.outbox st) ->
             Forall ConsoleView.carries_command
                    (Console.outbox (Console.run evs st))).
  { induction evs as [|ev evs IH]; intros st O Hall; [exact Hall|].
    apply IH; [now apply step_offered | now apply step_carried]. }
  apply H; [|constructor].
  unfold ConsoleView.offered. simpl. tauto.
Qed.

(** X12.  Along every run of the console, the only log entries whose
    rendering can fail (their data is not a string, so it has no
    [replace]) are stdout and stderr entries, which carry whatever the
    frame's data was; every info and error entry renders. *)
Theorem console_own_entries_render (evs : list Console.Event) :
  Forall (fun e =>
            ConsoleView.render_input (Console.data e) = None ->
            Console.type e = Console.stdout \/ Console.type e = Console.stderr)
         (Console.lines (Console.run evs Console.initial)).
Proof.
  assert (H : forall st,
             Forall ConsoleView.own_entry_is_text (Console.lines st) ->
             Forall ConsoleView.own_entry_is_text
                    (Console.lines (Console.run evs st))).
  { induction evs as [|ev evs IH]; intros st Hall; [exact Hall|].
    apply IH. now apply step_text. }
  specialize (H Console.initial (Forall_nil _)).
  eapply Forall_impl; [|exact H].
  intros [ty d] Htext Hfail. unfold ConsoleView.own_entry_is_text in Htext.
  cbn [Console.type Console.data] in *.
  destruct ty; auto; destruct Htext as [s ->]; discriminate.
Qed.

(** A stdout frame whose data is a number does leave such an entry. *)
Example stdout_number_does_not_render :
  let st := Console.run (console_attached
                         ++ [Console.WsMessage (dq "{'type':'stdout','data':5}")])
                        Console.initial in
  In (Console.mkLogEntry Console.stdout (JNum 5)) (Console.lines st)
  /\ ConsoleView.render_input (JNum 5) = None.
Proof. cbv zeta. split; [vm_compute; auto 10 | reflexivity]. Qed.

Lemma message_log_growth (rawData : string) (st : Console.State) :
  (exists e,
      Console.lines (state_after (Console.handleMessage rawData st))
      = (Console.lines st ++ [e])%list)
  \/ Console.lines (state_after (Console.handleMessage rawData st))
     = Console.lines st.
Proof.
  unfold Console.handleMessage.
  destruct (JSON_parse rawData) as [msg|]; [|left; now eexists].
  destruct (getProp msg "type") as [ty|]; [|now right].
  unfold Console.dispatch, Console.addLog_text.
  split_tests; cbn [state_after]; first [now right | left; now eexists].
Qed.

Ltac nothing_added :=
  exists []; rewrite app_nil_r; split; [reflexivity | cbn; lia].

(** X13.  Only Start Script ever removes anything from the log: every
    other event leaves the log as it was with at most two entries
    added. *)
Theorem log_cleared_only_by_start (st : Console.State) (ev : Console.Event)
  (not_start : forall confirmed, ev <> Console.ClickStart confirmed) :
  exists more,
    Console.lines (Console.step st ev) = (Console.lines st ++ more)%list
    /\ (length more <= 2)%nat.
Proof.
  unfold Console.step.
  destruct (Console.enabled ev st); cbn [negb];
    [|nothing_added].
  destruct ev;
    try (now contradiction (not_start confirmed));
    try (nothing_added).
  - unfold Console.connect.
    destruct thrown, (Console.ws st); try destruct (socket_in _ _); eexists;
      cbn [Console.lines Console.addLog Console.set_lines Console.set_ws
           Console.set_replaced];
      rewrite <- ?app_assoc; (split; [reflexivity | cbn; lia]).
  - unfold Console.disconnect. destruct (Console.ws st);
      nothing_added.
  - unfold Console.killProcess. destruct (negb _);
      [nothing_added|].
    destruct (socket_in [OPEN] (Console.ws st)) eqn:Hopen.
    + rewrite (proj2 (console_send_open cmd_kill
                        (Console.addLog Console.info
                           (JStr "Sending KILL signal...") st) Hopen)).
      eexists. split; [reflexivity | cbn; lia].
    + rewrite (proj2 (console_send_not_open cmd_kill
                        (Console.addLog Console.info
                           (JStr "Sending KILL signal...") st) Hopen)).
      eexists. cbn [Console.lines Console.addLog Console.set_lines].
      rewrite <- app_assoc. split; [reflexivity | cbn; lia].
  - unfold Console.sendStdin. destruct (_ || _);
      [nothing_added|].
    cbn [Console.lines Console.set_stdinData Console.addLog Console.set_lines].
    destruct (socket_in [OPEN] (Console.ws st)) eqn:Hopen.
    + rewrite (proj2 (console_send_open _ st Hopen)).
      eexists. split; [reflexivity | cbn; lia].
    + rewrite (proj2 (console_send_not_open _ st Hopen)).
      eexists. rewrite <- app_assoc. split; [reflexivity | cbn; lia].
  - unfold Console.onopen, Console.with_socket. destruct (Console.ws st);
      nothing_added.
  - unfold Console.with_socket. destruct (Console.ws st);
      nothing_added.
  - unfold Console.onclose, Console.with_socket. destruct (Console.ws st);
      eexists; (split; [reflexivity | cbn; lia]).
  - eexists. split; [reflexivity | cbn; lia].
  - destruct (message_log_growth rawData st) as [(e & E) | E];
      rewrite E; [exists [e] | exists []]; rewrite ?app_nil_r;
      (split; [reflexivity | cbn; lia]).
  - eexists. split; [reflexivity | cbn; lia].
  - eexists. split; [reflexivity | cbn; lia].
Qed.

Lemma log_cleared_only_by_start_witness :
  let st := Console.run (console_running "start") Console.initial in
  exists more,
    Console.lines (Console.step st Console.ClickKill)
    = (Console.lines st ++ more)%list
    /\ (length more <= 2)%nat.
Proof.
  cbv zeta.
  apply (log_cleared_only_by_start
           (Console.run (console_running "start") Console.initial)
           Console.ClickKill).
  intros confirmed H. discriminate H.
Defined.

(** ** Rendering a log line *)

Section Rendering.
Import ConsoleView.

Lemma string_pairs_ind (P : string -> Prop) :
  P "" ->
  (forall c, P (String c "")) ->
  (forall c d r, P r -> P (String d r) -> P (String c (String d r))) ->
  forall s, P s.
Proof.
  intros H0 H1 H2.
  assert (H : forall s, P s /\ forall c, P (String c s)).
  { induction s as [|d r [IHr IHc]]; [now split|].
    split; [apply IHc|]. intros c. apply H2; [exact IHr | apply IHc]. }
  intros s. apply H.
Qed.

(** What is rewritten starts with a newline or with the character that
    was there. *)
Lemma replace_head (d : ascii) (r : string) :
  exists t,
    replace_escaped_newlines (String d r) = String (ascii_of_nat 10) t
    \/ replace_escaped_newlines (String d r) = String d t.
Proof.
  destruct r as [|e r']; [exists ""; now right|].
  cbn [replace_escaped_newlines].
  destruct ((d =? "\")%char && (e =? "n")%char); eexists; [left | right];
    reflexivity.
Qed.

Lemma has_escaped_cons (c x : ascii) (t : string) :
  has_escaped_newline (String c (String x t))
  = ((c =? "\")%char && (x =? "n")%char) || has_escaped_newline (String x t).
Proof. reflexivity. Qed.

Lemma replace_cons (c d : ascii) (r : string) :
  replace_escaped_newlines (String c (String d r))
  = if (c =? "\")%char && (d =? "n")%char
    then String (ascii_of_nat 10) (replace_escaped_newlines r)
    else String c (replace_escaped_newlines (String d r)).
Proof. reflexivity. Qed.

Lemma replace_clears (s : string) :
  has_escaped_newline (replace_escaped_newlines s) = false.
Proof.
  induction s as [| c | c d r IHr IHd] using string_pairs_ind;
    [reflexivity | reflexivity |].
  rewrite replace_cons.
  destruct ((c =? "\")%char && (d =? "n")%char) eqn:E.
  - destruct (replace_escaped_newlines r) as [|x t] eqn:R; [reflexivity|].
    rewrite has_escaped_cons, IHr. reflexivity.
  - destruct (replace_head d r) as [t [R | R]]; rewrite R in *;
      rewrite has_escaped_cons, IHd, orb_false_r.
    + apply andb_false_r.
    + exact E.
Qed.

Lemma replace_nothing (s : string) :
  has_escaped_newline s = false -> replace_escaped_newlines s = s.
Proof.
  induction s as [| c | c d r IHr IHd] using string_pairs_ind;
    [reflexivity | reflexivity |].
  rewrite has_escaped_cons, replace_cons.
  destruct ((c =? "\")%char && (d =? "n")%char); [discriminate|].
  cbn [orb]. intros H. now rewrite IHd.
Qed.

Lemma replace_length (s : string) :
  (String.length (replace_escaped_newlines s) <= String.length s)%nat.
Proof.
  induction s as [| c | c d r IHr IHd] using string_pairs_ind;
    [apply le_n | apply le_n |].
  rewrite replace_cons.
  destruct ((c =? "\")%char && (d =? "n")%char);
    cbn [String.length] in *; lia.
Qed.

End Rendering.

(** X14.  The template's rewriting of a log line, which turns every
    backslash followed by [n] into a newline, leaves no such pair
    behind, is idempotent, changes nothing in a text without the pair,
    and never makes the text longer. *)
Theorem replace_escaped_newlines_sound (s : string) :
  ConsoleView.has_escaped_newline (ConsoleView.replace_escaped_newlines s)
  = false
  /\ ConsoleView.replace_escaped_newlines (ConsoleView.replace_escaped_newlines s)
     = ConsoleView.replace_escaped_newlines s
  /\ (ConsoleView.has_escaped_newline s = false ->
      ConsoleView.replace_escaped_newlines s = s)
  /\ (String.length (ConsoleView.replace_escaped_newlines s)
      <= String.length s)%nat.
Proof.
  conjuncts.
  - apply replace_clears.
  - apply replace_nothing, replace_clears.
  - apply replace_nothing.
  - apply replace_length.
Qed.

Lemma replace_escaped_newlines_sound_witness :
  ConsoleView.replace_escaped_newlines "Done (3.2s)! For help, type help"
  = "Done (3.2s)! For help, type help".
Proof.
  apply (proj1 (proj2 (proj2 (replace_escaped_newlines_sound
                                "Done (3.2s)! For help, type help")))).
  reflexivity.
Defined.

(** A pair is rewritten, a doubled backslash before [n] loses only its
    second backslash. *)
Example replace_escaped_newlines_runs :
  ConsoleView.replace_escaped_newlines "a\nb\\nc"
  = "a" ++ LF ++ "b\" ++ LF ++ "c".
Proof. reflexivity. Qed.

(* ================================================================== *)
(** * More of the panel                                                 *)
(* ================================================================== *)

(** Case analysis on the conversions a case of the panel's switch
    makes. *)
Ltac print_cases :=
  repeat match goal with
         | |- context [Panel.term_print ?v ?op ?x] =>
             let E := fresh "E" in
             destruct (term_print_cases v op x) as [E | (E & _ & _)];
             rewrite E; cbn [Panel.and_then state_after]
         | |- context [if truthy ?d then _ else _] =>
             destruct (truthy d); cbn [Panel.and_then state_after]
         end.

Section PanelEnds.
Import Panel PanelLink.

(** Whatever relation the terminal writes, the phase assignments and
    the status query keep, the switch keeps, however it ends. *)
Lemma dispatch_preserves (R : State -> State -> Prop) :
  (forall x, R x x) ->
  (forall a b c, R a b -> R b c -> R a c) ->
  (forall op x, op <> reset -> R x (term_do op x)) ->
  (forall p x, R x (set_sessionState p x)) ->
  (forall x, R x (checkStatus x)) ->
  forall ty msg st, R st (state_after (dispatch ty msg st)).
Proof.
  intros Rrefl Rtrans Rdo Rset Rpoll ty msg st. unfold dispatch.
  repeat match goal with
         | |- context [if is_case ?a ?b then _ else _] => destruct (is_case a b)
         end;
    print_cases; cbn [state_after];
    repeat first [ apply Rrefl
                 | eapply Rtrans;
                   [|first [apply Rdo; discriminate | apply Rset | apply Rpoll]]].
Qed.

(** The switch throws exactly when there is a terminal and one of the
    values its case prints does not convert. *)
Lemma panel_dispatch_throws (ty msg : JsValue) (st : State) :
  (exists s, dispatch ty msg st = Throw TypeError s)
  <-> (term st <> None /\ forallb converts (printed ty msg) = false).
Proof.
  unfold dispatch, printed.
  destruct (is_case ty "ready"), (is_case ty "started"),
    (is_case ty "stdout"), (is_case ty "stderr"),
    (is_case ty "exit"), (is_case ty "error"); cbv iota;
    unfold term_print, and_then, term_do;
    cbn [term set_sessionState set_term];
    destruct (term st) as [ops|] eqn:T;
    repeat (cbv beta iota; cbn [term set_term set_sessionState];
            rewrite ?T);
    repeat match goal with
           | |- context [truthy ?v] => destruct (truthy v)
           end;
    cbn [forallb];
    repeat match goal with
           | |- context [converts ?v] => destruct (converts v)
           end;
    cbn [andb term set_term];
    (split;
     [ intros (s & H);
       first [discriminate H | split; [discriminate | reflexivity]]
     | intros [Ht Hc];
       first [discriminate Hc | now contradiction Ht | eauto] ]).
Qed.

(** And a TypeError is all it throws. *)
Lemma panel_dispatch_type_error (ty msg : JsValue) (st : State) :
  forall e s, dispatch ty msg st = Throw e s -> e = TypeError.
Proof.
  intros e s. unfold dispatch.
  repeat match goal with
         | |- context [if is_case ?a ?b then _ else _] => destruct (is_case a b)
         end;
    print_cases; intros H; try discriminate H; now injection H as <- _.
Qed.

End PanelEnds.

Section PanelReach.
Import Panel PanelLink.

Lemma panel_same_link_refl (st : State) : same_link st st.
Proof. now split. Qed.

Lemma panel_same_link_trans (a b c : State) :
  same_link a b -> same_link b c -> same_link a c.
Proof.
  intros [H1 H2] [H3 H4]. split; [|congruence].
  intros rs. now rewrite H3, H1.
Qed.

Lemma term_do_same_link (op : TermOp) (st : State) :
  same_link st (term_do op st).
Proof. unfold term_do. destruct (term st); now split. Qed.

Lemma checkStatus_same_link (st : State) : same_link st (checkStatus st).
Proof. now split. Qed.

Lemma panel_send_same_link (m : JsValue) (st : State) :
  same_link st (sendWsMessage m st).
Proof.
  unfold sendWsMessage. destruct (ws st) as [w|] eqn:E.
  - destruct (is_open w); [|apply term_do_same_link].
    split; [|reflexivity]. intros rs. simpl. now rewrite E.
  - apply term_do_same_link.
Qed.

Lemma panel_send_sessionState (m : JsValue) (st : State) :
  sessionState (sendWsMessage m st) = sessionState st.
Proof.
  unfold sendWsMessage. destruct (ws st) as [w|]; [destruct (is_open w)|];
    try reflexivity; apply term_do_sessionState.
Qed.

(** The buttons and the keyboard keep the link and the phase. *)
Lemma panel_reset_send (m : JsValue) (st : State) :
  same_link st (sendWsMessage m (term_do reset st))
  /\ sessionState (sendWsMessage m (term_do reset st)) = sessionState st.
Proof.
  split.
  - eapply panel_same_link_trans;
      [apply term_do_same_link | apply panel_send_same_link].
  - now rewrite panel_send_sessionState, term_do_sessionState.
Qed.

Lemma panel_user_step (st : State) (ev : Event) :
  match ev with
  | ClickStart | ClickStop | ClickUpdate | Key _ => True
  | _ => False
  end ->
  same_link st (step st ev) /\ sessionState (step st ev) = sessionState st.
Proof.
  intros Huser. unfold step.
  destruct (enabled ev st); cbn [negb]; [|now split].
  destruct ev; try contradiction.
  - unfold onStart. destruct (SessionState_eqb _ _); [now split|].
    destruct (panel_reset_send (cmd_start "start-interactive") st) as [Hl Hp].
    split; [|exact Hp].
    eapply panel_same_link_trans; [exact Hl | apply checkStatus_same_link].
  - unfold onStop. destruct (SessionState_eqb _ _).
    + split; [apply panel_send_same_link | apply panel_send_sessionState].
    + apply panel_reset_send.
  - unfold onUpdate. destruct (SessionState_eqb _ _); [now split|].
    apply panel_reset_send.
  - unfold onData. destruct (_ && _); [|now split].
    split; [apply panel_send_same_link | apply panel_send_sessionState].
Qed.

Lemma panel_dispatch_same_link (ty msg : JsValue) (st : State) :
  same_link st (state_after (dispatch ty msg st)).
Proof.
  apply dispatch_preserves.
  - apply panel_same_link_refl.
  - apply panel_same_link_trans.
  - intros op x _. apply term_do_same_link.
  - now split.
  - apply checkStatus_same_link.
Qed.

Lemma panel_resume_same_link (response : JsValue) (st : State) :
  same_link st (state_after (checkStatus_resume response st))
  /\ sessionState (state_after (checkStatus_resume response st))
     = sessionState st.
Proof. unfold checkStatus_resume. split_tests; now repeat split. Qed.

Lemma panel_invariant_same_link (st st' : State) :
  same_link st st' -> sessionState st' = sessionState st ->
  invariant st -> invariant st'.
Proof.
  intros [Hs Hc] Hp [I1 I2]. split.
  - rewrite Hs, Hc. exact I1.
  - rewrite Hp, Hc. exact I2.
Qed.

Lemma panel_step_invariant (st : State) (ev : Event) :
  invariant st -> invariant (step st ev).
Proof.
  intros Inv.
  destruct ev;
    try (match goal with
         | |- invariant (step st ?e) =>
             destruct (panel_user_step st e I) as [Hl Hp];
             now apply (panel_invariant_same_link st _ Hl Hp)
         end).
  all: unfold step; destruct (enabled _ st) eqn:En; cbn [negb];
    try exact Inv; cbn [enabled] in En.
  - destruct (panel_resume_same_link response st) as [Hl Hp].
    now apply (panel_invariant_same_link st _ Hl Hp).
  - (* open *)
    split; intros _; unfold onopen; now rewrite term_do_isWsConnected.
  - (* closing *)
    destruct Inv as [I1 I2]. unfold with_socket.
    destruct (ws st) as [w|] eqn:E; [|discriminate].
    split; [discriminate | exact I2].
  - (* close *)
    unfold onclose. split.
    + unfold with_socket. destruct (ws st) as [w|] eqn:E; [|discriminate].
      cbn [ws checkStatus set_loadingAction].
      destruct (term_do_same_link
                  (writeln (CR ++ LF ++ red "WebSocket Disconnected."))
                  (set_sessionState idle
                     (set_isWsConnected false
                        (set_ws (Some (ws_set_readyState CLOSED w)) st))))
        as [Hs _].
      rewrite Hs. discriminate.
    + cbn [sessionState checkStatus set_loadingAction].
      rewrite term_do_sessionState. intros H. now contradiction H.
  - (* error *)
    apply (panel_invariant_same_link st _ (term_do_same_link _ st)).
    + apply term_do_sessionState.
    + exact Inv.
  - (* message *)
    destruct Inv as [I1 I2]. cbn [enabled] in En. specialize (I1 En).
    unfold handleWsMessage.
    destruct (JSON_parse rawData) as [msg|].
    + destruct (getProp msg "type") as [ty|]; [|now split].
      destruct (panel_dispatch_same_link ty msg st) as [Hs Hc].
      split; intros _; now rewrite Hc.
    + cbn [state_after]. split; intros _; now rewrite term_do_isWsConnected.
Qed.

(** Mounting leaves a socket that is not open yet, or none, and the
    phase idle. *)
Lemma panel_mounted_invariant (client container : bool) (api : string)
  (thrown : option string) :
  invariant (state_after (onMounted client container api thrown initial)).
Proof.
  unfold onMounted, connectWebSocket, initializeTerminal.
  destruct thrown, (client && container); split;
    try discriminate; intros H; now contradiction H.
Qed.

End PanelReach.

(** X15.  Along every run of the panel, however it was mounted: an open
    socket is flagged as connected, and the session is idle while the
    flag is not set. *)
Theorem panel_reachable_states (client container : bool) (api : string)
  (thrown : option string) (evs : list Panel.Event) :
  let st := Panel.run evs
              (state_after (Panel.onMounted client container api thrown
                              Panel.initial)) in
  (socket_in [OPEN] (Panel.ws st) = true -> Panel.isWsConnected st = true)
  /\ (Panel.isWsConnected st = false -> Panel.sessionState st = idle).
Proof.
  cbv zeta.
  assert (H : forall st, PanelLink.invariant st ->
                         PanelLink.invariant (Panel.run evs st)).
  { induction evs as [|ev evs IH]; intros st Inv; [exact Inv|].
    apply IH, panel_step_invariant, Inv. }
  destruct (H _ (panel_mounted_invariant client container api thrown))
    as [I1 I2].
  split; [exact I1|]. intros Hoff.
  destruct (Panel.sessionState _) eqn:E; [reflexivity| |];
    rewrite I2 in Hoff by discriminate; discriminate.
Qed.

Section PanelWrites.
Import Panel PanelLink.

Lemma only_writes_refl (st : State) : only_writes st st.
Proof.
  unfold only_writes. conjuncts; try reflexivity.
  exists []. split; [constructor|].
  destruct (term st); cbn; now rewrite ?app_nil_r.
Qed.

Lemma only_writes_trans (a b c : State) :
  only_writes a b -> only_writes b c -> only_writes a c.
Proof.
  intros (A1 & A2 & A3 & A4 & m1 & F1 & T1) (B1 & B2 & B3 & B4 & m2 & F2 & T2).
  unfold only_writes. conjuncts; try congruence.
  exists (m1 ++ m2)%list. split; [now apply Forall_app|].
  rewrite T2, T1. destruct (term a); cbn; now rewrite ?app_assoc.
Qed.

Lemma term_do_writes (op : TermOp) (st : State) :
  op <> reset -> only_writes st (term_do op st).
Proof.
  intros Hop. unfold only_writes, term_do.
  destruct (term st) as [ops|] eqn:E; cbn; rewrite ?E; conjuncts;
    try reflexivity.
  - exists [op]. split; [now repeat constructor | reflexivity].
  - exists []. split; [constructor | reflexivity].
Qed.

Lemma dispatch_writes (ty msg : JsValue) (st : State) :
  only_writes st (state_after (dispatch ty msg st)).
Proof.
  apply dispatch_preserves.
  - apply only_writes_refl.
  - apply only_writes_trans.
  - intros op x Hop. now apply term_do_writes.
  - intros p x. apply (only_writes_refl x).
  - intros x. apply (only_writes_refl x).
Qed.

Lemma panel_message_writes (rawData : string) (st : State) :
  only_writes st (state_after (handleWsMessage rawData st)).
Proof.
  unfold handleWsMessage.
  destruct (JSON_parse rawData) as [msg|].
  - destruct (getProp msg "type") as [ty|];
      [apply dispatch_writes | apply only_writes_refl].
  - apply term_do_writes. discriminate.
Qed.

End PanelWrites.

(** X16.  Handling an inbound text on the panel never touches the
    socket (so it sends nothing), the connection flag, the HTTP status
    or the kept error response; it never clears the terminal, only
    writes to it, and writes nothing while there is no terminal.  All
    it throws is a TypeError, and it throws exactly on JSON for [null]
    and, when there is a terminal, on a frame one of whose values the
    template literals of its case cannot convert to text; without a
    terminal those literals are not evaluated. *)
Theorem panel_message_only_writes (rawData : string) (st : Panel.State) :
  PanelLink.only_writes st (state_after (Panel.handleWsMessage rawData st))
  /\ (forall e s,
        Panel.handleWsMessage rawData st = Throw e s -> e = TypeError)
  /\ ((exists e s, Panel.handleWsMessage rawData st = Throw e s)
      <-> (JSON_parse rawData = Some JNull
           \/ (Panel.term st <> None
               /\ exists msg ty,
                    JSON_parse rawData = Some msg
                    /\ getProp msg "type" = Some ty
                    /\ forallb converts (PanelLink.printed ty msg)
                       = false))).
Proof.
  split; [apply panel_message_writes|].
  unfold Panel.handleWsMessage.
  destruct (JSON_parse rawData) as [msg|] eqn:P.
  - destruct (getProp msg "type") as [ty|] eqn:T.
    + split; [apply panel_dispatch_type_error|]. split.
      * intros (e & s & H).
        pose proof (panel_dispatch_type_error ty msg st e s H) as ->.
        right.
        destruct (proj1 (panel_dispatch_throws ty msg st)) as [Ht Hc];
          [eauto|].
        split; [exact Ht|]. now exists msg, ty.
      * intros [H | (Ht & m & t & Hm & Hty & Hc)].
        { injection H as ->. discriminate T. }
        { injection Hm as <-. rewrite T in Hty. injection Hty as <-.
          destruct (proj2 (panel_dispatch_throws ty msg st)) as (s & E);
            [now split | eauto]. }
    + apply getProp_None in T. destruct T as [-> | ->];
        [|now apply JSON_parse_defined in P].
      split.
      * intros e s H. now injection H as <- _.
      * split; [now left | eauto].
  - split; [discriminate|].
    split; [intros (e & s & H); discriminate H|].
    intros [H | (_ & m & t & Hm & _)]; discriminate.
Qed.

(** The exit frame whose code is an object with a member named
    [toString]: with a terminal the panel is left [exited] without the
    status query; without one the frame is handled in full. *)
Example exit_with_unprintable_code :
  let st := Panel.run panel_running panel_mounted in
  let bare := Panel.set_term None st in
  let frame := dq "{'type':'exit','code':{'toString':1}}" in
  Panel.handleWsMessage frame st
  = Throw TypeError (Panel.set_sessionState exited st)
  /\ Panel.handleWsMessage frame bare
     = Normal (Panel.checkStatus (Panel.set_sessionState exited bare)).
Proof. by_running. Qed.

(** X17.  Where a parsed frame leaves the panel depends on its
    discriminator and on whether the lines of its case can be written,
    which they can when there is no terminal (nothing is written) or
    the values they print convert to text.  Ready gives idle and
    started gives running, without a status query.  Exit gives exited,
    and issues one status query exactly when its line can be written;
    when not, the handler has thrown before the query.  Error asks for
    no status and gives exited exactly when its lines can be written;
    when not, the handler has thrown before the assignment and the
    phase is what it was.  Any other discriminator, string or not,
    changes neither the phase nor the count of status queries. *)
Theorem panel_transition (rawData : string) (msg ty : JsValue)
  (st : Panel.State)
  (parsed : JSON_parse rawData = Some msg)
  (tagged : getProp msg "type" = Some ty) :
  let st' := state_after (Panel.handleWsMessage rawData st) in
  let writable := match Panel.term st with
                  | Some _ => forallb converts (PanelLink.printed ty msg)
                  | None => true
                  end in
  (ty = JStr "ready" ->
   Panel.sessionState st' = idle
   /\ Panel.statusQueries st' = Panel.statusQueries st)
  /\ (ty = JStr "started" ->
      Panel.sessionState st' = running
      /\ Panel.statusQueries st' = Panel.statusQueries st)
  /\ (ty = JStr "exit" ->
      Panel.sessionState st' = exited
      /\ (if writable
          then Panel.statusQueries st' = S (Panel.statusQueries st)
               /\ Panel.loadingAction st' = Some "status"
          else Panel.statusQueries st' = Panel.statusQueries st
               /\ Panel.loadingAction st' = Panel.loadingAction st))
  /\ (ty = JStr "error" ->
      Panel.statusQueries st' = Panel.statusQueries st
      /\ Panel.sessionState st'
         = (if writable then exited else Panel.sessionState st))
  /\ (ty <> JStr "ready" -> ty <> JStr "started" ->
      ty <> JStr "exit" -> ty <> JStr "error" ->
      Panel.sessionState st' = Panel.sessionState st
      /\ Panel.statusQueries st' = Panel.statusQueries st).
Proof.
  cbv zeta. conjuncts.
  - intros ->.
    destruct (panel_on_ready rawData msg parsed st tagged) as (s & -> & H).
    exact H.
  - intros ->. rewrite (panel_handle_tagged rawData msg parsed _ st tagged).
    unfold Panel.dispatch. cbn [is_case String.eqb Ascii.eqb Bool.eqb].
    print_cases; now autorewrite with panel.
  - intros ->.
    destruct (Panel.term st) as [ops|] eqn:T.
    + change (PanelLink.printed (JStr "exit") msg) with [field msg "code"].
      cbn [forallb]. rewrite andb_true_r.
      destruct (converts (field msg "code")) eqn:C.
      * destruct (panel_on_exit rawData msg parsed st tagged
                    (or_intror C)) as (s & -> & H1 & H2 & H3).
        now conjuncts.
      * rewrite (panel_exit_throws rawData msg parsed st tagged)
          by congruence.
        now conjuncts.
    + destruct (panel_on_exit rawData msg parsed st tagged
                  (or_introl T)) as (s & -> & H1 & H2 & H3).
      now conjuncts.
  - intros ->.
    destruct (Panel.term st) as [ops|] eqn:T.
    + destruct (forallb converts (PanelLink.printed (JStr "error") msg)) eqn:C.
      * destruct (panel_on_error rawData msg parsed st tagged
                    (or_intror C)) as (s & -> & H1 & H2).
        now split.
      * destruct (panel_error_throws rawData msg parsed st tagged)
          as (s & -> & H1 & H2); [congruence | exact C | now split].
    + destruct (panel_on_error rawData msg parsed st tagged
                  (or_introl T)) as (s & -> & H1 & H2).
      now split.
  - intros H1 H2 H3 H4.
    rewrite (panel_handle_tagged rawData msg parsed _ st tagged).
    unfold Panel.dispatch.
    destruct (is_case ty "ready") eqn:E1;
      [apply is_case_true in E1; contradiction|].
    destruct (is_case ty "started") eqn:E2;
      [apply is_case_true in E2; contradiction|].
    destruct (is_case ty "stdout");
      [cbn [state_after]; now autorewrite with panel|].
    destruct (is_case ty "stderr");
      [print_cases; now autorewrite with panel|].
    destruct (is_case ty "exit") eqn:E3;
      [apply is_case_true in E3; contradiction|].
    destruct (is_case ty "error") eqn:E4;
      [apply is_case_true in E4; contradiction|].
    now split.
Qed.

Lemma panel_transition_witness :
  let st := Panel.run panel_running panel_mounted in
  let st' := state_after (Panel.handleWsMessage (frame_exit "0") st) in
  Panel.sessionState st' = exited
  /\ Panel.statusQueries st' = S (Panel.statusQueries st)
  /\ Panel.loadingAction st' = Some "status".
Proof.
  cbv zeta.
  apply (proj1 (proj2 (proj2
           (panel_transition (frame_exit "0")
              (JObj [("type", JStr "exit"); ("code", JNum 0)]) (JStr "exit")
              (Panel.run panel_running panel_mounted) eq_refl eq_refl)))
           eq_refl).
Defined.

(** The error frame whose message is such an object, in a running
    session with a terminal: the panel stays [running]. *)
Example error_with_unprintable_message :
  let st := Panel.run panel_running panel_mounted in
  let frame := dq "{'type':'error','message':{'toString':1}}" in
  Panel.sessionState st = running
  /\ Panel.handleWsMessage frame st = Throw TypeError st.
Proof. by_running. Qed.

(** ** The status query, from request to display *)

(** X18.  A status query that fails (its response has no truthy [ok])
    shows as status "error", keeps the response for display, ends the
    loading state, and touches neither the phase, the socket nor the
    terminal. *)
Theorem status_query_failure (response ok : JsValue) (st : Panel.State)
  (has_ok : getProp response "ok" = Some ok)
  (falsy : truthy ok = false) :
  exists st',
    Panel.checkStatus_resume response st = Normal st'
    /\ Panel.status st' = JStr "error"
    /\ Panel.lastResponse st' = Some response
    /\ Panel.loadingAction st' = None
    /\ Panel.sessionState st' = Panel.sessionState st
    /\ Panel.ws st' = Panel.ws st
    /\ Panel.term st' = Panel.term st.
Proof.
  unfold Panel.checkStatus_resume. rewrite has_ok, falsy.
  eexists. split; [reflexivity|]. now conjuncts.
Qed.

Lemma status_query_failure_witness :
  exists st',
    Panel.checkStatus_resume
      (JObj [("ok", JBool false); ("status", JNum 502)])
      (Panel.checkStatus panel_mounted) = Normal st'
    /\ Panel.status st' = JStr "error"
    /\ Panel.loadingAction st' = None.
Proof.
  destruct (status_query_failure
              (JObj [("ok", JBool false); ("status", JNum 502)])
              (JBool false) (Panel.checkStatus panel_mounted)
              eq_refl eq_refl)
    as (st' & E & Hs & _ & Hl & _).
  exists st'. now conjuncts.
Defined.

(** X19.  A status query that succeeds shows the status the body
    carries and ends the loading state, and it leaves an error response
    kept from an earlier failure where it is: the failure box of the
    template stays on screen. *)
Theorem status_query_success_keeps_error (response ok s : JsValue)
  (st : Panel.State)
  (has_ok : getProp response "ok" = Some ok)
  (is_ok : truthy ok = true)
  (has_status : getProp (field response "data") "status" = Some s) :
  exists st',
    Panel.checkStatus_resume response st = Normal st'
    /\ Panel.status st' = s
    /\ Panel.loadingAction st' = None
    /\ Panel.lastResponse st' = Panel.lastResponse st
    /\ Panel.sessionState st' = Panel.sessionState st.
Proof.
  unfold Panel.checkStatus_resume. rewrite has_ok, is_ok, has_status.
  eexists. split; [reflexivity|]. now conjuncts.
Qed.

Lemma status_query_success_keeps_error_witness :
  let failed := JObj [("ok", JBool false); ("status", JNum 502)] in
  let fine := JObj [("ok", JBool true);
                    ("data", JObj [("status", JStr "active")])] in
  let st := Panel.run [Panel.StatusResponse failed]
                      (Panel.checkStatus panel_mounted) in
  exists st',
    Panel.checkStatus_resume fine st = Normal st'
    /\ Panel.status st' = JStr "active"
    /\ Panel.lastResponse st' = Some failed.
Proof.
  cbv zeta.
  destruct (status_query_success_keeps_error
              (JObj [("ok", JBool true);
                     ("data", JObj [("status", JStr "active")])])
              (JBool true) (JStr "active")
              (Panel.run
                 [Panel.StatusResponse
                    (JObj [("ok", JBool false); ("status", JNum 502)])]
                 (Panel.checkStatus panel_mounted))
              eq_refl eq_refl eq_refl)
    as (st' & E & Hs & _ & Hk & _).
  exists st'. conjuncts; [exact E | exact Hs | rewrite Hk; reflexivity].
Defined.

(** X20.  A status query that succeeds without a body ([data] is
    [undefined] or [null]) throws a TypeError from [checkStatus]: the
    status and the kept error are as before, and the loading state set
    when the query left is never ended. *)
Theorem status_query_without_body (response ok : JsValue) (st : Panel.State)
  (has_ok : getProp response "ok" = Some ok)
  (is_ok : truthy ok = true)
  (no_body : field response "data" = JUndefined
             \/ field response "data" = JNull) :
  exists st',
    Panel.checkStatus_resume response (Panel.checkStatus st)
    = Throw TypeError st'
    /\ Panel.loadingAction st' = Some "status"
    /\ Panel.status st' = Panel.status st
    /\ Panel.lastResponse st' = Panel.lastResponse st
    /\ Panel.sessionState st' = Panel.sessionState st.
Proof.
  unfold Panel.checkStatus_resume. rewrite has_ok, is_ok.
  destruct no_body as [-> | ->]; cbn [getProp];
    eexists; (split; [reflexivity|]); now conjuncts.
Qed.

Lemma status_query_without_body_witness :
  exists st',
    Panel.checkStatus_resume (JObj [("ok", JBool true)])
                             (Panel.checkStatus panel_mounted)
    = Throw TypeError st'
    /\ Panel.loadingAction st' = Some "status".
Proof.
  destruct (status_query_without_body (JObj [("ok", JBool true)]) (JBool true)
              panel_mounted eq_refl eq_refl (or_introl eq_refl))
    as (st' & E & Hl & _).
  exists st'. now split.
Defined.

(** X21.  The error object the HTTP client builds always has [ok]
    false, the response's status code and a non-empty [details]; it
    takes [error] and [details] from the body when the body has them
    truthy, and otherwise the status text and the fixed "no details"
    sentence, in particular when there is no body at all. *)
Theorem api_error_payload (response : ApiClient.FetchResponse) :
  let e := ApiClient.onResponseError response in
  let body := ApiClient._data response in
  field e "ok" = JBool false
  /\ field e "status" = JNum (ApiClient.status response)
  /\ truthy (field e "details") = true
  /\ field e "error"
     = (if truthy (field body "error") then field body "error"
        else JStr (ApiClient.statusText response))
  /\ field e "details"
     = (if truthy (field body "details") then field body "details"
        else JStr ApiClient.no_details)
  /\ ((body = JUndefined \/ body = JNull) ->
      field e "error" = JStr (ApiClient.statusText response)
      /\ field e "details" = JStr ApiClient.no_details).
Proof.
  cbv zeta. unfold ApiClient.onResponseError.
  change (field (JObj ?l) ?k) with (obj_get k l).
  conjuncts; try reflexivity.
  - change (truthy (js_or (field (ApiClient._data response) "details")
                          (JStr ApiClient.no_details)) = true).
    unfold js_or.
    destruct (truthy (field (ApiClient._data response) "details")) eqn:E;
      [exact E | reflexivity].
  - intros [-> | ->]; now split.
Qed.

(** X22.  What the client hands back reaches the panel through
    [checkStatus] as follows.  A response of status 400 to 599 always
    ends as status "error", with exactly the client's error object kept
    for display.  A fulfilled call whose body is an object ends as the
    body's [status] (which is [undefined] when the body has none).  A
    fulfilled call with no body makes [checkStatus] throw.  The phase
    is untouched in all three. *)
Theorem client_outcomes_reach_status (st : Panel.State) :
  (forall response, exists st',
      Panel.checkStatus_resume
        (ApiClient.getStatus (ApiClient.HttpError response)) st = Normal st'
      /\ Panel.status st' = JStr "error"
      /\ Panel.lastResponse st' = Some (ApiClient.onResponseError response)
      /\ Panel.loadingAction st' = None
      /\ Panel.sessionState st' = Panel.sessionState st)
  /\ (forall members, exists st',
         Panel.checkStatus_resume
           (ApiClient.getStatus (ApiClient.Fulfilled (JObj members))) st
         = Normal st'
         /\ Panel.status st' = obj_get "status" members
         /\ Panel.lastResponse st' = Panel.lastResponse st
         /\ Panel.sessionState st' = Panel.sessionState st)
  /\ (exists st',
         Panel.checkStatus_resume
           (ApiClient.getStatus (ApiClient.Fulfilled JUndefined)) st
         = Throw TypeError st'
         /\ Panel.status st' = Panel.status st
         /\ Panel.loadingAction st' = Panel.loadingAction st
         /\ Panel.sessionState st' = Panel.sessionState st).
Proof.
  conjuncts.
  - intros response.
    destruct (checkStatus_failure
                (ApiClient.getStatus (ApiClient.HttpError response))
                (JBool false) st eq_refl eq_refl)
      as (st' & E & Hs & Hr & Hl & Hp).
    exists st'. now conjuncts.
  - intros members. eexists. split; [reflexivity|]. now conjuncts.
  - eexists. split; [reflexivity|]. now conjuncts.
Qed.

(** ** The panel's buttons *)

Lemma term_do_term (op : Panel.TermOp) (st : Panel.State) :
  Panel.term (Panel.term_do op st)
  = option_map (fun ops => (ops ++ [op])%list) (Panel.term st).
Proof.
  unfold Panel.term_do.
  destruct (Panel.term st) eqn:E; cbn; now rewrite ?E.
Qed.

(** X23.  Stop Server is never turned down, and whatever the state of
    the socket it neither changes the phase nor asks for the status.
    Over an open socket it sends exactly one frame: in a running
    session the line "stop" with its newline, as stdin, leaving the
    terminal as it is; otherwise the start command for the "stop"
    script, after resetting the terminal.  Over a socket that is not
    open, or without one, it sends nothing and writes the "not
    connected" error line, after the reset when the session is not
    running. *)
Theorem onStop_policy (st : Panel.State) :
  let st' := Panel.onStop st in
  let is_running := SessionState_eqb (Panel.sessionState st) running in
  Panel.sessionState st' = Panel.sessionState st
  /\ Panel.statusQueries st' = Panel.statusQueries st
  /\ Panel.isWsConnected st' = Panel.isWsConnected st
  /\ (socket_in [OPEN] (Panel.ws st) = true ->
      Panel.outbox st'
      = (Panel.outbox st
         ++ [if is_running
             then dq "{'action':'stdin','data':'stop\n'}"
             else dq "{'action':'start','script':'stop'}"])%list
      /\ Panel.term st'
         = option_map
             (fun ops => (ops ++ if is_running then [] else [Panel.reset])%list)
             (Panel.term st))
  /\ (socket_in [OPEN] (Panel.ws st) = false ->
      Panel.outbox st' = Panel.outbox st
      /\ Panel.term st'
         = option_map
             (fun ops => (ops ++ (if is_running then [] else [Panel.reset])
                              ++ [Panel.not_connected_line])%list)
             (Panel.term st)).
Proof.
  cbv zeta. unfold Panel.onStop.
  assert (Hsock : forall rs,
             socket_in rs (Panel.ws (Panel.term_do Panel.reset st))
             = socket_in rs (Panel.ws st)).
  { intros rs. unfold Panel.term_do. now destruct (Panel.term st). }
  assert (Hq : forall m x, Panel.statusQueries (Panel.sendWsMessage m x)
                           = Panel.statusQueries x).
  { intros m x. unfold Panel.sendWsMessage, Panel.term_do. now split_tests. }
  assert (Hf : forall m x, Panel.isWsConnected (Panel.sendWsMessage m x)
                           = Panel.isWsConnected x).
  { intros m x. unfold Panel.sendWsMessage, Panel.term_do. now split_tests. }
  destruct (SessionState_eqb (Panel.sessionState st) running) eqn:Hrun.
  - conjuncts; [apply panel_send_sessionState | apply Hq | apply Hf | |].
    + intros Hopen.
      destruct (panel_send_open (cmd_stdin ("stop" ++ LF)) st Hopen)
        as [Ho Ht].
      rewrite Ho, Ht. split; [reflexivity|].
      destruct (Panel.term st); cbn; now rewrite ?app_nil_r.
    + intros Hclosed.
      rewrite (panel_send_not_open (cmd_stdin ("stop" ++ LF)) st Hclosed).
      split; [apply term_do_outbox | apply term_do_term].
  - conjuncts.
    + now rewrite panel_send_sessionState, term_do_sessionState.
    + now rewrite Hq, term_do_statusQueries.
    + now rewrite Hf, term_do_isWsConnected.
    + intros Hopen. rewrite <- Hsock in Hopen.
      destruct (panel_send_open (cmd_start "stop") _ Hopen) as [Ho Ht].
      rewrite Ho, Ht, term_do_outbox. split; [reflexivity|].
      apply term_do_term.
    + intros Hclosed. rewrite <- Hsock in Hclosed.
      rewrite (panel_send_not_open (cmd_start "stop") _ Hclosed).
      rewrite !term_do_outbox, !term_do_term. split; [reflexivity|].
      destruct (Panel.term st); cbn; now rewrite <- ?app_assoc.
Qed.

Lemma onStop_policy_witness :
  let st := Panel.run panel_running panel_mounted in
  let closing := Panel.step st Panel.WsClosing in
  (Panel.outbox (Panel.onStop st)
   = (Panel.outbox st ++ [dq "{'action':'stdin','data':'stop\n'}"])%list
   /\ Panel.term (Panel.onStop st) = Panel.term st)
  /\ (Panel.outbox (Panel.onStop closing) = Panel.outbox closing
      /\ Panel.sessionState (Panel.onStop closing) = running).
Proof.
  cbv zeta. split.
  - destruct (onStop_policy (Panel.run panel_running panel_mounted))
      as (_ & _ & _ & Hopen & _).
    destruct (Hopen eq_refl) as [Ho Ht]. split; [exact Ho|].
    rewrite Ht. vm_compute. reflexivity.
  - destruct (onStop_policy
                (Panel.step (Panel.run panel_running panel_mounted)
                            Panel.WsClosing))
      as (Hp & _ & _ & _ & Hclosed).
    destruct (Hclosed eq_refl) as [Ho _]. split; [exact Ho|].
    rewrite Hp. vm_compute. reflexivity.
Defined.

(** X24.  A start button pressed in a session that is not running
    resets the terminal and hands one start command to the socket, for
    "start-interactive", "restart" or "update"; it never changes the
    phase (that is the started event's doing), and Start alone also
    asks for the status, whether or not the command could be sent. *)
Theorem start_buttons (a : PanelGate.Action) (st : Panel.State)
  (accepted : PanelGate.rejects a st = false) :
  let st' := PanelGate.perform a st in
  let script := match a with
                | PanelGate.Start => "start-interactive"
                | PanelGate.Restart => "restart"
                | PanelGate.Update => "update"
                end in
  Panel.sessionState st' = Panel.sessionState st
  /\ Panel.statusQueries st'
     = (match a with PanelGate.Start => 1 | _ => 0 end
        + Panel.statusQueries st)%nat
  /\ (socket_in [OPEN] (Panel.ws st) = true ->
      Panel.outbox st'
      = (Panel.outbox st ++ [JSON_stringify (cmd_start script)])%list
      /\ Panel.term st'
         = option_map (fun ops => (ops ++ [Panel.reset])%list) (Panel.term st))
  /\ (socket_in [OPEN] (Panel.ws st) = false ->
      Panel.outbox st' = Panel.outbox st).
Proof.
  cbv zeta. unfold PanelGate.rejects in accepted.
  assert (Hq : forall m x, Panel.statusQueries (Panel.sendWsMessage m x)
                           = Panel.statusQueries x).
  { intros m x. unfold Panel.sendWsMessage, Panel.term_do. now split_tests. }
  assert (Hsock : forall rs, socket_in rs (Panel.ws (Panel.term_do Panel.reset st))
                             = socket_in rs (Panel.ws st)).
  { intros rs. unfold Panel.term_do. now destruct (Panel.term st). }
  assert (Hterm : Panel.term (Panel.term_do Panel.reset st)
                  = option_map (fun ops => (ops ++ [Panel.reset])%list)
                               (Panel.term st)).
  { apply term_do_term. }
  assert (Hgo : forall script,
             let x := Panel.sendWsMessage (cmd_start script)
                        (Panel.term_do Panel.reset st) in
             Panel.sessionState x = Panel.sessionState st
             /\ Panel.statusQueries x = Panel.statusQueries st
             /\ (socket_in [OPEN] (Panel.ws st) = true ->
                 Panel.outbox x
                 = (Panel.outbox st ++ [JSON_stringify (cmd_start script)])%list
                 /\ Panel.term x
                    = option_map (fun ops => (ops ++ [Panel.reset])%list)
                                 (Panel.term st))
             /\ (socket_in [OPEN] (Panel.ws st) = false ->
                 Panel.outbox x = Panel.outbox st)).
  { intros script. cbv zeta. conjuncts.
    - now rewrite panel_send_sessionState, term_do_sessionState.
    - now rewrite Hq, term_do_statusQueries.
    - intros Hopen. rewrite <- Hsock in Hopen.
      destruct (panel_send_open (cmd_start script) _ Hopen) as [-> ->].
      now rewrite term_do_outbox.
    - intros Hopen. rewrite <- Hsock in Hopen.
      rewrite (panel_send_not_open (cmd_start script) _ Hopen).
      now rewrite !term_do_outbox. }
  destruct a; cbn [PanelGate.perform];
    unfold Panel.onStart, Panel.onRestart, Panel.onUpdate;
    rewrite accepted.
  - destruct (Hgo "start-interactive") as (H1 & H2 & H3 & H4).
    conjuncts; try assumption.
    cbn [Panel.statusQueries Panel.checkStatus Panel.set_loadingAction].
    now rewrite H2.
  - apply (Hgo "restart").
  - apply (Hgo "update").
Qed.

Lemma start_buttons_witness :
  let st := Panel.run [Panel.WsOpen; Panel.WsMessage frame_ready] panel_mounted in
  let st' := PanelGate.perform PanelGate.Update st in
  Panel.sessionState st' = idle
  /\ Panel.outbox st' = [dq "{'action':'start','script':'update'}"].
Proof.
  cbv zeta.
  destruct (start_buttons PanelGate.Update
              (Panel.run [Panel.WsOpen; Panel.WsMessage frame_ready]
                         panel_mounted) eq_refl)
    as (Hp & _ & Hsend & _).
  split; [rewrite Hp; reflexivity|].
  destruct (Hsend eq_refl) as [Ho _]. rewrite Ho. reflexivity.
Defined.


Section PanelTraces.
Import Panel PanelLink.

Lemma term_do_ws (op : TermOp) (st : State) : ws (term_do op st) = ws st.
Proof. unfold term_do. now destruct (term st). Qed.

Lemma with_socket_outbox (r : ReadyState) (st : State) :
  outbox (with_socket (ws_set_readyState r) st) = outbox st.
Proof.
  unfold with_socket, outbox. destruct (ws st) as [w|] eqn:E; cbn;
    now rewrite ?E.
Qed.

Lemma only_writes_outbox (st st' : State) :
  ws st' = ws st -> outbox st' = outbox st.
Proof. unfold outbox. now intros ->. Qed.

Lemma resume_keeps_socket (response : JsValue) (st : State) :
  ws (state_after (checkStatus_resume response st)) = ws st.
Proof. unfold checkStatus_resume. now split_tests. Qed.

Lemma panel_command_carried (cmd : JsValue) :
  is_command cmd -> carries_command (JSON_stringify cmd).
Proof.
  intros H. exists cmd. split; [|exact H].
  destruct H as [(s & _ & ->) | (d & ->)].
  - apply start_frame_reads_back.
  - apply stdin_frame_reads_back.
Qed.

Lemma panel_send_keeps_carried (m : JsValue) (st : State) :
  is_command m ->
  Forall carries_command (outbox st) ->
  Forall carries_command (outbox (sendWsMessage m st)).
Proof.
  intros Hm Hall. destruct (socket_in [OPEN] (ws st)) eqn:Hopen.
  - rewrite (proj1 (panel_send_open m st Hopen)).
    apply Forall_app. split; [exact Hall|].
    constructor; [now apply panel_command_carried | constructor].
  - rewrite (panel_send_not_open m st Hopen). now rewrite term_do_outbox.
Qed.

Lemma button_script (script : string) :
  In script buttonScripts -> is_command (cmd_start script).
Proof. intros H. left. now exists script. Qed.

Lemma panel_step_carried (st : State) (ev : Event) :
  Forall carries_command (outbox st) ->
  Forall carries_command (outbox (step st ev)).
Proof.
  intros Hall. unfold step.
  destruct (enabled ev st); cbn [negb]; [|exact Hall].
  assert (Hreset : Forall carries_command (outbox (term_do reset st)))
    by now rewrite term_do_outbox.
  destruct ev.
  - unfold onStart. destruct (SessionState_eqb _ _); [exact Hall|].
    change (Forall carries_command
              (outbox (sendWsMessage (cmd_start "start-interactive")
                         (term_do reset st)))).
    apply panel_send_keeps_carried; [|exact Hreset].
    apply button_script. simpl. tauto.
  - unfold onStop. destruct (SessionState_eqb _ _).
    + apply panel_send_keeps_carried; [|exact Hall]. right. now eexists.
    + apply panel_send_keeps_carried; [|exact Hreset].
      apply button_script. simpl. tauto.
  - unfold onUpdate. destruct (SessionState_eqb _ _); [exact Hall|].
    apply panel_send_keeps_carried; [|exact Hreset].
    apply button_script. simpl. tauto.
  - unfold onData. destruct (_ && _); [|exact Hall].
    apply panel_send_keeps_carried; [|exact Hall]. right. now eexists.
  - now rewrite (only_writes_outbox _ _ (resume_keeps_socket response st)).
  - unfold onopen. rewrite term_do_outbox.
    change (Forall carries_command
              (outbox (with_socket (ws_set_readyState OPEN) st))).
    now rewrite with_socket_outbox.
  - now rewrite with_socket_outbox.
  - unfold onclose.
    change (outbox (checkStatus ?x)) with (outbox x).
    rewrite term_do_outbox.
    change (Forall carries_command
              (outbox (with_socket (ws_set_readyState CLOSED) st))).
    now rewrite with_socket_outbox.
  - unfold onerror. now rewrite term_do_outbox.
  - destruct (panel_message_writes rawData st) as [Hw _].
    unfold outbox. now rewrite Hw.
Qed.

End PanelTraces.

(** X26.  Along every run of the panel, however it was mounted, every
    frame handed to the socket is JSON for a start command naming
    "start-interactive", "stop" or "update", or for a stdin command. *)
Theorem panel_sends_only_commands (client container : bool) (api : string)
  (thrown : option string) (evs : list Panel.Event) :
  Forall PanelLink.carries_command
    (Panel.outbox
       (Panel.run evs
          (state_after (Panel.onMounted client container api thrown
                          Panel.initial)))).
Proof.
  assert (H : forall st,
             Forall PanelLink.carries_command (Panel.outbox st) ->
             Forall PanelLink.carries_command (Panel.outbox (Panel.run evs st))).
  { induction evs as [|ev evs IH]; intros st Hall; [exact Hall|].
    apply IH. now apply panel_step_carried. }
  apply H.
  unfold Panel.onMounted, Panel.connectWebSocket, Panel.initializeTerminal.
  destruct thrown, (client && container); constructor.
Qed.

(* ================================================================== *)
(** * The token store                                                   *)
(* ================================================================== *)

Section AuthForm.
Import Auth.

(** The form never stores an empty token. *)
Lemma auth_step_token (st : State) (ev : Event) :
  (forall t, token st = Some t -> t <> "") ->
  (forall t, token (step st ev) = Some t -> t <> "").
Proof.
  intros Inv t. destruct ev; cbn [step]; [apply Inv|].
  unfold saveToken.
  destruct (String.eqb_spec (localToken st) "") as [E|E]; cbn [negb];
    [apply Inv|].
  cbn [token setToken]. intros H. now injection H as <-.
Qed.

Lemma auth_step_keeps_login (st : State) (ev : Event) :
  isAuthenticated st = true -> isAuthenticated (step st ev) = true.
Proof.
  intros H. destruct ev; cbn [step]; [exact H|].
  unfold saveToken.
  destruct (String.eqb_spec (localToken st) "") as [E|E]; cbn [negb];
    [exact H|].
  unfold isAuthenticated. cbn [token setToken].
  now apply negb_true_iff, String.eqb_neq.
Qed.

Lemma auth_run_keeps_login (evs : list Event) (st : State) :
  isAuthenticated st = true -> isAuthenticated (run evs st) = true.
Proof.
  revert st. induction evs as [|ev evs IH]; intros st H; [exact H|].
  apply IH, auth_step_keeps_login, H.
Qed.

End AuthForm.

(** X27.  Through the settings form the token is never set to the
    empty string, so along every run [isAuthenticated] holds exactly
    when a token has been saved; saving with an empty field changes
    nothing and shows no alert; and nothing the form offers ever takes
    a login back: once authenticated, always authenticated. *)
Theorem auth_form_runs (evs more : list Auth.Event) :
  let st := Auth.run evs Auth.initial in
  (Auth.isAuthenticated st = true <-> Auth.token st <> None)
  /\ (Auth.localToken st = "" -> Auth.saveToken st = st)
  /\ (Auth.isAuthenticated st = true ->
      Auth.isAuthenticated (Auth.run more st) = true).
Proof.
  cbv zeta.
  assert (Inv : forall t, Auth.token (Auth.run evs Auth.initial) = Some t ->
                          t <> "").
  { assert (H : forall st,
               (forall t, Auth.token st = Some t -> t <> "") ->
               forall t, Auth.token (Auth.run evs st) = Some t -> t <> "").
    { induction evs as [|ev evs IH]; intros st H; [exact H|].
      apply IH. now apply auth_step_token. }
    apply H. discriminate. }
  conjuncts.
  - unfold Auth.isAuthenticated.
    destruct (Auth.token (Auth.run evs Auth.initial)) as [t|] eqn:E.
    + split; [discriminate|]. intros _.
      apply negb_true_iff, String.eqb_neq. now apply Inv.
    + split; [discriminate | intros H; now contradiction H].
  - intros H. unfold Auth.saveToken. now rewrite H.
  - apply auth_run_keeps_login.
Qed.

Lemma auth_form_runs_witness :
  let st := Auth.run [Auth.ClickSave] Auth.initial in
  Auth.token st = Some "hogwarts"
  /\ Auth.isAuthenticated (Auth.run [Auth.Input ""; Auth.ClickSave] st) = true.
Proof.
  cbv zeta. split; [reflexivity|].
  apply (proj2 (proj2 (auth_form_runs [Auth.ClickSave]
                         [Auth.Input ""; Auth.ClickSave]))).
  reflexivity.
Defined.
